(** * WhatsApp gateway: identity utilities, inbound filter, outbound dispatcher

    A shallow embedding of the Go package [models] (session supervisor
    [WhatsAppClientManager], inbound filter [ReceiveMessage], outbound
    dispatcher [StartMessageSending], policy lookup [GetRecruiterConfig])
    together with the properties the specification states about them. *)

From Stdlib Require Import String Ascii List ZArith Bool Lia.
From stdpp Require Import base option gmap strings.
Import ListNotations.

Local Open Scope string_scope.
Local Open Scope list_scope.

(** ** Go's [strings] package, as far as the sources use it

    Go strings are byte sequences; so are Rocq's [string]s. *)

(** [strings.Index(s, substr)]: position of the first occurrence, [None] for Go's -1. *)
Definition strings_Index (s substr : string) : option nat :=
  String.index 0 substr s.

(** [strings.Contains(s, substr)] is [Index(s, substr) >= 0]. *)
Definition strings_Contains (s substr : string) : bool :=
  match strings_Index s substr with
  | Some _ => true
  | None => false
  end.

(** The tail of [s] from byte offset [n] on: Go's [s[n:]]. *)
Definition slice_from (n : nat) (s : string) : string :=
  String.substring n (String.length s - n) s.

(** [strings.Split] for a non-empty separator cuts at every occurrence of
    [sep]; the loop of Go's [genSplit] runs at most [length s] times, which
    is the fuel here. *)
Fixpoint genSplit (fuel : nat) (s sep : string) : list string :=
  match fuel with
  | O => [s]
  | S fuel' =>
      match strings_Index s sep with
      | None => [s]
      | Some m =>
          String.substring 0 m s
            :: genSplit fuel' (slice_from (m + String.length sep) s) sep
      end
  end.

(** With an empty separator Go explodes the string into its characters. *)
Fixpoint explode (s : string) : list string :=
  match s with
  | EmptyString => []
  | String a s' => String a EmptyString :: explode s'
  end.

Definition strings_Split (s sep : string) : list string :=
  if String.eqb sep "" then explode s else genSplit (String.length s) s sep.

(** ** Identity utilities (client manager file) *)

(** [ExtractPhoneNumber]: the part of a JID before the first "@", or before
    the first ":" when the JID has no "@". *)
Definition ExtractPhoneNumber (jid : string) : string :=
  let delimiter := if strings_Contains jid "@" then "@" else ":" in
  let parts := strings_Split jid delimiter in
  match parts with
  | p :: _ => p
  | [] => ""
  end.

(** [ConvertToJID]: 91XXXXXXXXX to 91XXXXXXXXX@s.whatsapp.net. *)
Definition ConvertToJID (number : string) : string :=
  number +:+ "@s.whatsapp.net".

(** *** The two transforms as the specification words them

    [to_bare]: split on '@' if present, else on ':', return the prefix;
    [to_qualified]: append the transport suffix. *)

Fixpoint occurs (c : ascii) (s : string) : bool :=
  match s with
  | EmptyString => false
  | String a s' => if Ascii.eqb a c then true else occurs c s'
  end.

Fixpoint prefix_before (c : ascii) (s : string) : string :=
  match s with
  | EmptyString => EmptyString
  | String a s' => if Ascii.eqb a c then EmptyString else String a (prefix_before c s')
  end.

Definition to_bare (addr : string) : string :=
  if occurs "@" addr then prefix_before "@" addr else prefix_before ":" addr.

Definition to_qualified (bare : string) : string :=
  bare +:+ "@s.whatsapp.net".


(** ** Data model (configTypes.go and the message type) *)

Definition error := string.

(** A [time.Time], kept as an instant; [UTC()] changes the location the
    instant is shown in, never the instant. *)
Definition Time := Z.
Definition UTC (t : Time) : Time := t.

(** [WhatsAppContent] is [interface{}]: the filter stores a string (text),
    the downloaded bytes (media) or a presence state in it, or leaves it nil. *)
Inductive WhatsAppContent :=
| ContentNil
| ContentString (s : string)
| ContentBytes (data : string)
| ContentPresence (state : string).

Record WhatsAppMessage := {
  EventType : string;
  TimeStamp : Time;
  SenderID : string;
  ReceiverID : string;
  ChatID : string;
  MessageID : string;
  MsgType : string;
  MediaType : string;
  IsGroup : bool;
  Content : WhatsAppContent;
  MimeType : string;
  ErrorCode : string
}.

(** Go's zero value, what [var payload WhatsAppMessage] holds. *)
Definition zero_WhatsAppMessage : WhatsAppMessage :=
  {| EventType := ""; TimeStamp := 0%Z; SenderID := ""; ReceiverID := "";
     ChatID := ""; MessageID := ""; MsgType := ""; MediaType := "";
     IsGroup := false; Content := ContentNil; MimeType := ""; ErrorCode := "" |}.

(** Field assignments [payload.F = v]. *)
Definition set_ReceiverID (p : WhatsAppMessage) (v : string) : WhatsAppMessage :=
  {| EventType := EventType p; TimeStamp := TimeStamp p; SenderID := SenderID p;
     ReceiverID := v; ChatID := ChatID p; MessageID := MessageID p;
     MsgType := MsgType p; MediaType := MediaType p; IsGroup := IsGroup p;
     Content := Content p; MimeType := MimeType p; ErrorCode := ErrorCode p |}.

Definition set_MsgType (p : WhatsAppMessage) (v : string) : WhatsAppMessage :=
  {| EventType := EventType p; TimeStamp := TimeStamp p; SenderID := SenderID p;
     ReceiverID := ReceiverID p; ChatID := ChatID p; MessageID := MessageID p;
     MsgType := v; MediaType := MediaType p; IsGroup := IsGroup p;
     Content := Content p; MimeType := MimeType p; ErrorCode := ErrorCode p |}.

Definition set_Content (p : WhatsAppMessage) (v : WhatsAppContent) : WhatsAppMessage :=
  {| EventType := EventType p; TimeStamp := TimeStamp p; SenderID := SenderID p;
     ReceiverID := ReceiverID p; ChatID := ChatID p; MessageID := MessageID p;
     MsgType := MsgType p; MediaType := MediaType p; IsGroup := IsGroup p;
     Content := v; MimeType := MimeType p; ErrorCode := ErrorCode p |}.

Definition set_MimeType (p : WhatsAppMessage) (v : string) : WhatsAppMessage :=
  {| EventType := EventType p; TimeStamp := TimeStamp p; SenderID := SenderID p;
     ReceiverID := ReceiverID p; ChatID := ChatID p; MessageID := MessageID p;
     MsgType := MsgType p; MediaType := MediaType p; IsGroup := IsGroup p;
     Content := Content p; MimeType := v; ErrorCode := ErrorCode p |}.

Definition set_ErrorCode (p : WhatsAppMessage) (v : string) : WhatsAppMessage :=
  {| EventType := EventType p; TimeStamp := TimeStamp p; SenderID := SenderID p;
     ReceiverID := ReceiverID p; ChatID := ChatID p; MessageID := MessageID p;
     MsgType := MsgType p; MediaType := MediaType p; IsGroup := IsGroup p;
     Content := Content p; MimeType := MimeType p; ErrorCode := v |}.

Record RecruiterConfig := {
  RecruiterNumber : string;
  HostClientType : string;
  HostClientName : string;
  AllowedMediaTypes : list string;
  MessageRateLimit : Z;
  Enable : bool
}.

Record RecruiterConfigDB := {
  RecruiterID : string;
  ApplicantID : string;
  Enabled : bool;
  MessageCount : Z
}.

(** Associated error codes (message handler file). *)
Definition ErrorCodeSelfMessage := "SELF_MESSAGE".
Definition ErrorCodeGroupMessage := "GROUP_MESSAGE".
Definition ErrorCodeBlockedSender := "BLOCKED_SENDER".
Definition ErrorCodeDisallowedMsgType := "DISALLOWED_MESSAGE_TYPE".
Definition ErrorCodeEmptyMessage := "EMPTY_MESSAGE".
Definition ErrorRateLimitExceeded := "EXCEEDED_MESSAGE_RATE_LIMIT".
Definition ErrorCodeUserNotEnabled := "USER_NOT_ENABLED".
Definition InfoCodeAdminMessage := "SELF_MESSAGE_ADMIN".
Definition InfoCodeRecruiterManual := "RECRUITER_MANUAL_REACHOUT".

(** ** The transport library's types, as far as the sources read them *)

(** A transport address ([types.JID]). The sources read its [User] part and
    its rendering [String()]; the model keeps these two as data. *)
Record JID := { User : string; JID_String : string }.

(** [waE2E] sub-messages: the filter reads [*m.Mimetype]; the dispatcher only
    passes them on. [Mimetype] is a pointer. *)
Record AudioMessage := { Audio_Mimetype : option string }.
Record ImageMessage := { Image_Mimetype : option string }.
Record DocumentMessage := { Document_Mimetype : option string }.

(** An inbound [waE2E.Message]: every part is a pointer. *)
Record E2EMessage := {
  Conversation : option string;
  ExtendedTextMessage_Text : option string;
  AudioMessage_ : option AudioMessage;
  ImageMessage_ : option ImageMessage;
  DocumentMessage_ : option DocumentMessage
}.

(** The generated getters return the zero value through nil pointers. *)
Definition GetConversation (m : E2EMessage) : string :=
  default "" (Conversation m).
Definition GetExtendedTextMessage_GetText (m : E2EMessage) : string :=
  default "" (ExtendedTextMessage_Text m).

(** What the dispatcher hands to the transport: [&waE2E.Message{...}] with one
    part set. Media parts are the decoded pointers, possibly nil. *)
Inductive OutMessage :=
| OutConversation (text : string)
| OutAudio (audio : option AudioMessage)
| OutImage (img : option ImageMessage)
| OutDocument (doc : option DocumentMessage).

(** [events.Message.Info]. *)
Record MessageInfo := {
  Info_Chat : JID;
  Info_Sender : JID;
  Info_IsGroup : bool;
  Info_Type : string;
  Info_MediaType : string;
  Info_Timestamp : Time
}.

(** [types.BasicCallMeta] with the [From] address. *)
Record BasicCallMeta := {
  Call_From : JID;
  Call_Timestamp : Time;
  Call_CallID : string
}.

(** The transport events [ReceiveMessage] switches on. [LoggedOut.Reason] and
    [TemporaryBan.Code]/[Expire] are read only through their renderings. *)
Inductive Event :=
| EvMessage (info : MessageInfo) (msg : E2EMessage)
| EvCallAccept (meta : BasicCallMeta)
| EvCallOffer (meta : BasicCallMeta)
| EvCallReject (meta : BasicCallMeta)
| EvLoggedOut (OnConnect : bool) (Reason_NumberString Reason_String : string)
| EvChatPresence (Chat Sender : JID) (State : string) (Media : string)
| EvTemporaryBan (Code_String Expire_String : string)
| EvOther.

(** ** Everything observable a call does *)

Inductive Level := LevelDebug | LevelInfo | LevelWarn | LevelError.

Inductive SendOp :=
| SendText (chatID : string) (text : string)
| SendAudio (chatID : string) (audio : option AudioMessage)
| SendImage (chatID : string) (img : option ImageMessage)
| SendDocument (chatID : string) (doc : option DocumentMessage)
| SendTyping (chatID : string).

(** JSON texts, as [encoding/json] parses them. *)
#[local] Set Warnings "-register-all".
Inductive json :=
| JNull
| JBool (b : bool)
| JNumber (n : Z)
| JString (s : string)
| JArray (items : list json)
| JObject (members : list (string * json)).

(** The bytes of a bus record or of a [json.RawMessage]: [None] when they are
    not one JSON text (for a [RawMessage], when it is empty). *)
Definition bytes := option json.

Record KafkaMessage := { Key : string; Value : bytes }.

Inductive effect :=
(** a structured log line: level, message, and the value of the "error_code"
    attribute when the call passes one *)
| Log (lvl : Level) (msg : string) (error_code : option string)
(** one call [wcm.MessageCallback(payload, topicName, kafkaKey)] and its result *)
| Publish (payload : WhatsAppMessage) (topicName kafkaKey : string) (err : option error)
(** one call [writer.WriteMessages] on the writer of [topic] and its result *)
| Write (topic : string) (msg : KafkaMessage) (err : option error)
(** one call of a [Send...] method on the supervisor registered under [recruiter] *)
| Invoke (recruiter : string) (op : SendOp)
(** [WhatsAppClient.SendMessage] and [SendChatPresence] on the transport *)
| TransportSend (target : JID) (m : OutMessage) (err : option error)
| TransportChatPresence (target : JID) (state : string) (err : option error)
| TransportDisconnect
| TransportLogout
(** [go func() {...}()]: a goroutine is started *)
| Go (what : string)
(** [generateQRCodeInLog]: the QR code written to the tenant's QR file *)
| QRCodeFile (recruiter qrCode description : string)
(** [WhatsAppClient.PairPhone] and its result *)
| TransportPairPhone (phoneNumber clientName : string) (res : option error)
(** the [OnLogout] callback, which removes the supervisor from the fleet *)
| OnLogoutCall (recruiterID : string).

(** ** Library functions and objects the sources call

    Code outside the repository is not modelled: its results are parameters. *)

Inductive result (A : Type) :=
| Ok (a : A)
| Err (e : error).
Arguments Ok {A} a.
Arguments Err {A} e.

(** A [*whatsmeow.Client]: what each of its methods answers. [Store.ID] is a
    pointer, nil until the device is paired. *)
Record Client := {
  Store_ID : option JID;
  Client_SendPresence : option error;
  Client_DownloadAny : E2EMessage -> result string;
  Client_SendMessage : JID -> OutMessage -> option error;
  Client_SendChatPresence : JID -> string -> option error
}.

(** A [*store.Device]; its [ID] is a pointer. *)
Record Device := { Device_ID : option JID }.

(** The [*sqlstore.Container]: [GetDevice] yields a possibly nil device or an
    error, [NewDevice] a fresh unauthenticated device. *)
Record Container := {
  GetDevice : JID -> result (option Device);
  NewDevice : Device
}.

Class Externals := {
  (** [json.Marshal] of a normalized event *)
  json_Marshal : WhatsAppMessage -> result json;
  (** [time.Time]'s decoding of the text inside a JSON string *)
  time_Parse : string -> option Time;
  (** [json.Unmarshal] into a [*waE2E.AudioMessage], [*waE2E.ImageMessage],
      [*waE2E.DocumentMessage]: the decoded pointer, or an error *)
  Unmarshal_AudioMessage : bytes -> result (option AudioMessage);
  Unmarshal_ImageMessage : bytes -> result (option ImageMessage);
  Unmarshal_DocumentMessage : bytes -> result (option DocumentMessage);
  (** [types.ParseJID] *)
  ParseJID : string -> result JID;
  (** the constant [types.ChatPresenceMediaText] *)
  ChatPresenceMediaText : string;
  (** [whatsmeow.NewClient] on a device store; the sources test its result
      against nil *)
  whatsmeow_NewClient : Device -> option Client;
  (** [shortuuid.New()] and [time.Now()] at the call being modelled *)
  shortuuid_New : string;
  time_Now : Time;
  (** [uuid.New().String()] as drawn in the n-th iteration of the dispatcher *)
  uuid_New : nat -> string
}.

(** One row of [configs]; a column is [None] when it is SQL NULL. *)
Record Row := {
  col_recruiter_id : option string;
  col_applicant_id : option string;
  col_enabled : option bool;
  col_message_count : option Z
}.

(** [PostgresRepository]: [Db.Query] of the policy query with its two
    arguments fails in the driver or yields the selected rows. *)
Record PostgresRepository := {
  Db_Query : string -> string -> result (list Row)
}.

Definition MessageCallback_t : Type :=
  WhatsAppMessage -> string -> string -> option error.

(** [WhatsAppClientManager], the per-tenant supervisor. Loggers are not
    state; [OnLogout] records whether a callback is installed. *)
Record WhatsAppClientManager := {
  RecruiterConfig_ : RecruiterConfig;
  WhatsAppClient : option Client;
  DeviceStore : option Device;
  Container_ : option Container;
  IsConnected : bool;
  MessageCallback : option MessageCallback_t;
  database : option PostgresRepository;
  OnLogout : bool
}.

Definition set_IsConnected (w : WhatsAppClientManager) (b : bool) : WhatsAppClientManager :=
  {| RecruiterConfig_ := RecruiterConfig_ w; WhatsAppClient := WhatsAppClient w;
     DeviceStore := DeviceStore w; Container_ := Container_ w; IsConnected := b;
     MessageCallback := MessageCallback w; database := database w;
     OnLogout := OnLogout w |}.

Definition set_DeviceStore (w : WhatsAppClientManager) (d : option Device) : WhatsAppClientManager :=
  {| RecruiterConfig_ := RecruiterConfig_ w; WhatsAppClient := WhatsAppClient w;
     DeviceStore := d; Container_ := Container_ w; IsConnected := IsConnected w;
     MessageCallback := MessageCallback w; database := database w;
     OnLogout := OnLogout w |}.

Definition set_WhatsAppClient (w : WhatsAppClientManager) (c : option Client) : WhatsAppClientManager :=
  {| RecruiterConfig_ := RecruiterConfig_ w; WhatsAppClient := c;
     DeviceStore := DeviceStore w; Container_ := Container_ w; IsConnected := IsConnected w;
     MessageCallback := MessageCallback w; database := database w;
     OnLogout := OnLogout w |}.

Definition set_OnLogout (w : WhatsAppClientManager) (b : bool) : WhatsAppClientManager :=
  {| RecruiterConfig_ := RecruiterConfig_ w; WhatsAppClient := WhatsAppClient w;
     DeviceStore := DeviceStore w; Container_ := Container_ w; IsConnected := IsConnected w;
     MessageCallback := MessageCallback w; database := database w;
     OnLogout := b |}.

(** ** A Go function body as a computation

    A body emits effects in order and, at each statement, goes on with a
    value, executes [return] with the function's result, or panics (nil
    dereference, nil function call). *)

Inductive outcome (R A : Type) :=
| Next (a : A)
| Returned (r : R)
| Panicked.
Arguments Next {R A} a.
Arguments Returned {R A} r.
Arguments Panicked {R A}.

Definition Proc (R A : Type) : Type := (list effect * outcome R A)%type.

Definition ret {R A} (a : A) : Proc R A := ([], Next a).
Definition return_ {R A} (r : R) : Proc R A := ([], Returned r).
Definition panic {R A} : Proc R A := ([], Panicked).
Definition emit {R} (e : effect) : Proc R unit := ([e], Next tt).

Definition bind {R A B} (m : Proc R A) (k : A -> Proc R B) : Proc R B :=
  match m with
  | (t, Next a) => let (t', o) := k a in (t ++ t', o)
  | (t, Returned r) => (t, Returned r)
  | (t, Panicked) => (t, Panicked)
  end.

Notation "'do' x <- m ; k" := (bind m (fun x => k))
  (at level 10, x name, m at level 100, k at level 200, only parsing).
Notation "'do' ' pat <- m ; k" := (bind m (fun x => match x with pat => k end))
  (at level 10, pat pattern, m at level 100, k at level 200, only parsing).

(** Dereferencing a pointer: nil panics. *)
Definition deref {R A} (p : option A) : Proc R A :=
  match p with
  | Some a => ret a
  | None => panic
  end.

Definition log {R} (lvl : Level) (msg : string) (error_code : option string) : Proc R unit :=
  emit (Log lvl msg error_code).

Definition when {R} (b : bool) (m : Proc R unit) : Proc R unit :=
  if b then m else ret tt.

(** Calling a function: its effects happen, and its result (a [return] or the
    value its body ends with) is the value of the call. *)
Definition call {R R'} (body : Proc R R) : Proc R' R :=
  match body with
  | (t, Next r) => (t, Next r)
  | (t, Returned r) => (t, Next r)
  | (t, Panicked) => (t, Panicked)
  end.

(** What a completed body did and how it ended. *)
Definition trace {R A} (m : Proc R A) : list effect := fst m.

Definition finished {R} (m : Proc R R) : option R :=
  match snd m with
  | Next r => Some r
  | Returned r => Some r
  | Panicked => None
  end.

Definition is_nil {A} (p : option A) : bool :=
  match p with
  | Some _ => false
  | None => true
  end.

(** [slices.Contains] on strings. *)
Definition slices_Contains (l : list string) (x : string) : bool :=
  existsb (String.eqb x) l.

(** ** Policy store gateway: [GetRecruiterConfig] *)

Definition zero_RecruiterConfigDB : RecruiterConfigDB :=
  {| RecruiterID := ""; ApplicantID := ""; Enabled := false; MessageCount := 0%Z |}.

(** [rows.Next(); rows.Scan(&c.RecruiterID, &c.ApplicantID, &c.Enabled,
    &c.MessageCount)]: fails when there is no row, or when a column of the
    first row is NULL. *)
Definition Scan (rows : list Row) : result RecruiterConfigDB :=
  match rows with
  | [] => Err "sql: Rows are closed"
  | r :: _ =>
      match col_recruiter_id r, col_applicant_id r, col_enabled r, col_message_count r with
      | Some rid, Some aid, Some en, Some cnt =>
          Ok {| RecruiterID := rid; ApplicantID := aid; Enabled := en; MessageCount := cnt |}
      | _, _, _, _ => Err "sql: Scan error: converting NULL is unsupported"
      end
  end.

Definition GetRecruiterConfig (recruiterID senderID : string)
    (postgresDriver : option PostgresRepository)
  : Proc (RecruiterConfigDB * option error) (RecruiterConfigDB * option error) :=
  do _ <- log LevelDebug "Query executed" None;
  do driver <- deref postgresDriver;
  match Db_Query driver recruiterID senderID with
  | Err err =>
      do _ <- log LevelError "failed to execute query" None;
      return_ (zero_RecruiterConfigDB, Some ("failed to execute query: " +:+ err))
  | Ok rows =>
      match Scan rows with
      | Err _ =>
          do _ <- log LevelWarn "No record found " None;
          do _ <- log LevelInfo "setting Default values for the recruiter and applicant" None;
          return_ ({| RecruiterID := recruiterID; ApplicantID := senderID;
                      Enabled := true; MessageCount := 0%Z |}, None)
      | Ok configs =>
          do _ <- log LevelDebug "Config from DB " None;
          return_ (configs, None)
      end
  end.

(** ** Session supervisor: logout *)

(** [LogoutEventHandler]: reads the client's context first (a nil client
    panics there), logs out when live, then triggers the [OnLogout] callback. *)
Definition LogoutEventHandler (wcm : WhatsAppClientManager)
  : Proc WhatsAppClientManager WhatsAppClientManager :=
  do _ <- deref (WhatsAppClient wcm);
  do wcm <-
    (if negb (is_nil (WhatsAppClient wcm)) && IsConnected wcm then
       let wcm := set_IsConnected wcm false in
       do _ <- emit TransportLogout;
       do _ <- log LevelDebug "disconnecting wcm.WhatsAppClient.Logout() " None;
       do _ <- log LevelInfo "WhatsApp client disconnected" None;
       ret wcm
     else ret wcm);
  do _ <- when (OnLogout wcm) (emit (OnLogoutCall (RecruiterNumber (RecruiterConfig_ wcm))));
  ret wcm.

(** ** Inbound filter and normalizer: [ReceiveMessage] *)

(** The function returns nothing; the model keeps the locals [isBlocked] and
    [payload] as they stand when it ends, and the supervisor it was called on. *)
Record Exit := {
  isBlocked : bool;
  payload : WhatsAppMessage;
  wcm_final : WhatsAppClientManager
}.

(** One call [wcm.MessageCallback(payload, topicName, kafkaKey)]; calling a
    nil function value panics. *)
Definition callback {R} (wcm : WhatsAppClientManager) (payload : WhatsAppMessage)
    (topicName kafkaKey : string) : Proc R (option error) :=
  do cb <- deref (MessageCallback wcm);
  let err := cb payload topicName kafkaKey in
  do _ <- emit (Publish payload topicName kafkaKey err);
  ret err.

(** [switch v.Info.Type]: content extraction. *)
Definition Message_content (wcm : WhatsAppClientManager) (client : Client)
    (info : MessageInfo) (msg : E2EMessage) (payload : WhatsAppMessage)
  : Proc Exit WhatsAppMessage :=
  if String.eqb (Info_Type info) "text" then
    let payload := set_MsgType payload "text" in
    let msgToPayload := GetExtendedTextMessage_GetText msg in
    let msgToPayload :=
      if String.eqb msgToPayload "" then GetConversation msg else msgToPayload in
    if String.eqb msgToPayload "" then
      let isBlocked := true in
      do _ <- log LevelWarn "Blocked: Empty message" (Some (ErrorCode payload));
      return_ {| isBlocked := isBlocked; payload := payload; wcm_final := wcm |}
    else
      ret (set_Content payload (ContentString msgToPayload))
  else if String.eqb (Info_Type info) "media" then
    match Client_DownloadAny client msg with
    | Err _ =>
        do _ <- log LevelError "Error downloading media" None;
        return_ {| isBlocked := false; payload := payload; wcm_final := wcm |}
    | Ok data =>
        do '(payload, mimeType) <-
          (if String.eqb (Info_MediaType info) "audio" || String.eqb (Info_MediaType info) "ptt" then
             let payload := set_MsgType payload "audio" in
             do m <- deref (AudioMessage_ msg);
             do mimeType <- deref (Audio_Mimetype m);
             ret (payload, mimeType)
           else if String.eqb (Info_MediaType info) "image" then
             let payload := set_MsgType payload "image" in
             do m <- deref (ImageMessage_ msg);
             do mimeType <- deref (Image_Mimetype m);
             ret (payload, mimeType)
           else if String.eqb (Info_MediaType info) "document" then
             let payload := set_MsgType payload "document" in
             do m <- deref (DocumentMessage_ msg);
             do mimeType <- deref (Document_Mimetype m);
             ret (payload, mimeType)
           else
             do _ <- log LevelWarn "Unsupported media type" None;
             return_ {| isBlocked := false; payload := payload; wcm_final := wcm |});
        let payload := set_Content payload (ContentBytes data) in
        let payload := set_MimeType payload mimeType in
        ret payload
    end
  else ret payload.

(** The self-message branch, [senderID == storeID]. *)
Definition Message_self (wcm : WhatsAppClientManager) (chatID senderID kafkaKey : string)
    (payload : WhatsAppMessage) : Proc Exit (bool * WhatsAppMessage) :=
  let isBlocked := true in
  if String.eqb chatID (ConvertToJID (RecruiterNumber (RecruiterConfig_ wcm))) then
    do err <- callback wcm payload "admin" kafkaKey;
    match err with
    | Some _ =>
        do _ <- log LevelError "Error sending message to admin topic " None;
        return_ {| isBlocked := isBlocked; payload := payload; wcm_final := wcm |}
    | None =>
        let payload := set_ErrorCode payload InfoCodeAdminMessage in
        do _ <- log LevelInfo "[Redirect]: Reason: Self-message (Admin topic)"
                  (Some (ErrorCode payload));
        ret (isBlocked, payload)
    end
  else
    do _ <- log LevelDebug "Extracted ph no" None;
    let payload := set_ReceiverID payload (ExtractPhoneNumber chatID) in
    let payload := set_ErrorCode payload InfoCodeRecruiterManual in
    do _ <- log LevelInfo "[Blocked]: Reason: Recruiter manual message to applicant"
              (Some (ErrorCode payload));
    ret (isBlocked, payload).

(** The four checks of the peer branch, each an [if] of its own. *)
Definition check_membership {R} (configFromDb : RecruiterConfigDB)
    (st : bool * WhatsAppMessage) : Proc R (bool * WhatsAppMessage) :=
  let '(isBlocked, payload) := st in
  if negb (Enabled configFromDb) then
    let isBlocked := true in
    let payload := set_ErrorCode payload ErrorCodeBlockedSender in
    do _ <- log LevelWarn "[Blocked]: Reason: Sender ID not allowed" (Some (ErrorCode payload));
    ret (isBlocked, payload)
  else ret (isBlocked, payload).

Definition check_rate_limit {R} (wcm : WhatsAppClientManager) (configFromDb : RecruiterConfigDB)
    (st : bool * WhatsAppMessage) : Proc R (bool * WhatsAppMessage) :=
  let '(isBlocked, payload) := st in
  if (MessageCount configFromDb >=? MessageRateLimit (RecruiterConfig_ wcm))%Z then
    let isBlocked := true in
    let payload := set_ErrorCode payload ErrorRateLimitExceeded in
    do _ <- log LevelWarn
              "[Blocked]: Reason: Messages to this chat have exceeded the rate limit"
              (Some (ErrorCode payload));
    ret (isBlocked, payload)
  else ret (isBlocked, payload).

Definition check_group {R} (info : MessageInfo)
    (st : bool * WhatsAppMessage) : Proc R (bool * WhatsAppMessage) :=
  let '(isBlocked, payload) := st in
  if Info_IsGroup info then
    let isBlocked := true in
    let payload := set_ErrorCode payload ErrorCodeGroupMessage in
    do _ <- log LevelWarn "[Blocked]: Reason: Group message" None;
    ret (isBlocked, payload)
  else ret (isBlocked, payload).

(** The condition of the allowed-type check, before its negation. *)
Definition kind_allowed (wcm : WhatsAppClientManager) (info : MessageInfo) : bool :=
  (String.eqb (Info_Type info) "media"
     && slices_Contains (AllowedMediaTypes (RecruiterConfig_ wcm)) (Info_MediaType info))
  || slices_Contains (AllowedMediaTypes (RecruiterConfig_ wcm)) (Info_Type info).

Definition check_kind_allowed {R} (wcm : WhatsAppClientManager) (info : MessageInfo)
    (st : bool * WhatsAppMessage) : Proc R (bool * WhatsAppMessage) :=
  let '(isBlocked, payload) := st in
  if negb (kind_allowed wcm info) then
    let isBlocked := true in
    do _ <- log LevelWarn "[Blocked]: Reason: Disallowed message type" None;
    ret (isBlocked, payload)
  else ret (isBlocked, payload).

(** The peer branch: policy lookup, then the four checks in source order. *)
Definition Message_peer (wcm : WhatsAppClientManager) (info : MessageInfo)
    (senderID : string) (isBlocked : bool) (payload : WhatsAppMessage)
  : Proc Exit (bool * WhatsAppMessage) :=
  do '(configFromDb, err) <-
    call (GetRecruiterConfig (RecruiterNumber (RecruiterConfig_ wcm)) senderID (database wcm));
  do _ <- when (negb (is_nil err)) (log LevelError "Issue while reading the GetRecruiterConfig" None);
  do _ <- log LevelDebug "The result from the configFromDb" None;
  do st <- check_membership configFromDb (isBlocked, payload);
  do st <- check_rate_limit wcm configFromDb st;
  do st <- check_group info st;
  check_kind_allowed wcm info st.

(** Emission: ingest unless blocked, then raw. *)
Definition Message_emit (wcm : WhatsAppClientManager) (kafkaKey : string)
    (isBlocked : bool) (payload : WhatsAppMessage) : Proc Exit Exit :=
  let exit := {| isBlocked := isBlocked; payload := payload; wcm_final := wcm |} in
  do _ <-
    (if negb isBlocked && negb (is_nil (MessageCallback wcm)) then
       do err <- callback wcm payload "ingest" kafkaKey;
       match err with
       | Some _ => do _ <- log LevelError "Error sending message" None; return_ exit
       | None => log LevelInfo "Message sent to [Ingest] topic" None
       end
     else ret tt);
  do err <- callback wcm payload "raw" kafkaKey;
  match err with
  | Some _ => do _ <- log LevelError "Error sending message" None; return_ exit
  | None => ret exit
  end.

(** The partial event the [Message] arm starts from. *)
Definition Message_new `{Externals} (info : MessageInfo) (storeJID : JID) : WhatsAppMessage :=
  {| EventType := "Message";
     TimeStamp := UTC (Info_Timestamp info);
     SenderID := User (Info_Sender info);
     ReceiverID := User storeJID;
     ChatID := JID_String (Info_Chat info);
     MessageID := shortuuid_New;
     MsgType := "";
     MediaType := Info_MediaType info;
     IsGroup := Info_IsGroup info;
     Content := ContentNil;
     MimeType := "";
     ErrorCode := "" |}.

(** [case *events.Message]. *)
Definition ReceiveMessage_Message (wcm : WhatsAppClientManager) `{Externals} (client : Client)
    (info : MessageInfo) (msg : E2EMessage) : Proc Exit Exit :=
  let isBlocked := false in
  let chatID := JID_String (Info_Chat info) in
  let senderID := User (Info_Sender info) in
  do storeJID <- deref (Store_ID client);
  let storeID := User storeJID in
  let payload := Message_new info storeJID in
  (* Key for kafka *)
  let kafkaKey := ReceiverID payload +:+ "_" +:+ SenderID payload in
  do payload <- Message_content wcm client info msg payload;
  (* Self-message check *)
  do '(isBlocked, payload) <-
    (if String.eqb senderID storeID
     then Message_self wcm chatID senderID kafkaKey payload
     else Message_peer wcm info senderID isBlocked payload);
  do _ <- log LevelInfo "EVENT Recived" None;
  Message_emit wcm kafkaKey isBlocked payload.

(** [case *events.CallAccept], [*events.CallOffer], [*events.CallReject]:
    the three arms differ in the event type only. *)
Definition ReceiveMessage_Call (wcm : WhatsAppClientManager) `{Externals} (client : Client)
    (EventType_ : string) (meta : BasicCallMeta) : Proc Exit Exit :=
  do storeJID <- deref (Store_ID client);
  let payload :=
    {| EventType := EventType_;
       TimeStamp := UTC (Call_Timestamp meta);
       SenderID := User (Call_From meta);
       ReceiverID := User storeJID;
       ChatID := Call_CallID meta;
       MessageID := shortuuid_New;
       MsgType := ""; MediaType := ""; IsGroup := false; Content := ContentNil;
       MimeType := ""; ErrorCode := "" |} in
  let kafkaKey := ReceiverID payload +:+ "_" +:+ SenderID payload in
  let exit := {| isBlocked := false; payload := payload; wcm_final := wcm |} in
  do err <- callback wcm payload "raw" kafkaKey;
  match err with
  | Some _ => do _ <- log LevelError "Error sending message" None; return_ exit
  | None => ret exit
  end.

(** [case *events.LoggedOut]. *)
Definition ReceiveMessage_LoggedOut (wcm : WhatsAppClientManager) `{Externals} (client : Client)
    (Reason_NumberString Reason_String : string) : Proc Exit Exit :=
  do storeJID <- deref (Store_ID client);
  let payload :=
    {| EventType := "LoggedOut";
       TimeStamp := UTC time_Now;
       SenderID := User storeJID;
       ReceiverID := User storeJID;
       ChatID := User storeJID;
       MessageID := shortuuid_New;
       MsgType := ""; MediaType := ""; IsGroup := false;
       Content := ContentString Reason_String;
       MimeType := ""; ErrorCode := Reason_NumberString |} in
  let kafkaKey := ReceiverID payload +:+ "_" +:+ SenderID payload in
  let exit := {| isBlocked := false; payload := payload; wcm_final := wcm |} in
  do err <- callback wcm payload "failed" kafkaKey;
  match err with
  | Some _ => do _ <- log LevelError "Error sending message" None; return_ exit
  | None =>
      do _ <- log LevelInfo "[Logout]: " None;
      do err <- callback wcm payload "raw" kafkaKey;
      match err with
      | Some _ => do _ <- log LevelError "Error sending message" None; return_ exit
      | None =>
          do wcm <- call (LogoutEventHandler wcm);
          do _ <- log LevelDebug "[Logout Successfull]" None;
          ret {| isBlocked := false; payload := payload; wcm_final := wcm |}
      end
  end.

(** [case *events.ChatPresence]. *)
Definition ReceiveMessage_ChatPresence (wcm : WhatsAppClientManager) `{Externals}
    (client : Client) (Chat Sender : JID) (State Media : string) : Proc Exit Exit :=
  do _ <- log LevelDebug "Msg type" None;
  let MsgType_ := Media +:+ "Presence" in
  let MsgType_ := if String.eqb Media ChatPresenceMediaText then "textPresence" else MsgType_ in
  do storeJID <- deref (Store_ID client);
  let payload :=
    {| EventType := "ChatPresence";
       TimeStamp := UTC time_Now;
       SenderID := User Sender;
       ReceiverID := User storeJID;
       ChatID := JID_String Chat;
       MessageID := shortuuid_New;
       MsgType := MsgType_; MediaType := ""; IsGroup := false;
       Content := ContentPresence State;
       MimeType := ""; ErrorCode := "" |} in
  let kafkaKey := ReceiverID payload +:+ "_" +:+ SenderID payload in
  let exit := {| isBlocked := false; payload := payload; wcm_final := wcm |} in
  do err <- callback wcm payload "raw" kafkaKey;
  match err with
  | Some _ => do _ <- log LevelError "Error sending message" None; return_ exit
  | None =>
      do err <- callback wcm payload "ingest" kafkaKey;
      match err with
      | Some _ => do _ <- log LevelError "Error sending message" None; return_ exit
      | None =>
          do _ <- log LevelDebug "[UserTyping] Received Typing indicator" None;
          ret exit
      end
  end.

(** [case *events.TemporaryBan]: the arm declares a [payload] of its own (no
    message id), so the function's [payload] stays the zero value. *)
Definition ReceiveMessage_TemporaryBan (wcm : WhatsAppClientManager) `{Externals}
    (client : Client) (Code_String Expire_String : string) : Proc Exit Exit :=
  do storeJID <- deref (Store_ID client);
  let payload' :=
    {| EventType := "TemporaryBan";
       TimeStamp := UTC time_Now;
       SenderID := User storeJID;
       ReceiverID := User storeJID;
       ChatID := User storeJID;
       MessageID := "";
       MsgType := ""; MediaType := ""; IsGroup := false;
       Content := ContentString Expire_String;
       MimeType := ""; ErrorCode := Code_String |} in
  let kafkaKey := ReceiverID payload' +:+ "_" +:+ SenderID payload' in
  let exit := {| isBlocked := false; payload := zero_WhatsAppMessage; wcm_final := wcm |} in
  do _ <- log LevelInfo "[Temporary Ban]: " None;
  do err <- callback wcm payload' "raw" kafkaKey;
  match err with
  | Some _ => do _ <- log LevelError "Error sending message" None; return_ exit
  | None =>
      do err <- callback wcm payload' "failed" kafkaKey;
      match err with
      | Some _ => do _ <- log LevelError "Error sending message" None; return_ exit
      | None => ret exit
      end
  end.

(** [ReceiveMessage]: processes one transport event. *)
Definition ReceiveMessage (wcm : WhatsAppClientManager) `{Externals} (evt : Event)
  : Proc Exit Exit :=
  (* To receive user status we need to set ourself as available *)
  do client <- deref (WhatsAppClient wcm);
  do _ <- when (negb (is_nil (Client_SendPresence client)))
            (log LevelWarn " Error  Unable to set the SendPresence" None);
  match evt with
  | EvMessage info msg => ReceiveMessage_Message wcm client info msg
  | EvCallAccept meta => ReceiveMessage_Call wcm client "CallAccept" meta
  | EvCallOffer meta => ReceiveMessage_Call wcm client "CallOffer" meta
  | EvCallReject meta => ReceiveMessage_Call wcm client "CallReject" meta
  | EvLoggedOut _ Reason_NumberString Reason_String =>
      ReceiveMessage_LoggedOut wcm client Reason_NumberString Reason_String
  | EvChatPresence Chat Sender State Media =>
      ReceiveMessage_ChatPresence wcm client Chat Sender State Media
  | EvTemporaryBan Code_String Expire_String =>
      ReceiveMessage_TemporaryBan wcm client Code_String Expire_String
  | EvOther => ret {| isBlocked := false; payload := zero_WhatsAppMessage; wcm_final := wcm |}
  end.

(** The calls of [MessageCallback] in a trace, in order:
    (payload, topic, key, result). *)
Definition publishes (t : list effect)
  : list (WhatsAppMessage * string * string * option error) :=
  flat_map (fun e => match e with
                     | Publish p topic key err => [(p, topic, key, err)]
                     | _ => []
                     end) t.

(** ** Event bus adapter: [MessageHandler] *)

(** A [*kafka.Writer]: what [WriteMessages] answers for a record. *)
Record Writer := { WriteMessages : KafkaMessage -> option error }.

Record MessageHandler := { KafkaWriters : gmap string Writer }.

(** [SendMessageToKafka]: marshals [payload] and writes one record, keyed
    [kafkaKey], to the writer of [topicName]; a topic without writer is
    logged and dropped ([return nil]). *)
Definition SendMessageToKafka `{Externals} (mh : MessageHandler) (payload : WhatsAppMessage)
    (topicName kafkaKey : string) : Proc (option error) (option error) :=
  match KafkaWriters mh !! topicName with
  | None =>
      do _ <- log LevelError "Kafka writer topic not initialized" None;
      return_ None
  | Some writer =>
      match json_Marshal payload with
      | Err err =>
          do _ <- log LevelError "Error marshaling message" None;
          return_ (Some err)
      | Ok jsonMsg =>
          let m := {| Key := kafkaKey; Value := Some jsonMsg |} in
          let err := WriteMessages writer m in
          do _ <- emit (Write topicName m err);
          match err with
          | Some e =>
              do _ <- log LevelError "Error sending message to Kafka" None;
              return_ (Some e)
          | None =>
              do _ <- log LevelInfo "Message sent to Topic" None;
              return_ None
          end
      end
  end.

(** The records a trace wrote, in order: (topic, record), accepted or not. *)
Definition writes (t : list effect) : list (string * KafkaMessage * option error) :=
  flat_map (fun e => match e with
                     | Write topic m err => [(topic, m, err)]
                     | _ => []
                     end) t.

(** [InitializeClient] installs [mcm.MessageHandler.SendMessageToKafka] as
    the supervisor's [MessageCallback]: this is the value the callback
    returns. The function does not panic. *)
Definition SendMessageToKafka_callback `{Externals} (mh : MessageHandler) : MessageCallback_t :=
  fun payload topicName kafkaKey =>
    match finished (SendMessageToKafka mh payload topicName kafkaKey) with
    | Some err => err
    | None => None
    end.


(** ** Session supervisor: connecting *)

(** [getOrCreateDeviceStore]: the first stored device whose bare id is the
    tenant's, fetched again from the container; else a new device. Both
    ways set [IsConnected]. [device.ID.User] is read before [device.ID] is
    tested against nil. *)
Fixpoint getOrCreateDeviceStore (wcm : WhatsAppClientManager) (devices : list Device)
  : Proc (WhatsAppClientManager * result (option Device))
         (WhatsAppClientManager * result (option Device)) :=
  match devices with
  | device :: devices' =>
      do id <- deref (Device_ID device);
      let extractedNumber := ExtractPhoneNumber (User id) in
      if negb (is_nil (Device_ID device))
         && String.eqb extractedNumber (RecruiterNumber (RecruiterConfig_ wcm)) then
        do _ <- log LevelInfo "Found existing device" None;
        let wcm := set_IsConnected wcm true in
        do container <- deref (Container_ wcm);
        return_ (wcm, GetDevice container id)
      else getOrCreateDeviceStore wcm devices'
  | [] =>
      do _ <- log LevelInfo "No existing device found, creating new one" None;
      let wcm := set_IsConnected wcm true in
      do container <- deref (Container_ wcm);
      return_ (wcm, Ok (Some (NewDevice container)))
  end.

(** [LoginEventHandler]: builds the client on the device store, registers
    [ReceiveMessage] as its event handler, starts the login goroutine and
    marks the supervisor connected. *)
Definition LoginEventHandler `{Externals} (wcm : WhatsAppClientManager)
    (deviceStore : option Device)
  : Proc (WhatsAppClientManager * option error) (WhatsAppClientManager * option error) :=
  do wcm <-
    match deviceStore with
    | Some d => ret (set_DeviceStore wcm (Some d))
    | None =>
        do container <- deref (Container_ wcm);
        ret (set_DeviceStore wcm (Some (NewDevice container)))
    end;
  do d <- deref (DeviceStore wcm);
  let wcm := set_WhatsAppClient wcm (whatsmeow_NewClient d) in
  if is_nil (WhatsAppClient wcm) then
    do _ <- log LevelError "Failed to create WhatsApp client" None;
    return_ (wcm, Some "failed to create WhatsApp client")
  else
    (* wcm.asyncLogin(ctx) *)
    do _ <- emit (Go "asyncLogin");
    let wcm := set_IsConnected wcm true in
    do _ <- log LevelInfo "WhatsApp client connected successfully" None;
    return_ (wcm, None).

(** [Connect]. *)
Definition Connect `{Externals} (wcm : WhatsAppClientManager) (devicesInStore : list Device)
  : Proc (WhatsAppClientManager * option error) (WhatsAppClientManager * option error) :=
  if IsConnected wcm then
    do _ <- log LevelInfo "Client already connected" None;
    return_ (wcm, None)
  else
    do '(wcm, r) <- call (getOrCreateDeviceStore wcm devicesInStore);
    match r with
    | Err err =>
        do _ <- log LevelError "Failed to get or create device store" None;
        return_ (wcm, Some err)
    | Ok deviceStore =>
        do '(wcm, err) <- call (LoginEventHandler wcm deviceStore);
        match err with
        | Some e => return_ (wcm, Some e)
        | None => return_ (wcm, None)
        end
    end.

(** *** The login goroutine of [asyncLogin]

    What the goroutine meets: the result of the transport's [Connect], the
    items the QR channel delivers until it is closed, and the result of
    [PairPhone]. *)
Record QRChannelItem := { QR_Event : string; QR_Code : string }.

Record LoginRun := {
  Client_Connect : option error;
  qrChan : list QRChannelItem;
  Client_PairPhone : result string
}.

(** [strings.EqualFold] on ASCII letters. *)
Definition lower (a : ascii) : ascii :=
  let n := nat_of_ascii a in
  if (65 <=? n)%nat && (n <=? 90)%nat then ascii_of_nat (n + 32) else a.

Fixpoint ToLower (s : string) : string :=
  match s with
  | EmptyString => EmptyString
  | String a s' => String (lower a) (ToLower s')
  end.

Definition strings_EqualFold (s t : string) : bool :=
  String.eqb (ToLower s) (ToLower t).

(** [for evt := range qrChan] after a failed phone pairing. *)
Fixpoint qr_fallback_loop (recruiter : string) (items : list QRChannelItem) : Proc unit unit :=
  match items with
  | [] => ret tt
  | evt :: items' =>
      if String.eqb (QR_Event evt) "code" then
        do _ <- emit (QRCodeFile recruiter (QR_Code evt) "QR Code Retry");
        qr_fallback_loop recruiter items'
      else if String.eqb (QR_Event evt) "success" then
        log LevelInfo "Login successful via QR" None
      else if String.eqb (QR_Event evt) "timeout" then
        log LevelError "QR login timeout" None
      else qr_fallback_loop recruiter items'
  end.

(** [for evt := range qrChan] after a successful phone pairing. *)
Fixpoint pairing_wait_loop (items : list QRChannelItem) : Proc unit unit :=
  match items with
  | [] => ret tt
  | evt :: items' =>
      if String.eqb (QR_Event evt) "success" then
        log LevelInfo "Login success via phone pairing" None
      else if String.eqb (QR_Event evt) "timeout" then
        log LevelError "Phone pairing timeout" None
      else pairing_wait_loop items'
  end.

(** The body of the goroutine. It reads the supervisor's configuration and
    client and assigns no field of the supervisor. A receive from the closed
    channel yields the zero item. *)
Definition asyncLogin_goroutine (cfg : RecruiterConfig) (run : LoginRun) : Proc unit unit :=
  do _ <- log LevelInfo "Starting authentication process" None;
  match Client_Connect run with
  | Some _ =>
      do _ <- log LevelError "Failed to connect WhatsApp client" None;
      panic
  | None =>
      let evt := match qrChan run with
                 | e :: _ => e
                 | [] => {| QR_Event := ""; QR_Code := "" |}
                 end in
      if String.eqb (QR_Event evt) "code" then
        let phoneNumber := RecruiterNumber cfg in
        let clientName := "Chrome (Ubuntu)" in
        do _ <- when ((String.length phoneNumber <? 10)%nat || (15 <? String.length phoneNumber)%nat)
                  (log LevelError "Invalid phone number format" None);
        let validClient := false in
        let allowed := HostClientType cfg in
        let '(clientName, validClient) :=
          if strings_EqualFold clientName allowed then (allowed, true)
          else (clientName, validClient) in
        do _ <- when (negb validClient) (log LevelError "Invalid client name" None);
        do _ <- emit (QRCodeFile (RecruiterNumber cfg) (QR_Code evt) "Initial QR Code");
        match Client_PairPhone run with
        | Err loginErr =>
            do _ <- emit (TransportPairPhone phoneNumber clientName (Some loginErr));
            do _ <- log LevelError "Phone pairing failed, falling back to QR" None;
            qr_fallback_loop (RecruiterNumber cfg) (tl (qrChan run))
        | Ok loginCode =>
            do _ <- emit (TransportPairPhone phoneNumber clientName None);
            do _ <- log LevelInfo "Phone pairing successful" None;
            pairing_wait_loop (tl (qrChan run))
        end
      else ret tt
  end.

(** The goroutine runs beside the supervisor's other code, one effect at a
    time; [after_goroutine n] is the supervisor once the goroutine has made
    its first [n] steps. No step assigns a field, so the supervisor is
    unchanged, whatever [n] and whatever the run. *)
Definition goroutine_step (e : effect) (w : WhatsAppClientManager) : WhatsAppClientManager := w.

Definition after_goroutine (run : LoginRun) (n : nat) (w : WhatsAppClientManager)
  : WhatsAppClientManager :=
  fold_left (fun w e => goroutine_step e w)
    (firstn n (trace (asyncLogin_goroutine (RecruiterConfig_ w) run))) w.

(** [Disconnect]: a no-op unless the supervisor is live. *)
Definition Disconnect (wcm : WhatsAppClientManager)
  : Proc WhatsAppClientManager WhatsAppClientManager :=
  if negb (is_nil (WhatsAppClient wcm)) && IsConnected wcm then
    do _ <- emit TransportDisconnect;
    let wcm := set_IsConnected wcm false in
    do _ <- log LevelInfo "WhatsApp client disconnected" None;
    ret wcm
  else ret wcm.

(** ** Session supervisor: the send contract *)

Definition send_via `{Externals} (wcm : WhatsAppClientManager) (chatID : string)
    (response : OutMessage) (failure success : string)
  : Proc (option error) (option error) :=
  if negb (IsConnected wcm) then return_ (Some "client not connected")
  else
    match ParseJID chatID with
    | Err err =>
        do _ <- log LevelError "Error parsing JID" None;
        return_ (Some err)
    | Ok targetJID =>
        do client <- deref (WhatsAppClient wcm);
        let err := Client_SendMessage client targetJID response in
        do _ <- emit (TransportSend targetJID response err);
        match err with
        | Some e => do _ <- log LevelError failure None; return_ (Some e)
        | None => do _ <- log LevelInfo success None; return_ None
        end
    end.

(** [SendTextMessage], [SendAudioMessage], [SendImageMessage],
    [SendDocumentMessage]: the same body around one part of the message. *)
Definition SendTextMessage `{Externals} (wcm : WhatsAppClientManager) (chatID text : string) :=
  send_via wcm chatID (OutConversation text)
    "Failed to send text message" "Text message sent successfully".

Definition SendAudioMessage `{Externals} (wcm : WhatsAppClientManager) (chatID : string)
    (audio : option AudioMessage) :=
  send_via wcm chatID (OutAudio audio)
    "Failed to send audio message" "Audio message sent successfully".

Definition SendImageMessage `{Externals} (wcm : WhatsAppClientManager) (chatID : string)
    (img : option ImageMessage) :=
  send_via wcm chatID (OutImage img)
    "Failed to send image message" "Image message sent successfully".

Definition SendDocumentMessage `{Externals} (wcm : WhatsAppClientManager) (chatID : string)
    (doc : option DocumentMessage) :=
  send_via wcm chatID (OutDocument doc)
    "Failed to send document message" "Document message sent successfully".

(** [SendTypingIndicator]. *)
Definition SendTypingIndicator `{Externals} (wcm : WhatsAppClientManager) (chatID : string)
  : Proc (option error) (option error) :=
  if negb (IsConnected wcm) then return_ (Some "client not connected")
  else
    match ParseJID chatID with
    | Err err =>
        do _ <- log LevelError "Error parsing JID" None;
        return_ (Some err)
    | Ok targetJID =>
        do client <- deref (WhatsAppClient wcm);
        let err := Client_SendChatPresence client targetJID "composing" in
        do _ <- emit (TransportChatPresence targetJID "composing" err);
        match err with
        | Some e => do _ <- log LevelError "Failed to send typing indicator" None; return_ (Some e)
        | None => do _ <- log LevelInfo "Typing indicator sent successfully" None; return_ None
        end
    end.

(** ** Outbound dispatcher: [StartMessageSending] *)

(** The anonymous struct the dispatcher decodes a record into. The JSON key
    of each field is its tag: [SenderID] is tagged "receiver_id" and
    [ReceiverID] is tagged "sender_id". *)
Record OutboundPayload := {
  Out_EventType : string;       (* json:"event_type" *)
  Out_Timestamp : Time;         (* json:"timestamp" *)
  Out_SenderID : string;        (* json:"receiver_id" *)
  Out_ReceiverID : string;      (* json:"sender_id" *)
  Out_ChatID : string;          (* json:"chat_id" *)
  Out_MessageID : string;       (* json:"mid" *)
  Out_MsgType : string;         (* json:"msg_type,omitempty" *)
  Out_MediaType : string;       (* json:"media_type,omitempty" *)
  Out_IsGroup : bool;           (* json:"is_group,omitempty" *)
  Out_Content : bytes;          (* json:"content,omitempty", a json.RawMessage *)
  Out_MimeType : string;        (* json:"mime_type,omitempty" *)
  Out_ErrorCode : string        (* json:"error_code,omitempty" *)
}.

Definition zero_OutboundPayload : OutboundPayload :=
  {| Out_EventType := ""; Out_Timestamp := 0%Z; Out_SenderID := ""; Out_ReceiverID := "";
     Out_ChatID := ""; Out_MessageID := ""; Out_MsgType := ""; Out_MediaType := "";
     Out_IsGroup := false; Out_Content := None; Out_MimeType := ""; Out_ErrorCode := "" |}.

(** *** [encoding/json] decoding into Go values

    A JSON null leaves the destination as it is; a value of another JSON
    type than the destination's is an error. *)
Definition decode_string (old : string) (v : json) : option string :=
  match v with
  | JString s => Some s
  | JNull => Some old
  | _ => None
  end.

Definition decode_bool (old : bool) (v : json) : option bool :=
  match v with
  | JBool b => Some b
  | JNull => Some old
  | _ => None
  end.

Definition decode_time `{Externals} (old : Time) (v : json) : option Time :=
  match v with
  | JString s => time_Parse s
  | JNull => Some old
  | _ => None
  end.

(** One object member decoded into the struct. A key selects the field whose
    tag it equals, letter case ignored (the tags are lower-case and stay
    distinct when case is ignored; the decoder's folding of two non-ASCII
    letters to "s" and "k" is left out); a key of no field is skipped. *)
Definition decode_member `{Externals} (p : OutboundPayload) (key : string) (v : json)
  : option OutboundPayload :=
  let k := ToLower key in
  if String.eqb k "event_type" then
    s ← decode_string (Out_EventType p) v;
    Some {| Out_EventType := s; Out_Timestamp := Out_Timestamp p; Out_SenderID := Out_SenderID p;
            Out_ReceiverID := Out_ReceiverID p; Out_ChatID := Out_ChatID p;
            Out_MessageID := Out_MessageID p; Out_MsgType := Out_MsgType p;
            Out_MediaType := Out_MediaType p; Out_IsGroup := Out_IsGroup p;
            Out_Content := Out_Content p; Out_MimeType := Out_MimeType p;
            Out_ErrorCode := Out_ErrorCode p |}
  else if String.eqb k "timestamp" then
    t ← decode_time (Out_Timestamp p) v;
    Some {| Out_EventType := Out_EventType p; Out_Timestamp := t; Out_SenderID := Out_SenderID p;
            Out_ReceiverID := Out_ReceiverID p; Out_ChatID := Out_ChatID p;
            Out_MessageID := Out_MessageID p; Out_MsgType := Out_MsgType p;
            Out_MediaType := Out_MediaType p; Out_IsGroup := Out_IsGroup p;
            Out_Content := Out_Content p; Out_MimeType := Out_MimeType p;
            Out_ErrorCode := Out_ErrorCode p |}
  else if String.eqb k "receiver_id" then
    s ← decode_string (Out_SenderID p) v;
    Some {| Out_EventType := Out_EventType p; Out_Timestamp := Out_Timestamp p; Out_SenderID := s;
            Out_ReceiverID := Out_ReceiverID p; Out_ChatID := Out_ChatID p;
            Out_MessageID := Out_MessageID p; Out_MsgType := Out_MsgType p;
            Out_MediaType := Out_MediaType p; Out_IsGroup := Out_IsGroup p;
            Out_Content := Out_Content p; Out_MimeType := Out_MimeType p;
            Out_ErrorCode := Out_ErrorCode p |}
  else if String.eqb k "sender_id" then
    s ← decode_string (Out_ReceiverID p) v;
    Some {| Out_EventType := Out_EventType p; Out_Timestamp := Out_Timestamp p;
            Out_SenderID := Out_SenderID p; Out_ReceiverID := s; Out_ChatID := Out_ChatID p;
            Out_MessageID := Out_MessageID p; Out_MsgType := Out_MsgType p;
            Out_MediaType := Out_MediaType p; Out_IsGroup := Out_IsGroup p;
            Out_Content := Out_Content p; Out_MimeType := Out_MimeType p;
            Out_ErrorCode := Out_ErrorCode p |}
  else if String.eqb k "chat_id" then
    s ← decode_string (Out_ChatID p) v;
    Some {| Out_EventType := Out_EventType p; Out_Timestamp := Out_Timestamp p;
            Out_SenderID := Out_SenderID p; Out_ReceiverID := Out_ReceiverID p; Out_ChatID := s;
            Out_MessageID := Out_MessageID p; Out_MsgType := Out_MsgType p;
            Out_MediaType := Out_MediaType p; Out_IsGroup := Out_IsGroup p;
            Out_Content := Out_Content p; Out_MimeType := Out_MimeType p;
            Out_ErrorCode := Out_ErrorCode p |}
  else if String.eqb k "mid" then
    s ← decode_string (Out_MessageID p) v;
    Some {| Out_EventType := Out_EventType p; Out_Timestamp := Out_Timestamp p;
            Out_SenderID := Out_SenderID p; Out_ReceiverID := Out_ReceiverID p;
            Out_ChatID := Out_ChatID p; Out_MessageID := s; Out_MsgType := Out_MsgType p;
            Out_MediaType := Out_MediaType p; Out_IsGroup := Out_IsGroup p;
            Out_Content := Out_Content p; Out_MimeType := Out_MimeType p;
            Out_ErrorCode := Out_ErrorCode p |}
  else if String.eqb k "msg_type" then
    s ← decode_string (Out_MsgType p) v;
    Some {| Out_EventType := Out_EventType p; Out_Timestamp := Out_Timestamp p;
            Out_SenderID := Out_SenderID p; Out_ReceiverID := Out_ReceiverID p;
            Out_ChatID := Out_ChatID p; Out_MessageID := Out_MessageID p; Out_MsgType := s;
            Out_MediaType := Out_MediaType p; Out_IsGroup := Out_IsGroup p;
            Out_Content := Out_Content p; Out_MimeType := Out_MimeType p;
            Out_ErrorCode := Out_ErrorCode p |}
  else if String.eqb k "media_type" then
    s ← decode_string (Out_MediaType p) v;
    Some {| Out_EventType := Out_EventType p; Out_Timestamp := Out_Timestamp p;
            Out_SenderID := Out_SenderID p; Out_ReceiverID := Out_ReceiverID p;
            Out_ChatID := Out_ChatID p; Out_MessageID := Out_MessageID p;
            Out_MsgType := Out_MsgType p; Out_MediaType := s; Out_IsGroup := Out_IsGroup p;
            Out_Content := Out_Content p; Out_MimeType := Out_MimeType p;
            Out_ErrorCode := Out_ErrorCode p |}
  else if String.eqb k "is_group" then
    b ← decode_bool (Out_IsGroup p) v;
    Some {| Out_EventType := Out_EventType p; Out_Timestamp := Out_Timestamp p;
            Out_SenderID := Out_SenderID p; Out_ReceiverID := Out_ReceiverID p;
            Out_ChatID := Out_ChatID p; Out_MessageID := Out_MessageID p;
            Out_MsgType := Out_MsgType p; Out_MediaType := Out_MediaType p; Out_IsGroup := b;
            Out_Content := Out_Content p; Out_MimeType := Out_MimeType p;
            Out_ErrorCode := Out_ErrorCode p |}
  else if String.eqb k "content" then
    (* a json.RawMessage takes the bytes of any value, null included *)
    Some {| Out_EventType := Out_EventType p; Out_Timestamp := Out_Timestamp p;
            Out_SenderID := Out_SenderID p; Out_ReceiverID := Out_ReceiverID p;
            Out_ChatID := Out_ChatID p; Out_MessageID := Out_MessageID p;
            Out_MsgType := Out_MsgType p; Out_MediaType := Out_MediaType p;
            Out_IsGroup := Out_IsGroup p; Out_Content := Some v; Out_MimeType := Out_MimeType p;
            Out_ErrorCode := Out_ErrorCode p |}
  else if String.eqb k "mime_type" then
    s ← decode_string (Out_MimeType p) v;
    Some {| Out_EventType := Out_EventType p; Out_Timestamp := Out_Timestamp p;
            Out_SenderID := Out_SenderID p; Out_ReceiverID := Out_ReceiverID p;
            Out_ChatID := Out_ChatID p; Out_MessageID := Out_MessageID p;
            Out_MsgType := Out_MsgType p; Out_MediaType := Out_MediaType p;
            Out_IsGroup := Out_IsGroup p; Out_Content := Out_Content p; Out_MimeType := s;
            Out_ErrorCode := Out_ErrorCode p |}
  else if String.eqb k "error_code" then
    s ← decode_string (Out_ErrorCode p) v;
    Some {| Out_EventType := Out_EventType p; Out_Timestamp := Out_Timestamp p;
            Out_SenderID := Out_SenderID p; Out_ReceiverID := Out_ReceiverID p;
            Out_ChatID := Out_ChatID p; Out_MessageID := Out_MessageID p;
            Out_MsgType := Out_MsgType p; Out_MediaType := Out_MediaType p;
            Out_IsGroup := Out_IsGroup p; Out_Content := Out_Content p;
            Out_MimeType := Out_MimeType p; Out_ErrorCode := s |}
  else Some p.

(** The members of an object are decoded in order, a later member
    overwriting an earlier one of the same field. *)
Fixpoint decode_members `{Externals} (p : OutboundPayload) (members : list (string * json))
  : option OutboundPayload :=
  match members with
  | [] => Some p
  | (key, v) :: members' =>
      match decode_member p key v with
      | Some p' => decode_members p' members'
      | None => None
      end
  end.

(** [json.Unmarshal(msg.Value, &payload)]: the error cases are bytes that are
    not JSON, a JSON value that is neither an object nor null, and a member
    of the wrong type. *)
Definition Unmarshal_payload `{Externals} (data : bytes) : result OutboundPayload :=
  match data with
  | None => Err "invalid character"
  | Some JNull => Ok zero_OutboundPayload
  | Some (JObject members) =>
      match decode_members zero_OutboundPayload members with
      | Some p => Ok p
      | None => Err "json: cannot unmarshal value into Go struct field"
      end
  | Some _ => Err "json: cannot unmarshal value into Go value of type struct"
  end.

(** [json.Unmarshal(payload.Content, &textMsg)] with [var textMsg string]:
    an empty [RawMessage] is an error ("unexpected end of JSON input"). *)
Definition Unmarshal_string (data : bytes) : result string :=
  match data with
  | None => Err "unexpected end of JSON input"
  | Some v =>
      match decode_string "" v with
      | Some s => Ok s
      | None => Err "json: cannot unmarshal value into Go value of type string"
      end
  end.

(** What successive calls of [ReadMessage] on the output reader return. *)
Inductive ReadResult :=
| ReadOk (msg : KafkaMessage)
| ReadErr (err : error).

Record MainClientManager := {
  ClientManagers : gmap string WhatsAppClientManager;
  KafkaReaders : gmap string (list ReadResult);
  MessageHandler_ : MessageHandler
}.

(** [GetClientManager]. *)
Definition GetClientManager (mcm : MainClientManager) (recruiterNumber : string)
  : option WhatsAppClientManager :=
  ClientManagers mcm !! recruiterNumber.

(** [switch payload.MsgType]: decode the content for the kind and call the
    kind's send on [clientManager], the supervisor found under [receiver]. A
    content that does not decode is passed over without a word; a failed
    send is logged. *)
Definition send_by_kind `{Externals} (receiver : string) (clientManager : WhatsAppClientManager)
    (payload : OutboundPayload) : Proc unit unit :=
  if String.eqb (Out_MsgType payload) "audio" then
    match Unmarshal_AudioMessage (Out_Content payload) with
    | Ok audioMsg =>
        do _ <- emit (Invoke receiver (SendAudio (Out_ChatID payload) audioMsg));
        do err <- call (SendAudioMessage clientManager (Out_ChatID payload) audioMsg);
        when (negb (is_nil err)) (log LevelError "Failed to send audio message" None)
    | Err _ => ret tt
    end
  else if String.eqb (Out_MsgType payload) "image" then
    match Unmarshal_ImageMessage (Out_Content payload) with
    | Ok imgMsg =>
        do _ <- emit (Invoke receiver (SendImage (Out_ChatID payload) imgMsg));
        do err <- call (SendImageMessage clientManager (Out_ChatID payload) imgMsg);
        when (negb (is_nil err)) (log LevelError "Failed to send image message" None)
    | Err _ => ret tt
    end
  else if String.eqb (Out_MsgType payload) "document" then
    match Unmarshal_DocumentMessage (Out_Content payload) with
    | Ok docMsg =>
        do _ <- emit (Invoke receiver (SendDocument (Out_ChatID payload) docMsg));
        do err <- call (SendDocumentMessage clientManager (Out_ChatID payload) docMsg);
        when (negb (is_nil err)) (log LevelError "Failed to send document message" None)
    | Err _ => ret tt
    end
  else if String.eqb (Out_MsgType payload) "text" then
    match Unmarshal_string (Out_Content payload) with
    | Ok textMsg =>
        do _ <- emit (Invoke receiver (SendText (Out_ChatID payload) textMsg));
        do err <- call (SendTextMessage clientManager (Out_ChatID payload) textMsg);
        when (negb (is_nil err)) (log LevelError "Failed to send text message" None)
    | Err _ => ret tt
    end
  else if String.eqb (Out_MsgType payload) "typing" then
    do _ <- emit (Invoke receiver (SendTyping (Out_ChatID payload)));
    do err <- call (SendTypingIndicator clientManager (Out_ChatID payload));
    when (negb (is_nil err)) (log LevelError "Failed to send typing indicator" None)
  else
    (* continue *)
    log LevelError "Unsupported msg_type" None.

(** One pass through the body of the loop, after a successful read. The
    goroutine's [return] is [Returned]; reaching the end of the body, or
    [continue], is [Next]: the loop reads again. [n] counts the passes. *)
Definition dispatch `{Externals} (mcm : MainClientManager) (n : nat) (msg : KafkaMessage)
  : Proc unit unit :=
  do _ <- log LevelDebug "Received Message" None;
  (* Write raw to kafka *)
  do rawWriter <- deref (KafkaWriters (MessageHandler_ mcm) !! "raw");
  let rawMsg := {| Key := uuid_New n; Value := Value msg |} in
  let err := WriteMessages rawWriter rawMsg in
  do _ <- emit (Write "raw" rawMsg err);
  match err with
  | Some _ =>
      do _ <- log LevelError "Error sending message to Kafka" None;
      return_ tt
  | None =>
      match Unmarshal_payload (Value msg) with
      | Err _ =>
          do _ <- log LevelError "Error unmarshaling payload" None;
          return_ tt
      | Ok payload =>
          do _ <- log LevelDebug "payload" None;
          (* Find the appropriate client manager based on receiver_id *)
          match GetClientManager mcm (Out_ReceiverID payload) with
          | None =>
              do _ <- log LevelError "Client manager not found for receiver" None;
              return_ tt
          | Some clientManager =>
              send_by_kind (Out_ReceiverID payload) clientManager payload
          end
      end
  end.

(** One pass of the loop on the result of [ReadMessage]. *)
Definition iteration `{Externals} (mcm : MainClientManager) (n : nat) (r : ReadResult)
  : Proc unit unit :=
  match r with
  | ReadErr err =>
      if String.eqb err "fetching message: context canceled" then
        do _ <- log LevelInfo "Context is cancelled as shutdown is in progress" None;
        (* break *)
        return_ tt
      else
        (* continue *)
        log LevelError "Error reading message from Kafka" None
  | ReadOk msg => dispatch mcm n msg
  end.

(** The [for] loop over what the reader delivers; when the script of reads
    is used up the goroutine is waiting in [ReadMessage]. *)
Fixpoint sending_loop `{Externals} (mcm : MainClientManager) (n : nat) (reads : list ReadResult)
  : Proc unit unit :=
  match reads with
  | [] => ret tt
  | r :: reads' =>
      do _ <- iteration mcm n r;
      sending_loop mcm (S n) reads'
  end.

(** [StartMessageSending]: without an output reader nothing is started. *)
Definition StartMessageSending `{Externals} (mcm : MainClientManager) : Proc unit unit :=
  match KafkaReaders mcm !! "output" with
  | None =>
      do _ <- log LevelError "Kafka reader not initialized" None;
      return_ tt
  | Some reads =>
      do _ <- log LevelInfo "Starting message sending goroutine" None;
      do _ <- emit (Go "StartMessageSending");
      sending_loop mcm 0 reads
  end.

(** The calls of [Send...] methods in a trace, in order. *)
Definition invocations (t : list effect) : list (string * SendOp) :=
  flat_map (fun e => match e with
                     | Invoke recruiter op => [(recruiter, op)]
                     | _ => []
                     end) t.

(** The transport sends in a trace, in order. *)
Definition transport_sends (t : list effect) : list effect :=
  List.filter (fun e => match e with
                   | TransportSend _ _ _ | TransportChatPresence _ _ _ => true
                   | _ => false
                   end) t.


(** ** Test data (testdata.go) *)

Definition TestData_RecruiterNumber := "918496952149".
Definition TestData_ApplicantNumber := "918050992006".
Definition TestData_MessageID := "JrJEGx3skp9RQXMwgqVmLh".
Definition TestData_ApplicantChatID := "918050992006@s.whatsapp.net".
Definition TestData_TextMessageContent := "hi".
Definition TestData_DefaultRateLimit : Z := 10.
Definition TestData_DefaultAllowedTypes := ["text"; "image"].
Definition TestData_ExtendedAllowedTypes := ["text"; "audio"; "typing"].
Definition TestData_HostClientType := "Chrome".
Definition TestData_HostClientName := "TestClient".

(** [GetTestRecruiterConfig]. *)
Definition GetTestRecruiterConfig (extended : bool) : RecruiterConfig :=
  let allowedTypes := TestData_DefaultAllowedTypes in
  let allowedTypes := if extended then TestData_ExtendedAllowedTypes else allowedTypes in
  {| RecruiterNumber := TestData_RecruiterNumber;
     HostClientType := TestData_HostClientType;
     HostClientName := TestData_HostClientName;
     AllowedMediaTypes := allowedTypes;
     MessageRateLimit := TestData_DefaultRateLimit;
     Enable := true |}.

(** [GetTestRecruiterConfigDB]. *)
Definition GetTestRecruiterConfigDB : RecruiterConfigDB :=
  {| RecruiterID := TestData_RecruiterNumber;
     ApplicantID := TestData_ApplicantNumber;
     Enabled := true;
     MessageCount := 5 |}.

(** *** A test bench around the test data

    Library answers for the examples: every address parses, media payloads
    do not decode, no write and no send fails. *)
Definition bench : Externals :=
  {| json_Marshal := fun p => Ok (JString (MessageID p));
     time_Parse := fun _ => Some 0%Z;
     Unmarshal_AudioMessage := fun _ => Err "not an audio message";
     Unmarshal_ImageMessage := fun _ => Err "not an image message";
     Unmarshal_DocumentMessage := fun _ => Err "not a document message";
     ParseJID := fun s => Ok {| User := ExtractPhoneNumber s; JID_String := s |};
     ChatPresenceMediaText := "";
     whatsmeow_NewClient :=
       fun d => Some {| Store_ID := Device_ID d;
                        Client_SendPresence := None;
                        Client_DownloadAny := fun _ => Err "no media";
                        Client_SendMessage := fun _ _ => None;
                        Client_SendChatPresence := fun _ _ => None |};
     shortuuid_New := TestData_MessageID;
     time_Now := 0%Z;
     uuid_New := fun _ => "f47ac10b-58cc-4372-a567-0e02b2c3d479" |}.

(** The address of a user on the chat server. *)
Definition user_jid (user : string) : JID :=
  {| User := user; JID_String := ConvertToJID user |}.

(** A paired client of the tenant [user]. *)
Definition bench_client (user : string) : Client :=
  {| Store_ID := Some (user_jid user);
     Client_SendPresence := None;
     Client_DownloadAny := fun _ => Err "no media";
     Client_SendMessage := fun _ _ => None;
     Client_SendChatPresence := fun _ _ => None |}.

(** A policy store holding [rows] of the pair asked for ([row] builds a row
    from the two query arguments), or failing in the driver. *)
Definition bench_row (c : RecruiterConfigDB) : Row :=
  {| col_recruiter_id := Some (RecruiterID c);
     col_applicant_id := Some (ApplicantID c);
     col_enabled := Some (Enabled c);
     col_message_count := Some (MessageCount c) |}.

Definition bench_store (rows : list RecruiterConfigDB) : PostgresRepository :=
  {| Db_Query := fun recruiterID applicantID =>
       Ok (map bench_row
             (List.filter (fun c => String.eqb (RecruiterID c) recruiterID
                                    && String.eqb (ApplicantID c) applicantID) rows)) |}.

Definition bench_store_down : PostgresRepository :=
  {| Db_Query := fun _ _ => Err "dial tcp: connection refused" |}.

Definition bench_container : Container :=
  {| GetDevice := fun id => Ok (Some {| Device_ID := Some id |});
     NewDevice := {| Device_ID := None |} |}.

(** A live supervisor of the test tenant over a callback that accepts every
    event. *)
Definition bench_supervisor (cfg : RecruiterConfig) (db : PostgresRepository)
  : WhatsAppClientManager :=
  {| RecruiterConfig_ := cfg;
     WhatsAppClient := Some (bench_client (RecruiterNumber cfg));
     DeviceStore := Some {| Device_ID := Some (user_jid (RecruiterNumber cfg)) |};
     Container_ := Some bench_container;
     IsConnected := true;
     MessageCallback := Some (fun _ _ _ => None);
     database := Some db;
     OnLogout := true |}.

(** A text message from [sender] in the chat [chat]. *)
Definition text_info (sender chat : string) (isGroup : bool) : MessageInfo :=
  {| Info_Chat := user_jid chat; Info_Sender := user_jid sender; Info_IsGroup := isGroup;
     Info_Type := "text"; Info_MediaType := ""; Info_Timestamp := 1753437367258691000%Z |}.

Definition text_body (text : string) : E2EMessage :=
  {| Conversation := Some text; ExtendedTextMessage_Text := None;
     AudioMessage_ := None; ImageMessage_ := None; DocumentMessage_ := None |}.

Definition text_event (sender chat : string) (isGroup : bool) (text : string) : Event :=
  EvMessage (text_info sender chat isGroup) (text_body text).

(** [GetTestWhatsAppMessage]. *)
Definition GetTestWhatsAppMessage (eventType : string) : WhatsAppMessage :=
  {| EventType := eventType;
     TimeStamp := 1753437367258691000%Z;
     SenderID := TestData_ApplicantNumber;
     ReceiverID := TestData_RecruiterNumber;
     ChatID := TestData_ApplicantChatID;
     MessageID := TestData_MessageID;
     MsgType := "text";
     MediaType := "";
     IsGroup := false;
     Content := ContentString TestData_TextMessageContent;
     MimeType := "";
     ErrorCode := "" |}.

(** The test tenant's supervisor over a policy store holding [rows]. *)
Definition test_supervisor (rows : list RecruiterConfigDB) : WhatsAppClientManager :=
  bench_supervisor (GetTestRecruiterConfig false) (bench_store rows).

(** The applicant's text [text] to the tenant, in the applicant's chat. *)
Definition applicant_text (text : string) : Event :=
  text_event TestData_ApplicantNumber TestData_ApplicantNumber false text.

(** A bus whose four producers accept every record, and the test tenant's
    supervisor wired to it the way [InitializeClient] does. *)
Definition accepting_writer : Writer := {| WriteMessages := fun _ => None |}.

Definition bench_bus : MessageHandler :=
  {| KafkaWriters :=
       <["raw" := accepting_writer]>
         (<["ingest" := accepting_writer]>
            (<["admin" := accepting_writer]>
               (<["failed" := accepting_writer]> ∅))) |}.


(** The tenant's own text [text] in the chat [chat]. *)
Definition tenant_text (chat text : string) : Event :=
  text_event TestData_RecruiterNumber chat false text.

(** A fleet of two live supervisors, the test tenant's and one for the
    applicant's number, over the accepting bus; the output reader delivers
    [reads]. *)
Definition bench_fleet (reads : list ReadResult) : MainClientManager :=
  {| ClientManagers :=
       <[TestData_RecruiterNumber := test_supervisor []]>
         (<[TestData_ApplicantNumber :=
              bench_supervisor
                {| RecruiterNumber := TestData_ApplicantNumber;
                   HostClientType := TestData_HostClientType;
                   HostClientName := TestData_HostClientName;
                   AllowedMediaTypes := TestData_DefaultAllowedTypes;
                   MessageRateLimit := TestData_DefaultRateLimit;
                   Enable := true |}
                (bench_store [])]> ∅);
     KafkaReaders := <["output" := reads]> ∅;
     MessageHandler_ := bench_bus |}.

(** An outbound text record: the tenant is its "sender_id", the applicant
    its "receiver_id"; [content] is the value of its "content" member. *)
Definition outbound_members (content : json) : list (string * json) :=
  [("event_type", JString "Message");
   ("timestamp", JString "2025-07-25T09:56:07.258691Z");
   ("sender_id", JString TestData_RecruiterNumber);
   ("receiver_id", JString TestData_ApplicantNumber);
   ("chat_id", JString TestData_ApplicantChatID);
   ("mid", JString TestData_MessageID);
   ("msg_type", JString "text");
   ("content", content)].

Definition outbound_text (content : json) : KafkaMessage :=
  {| Key := "918050992006_918496952149"; Value := Some (JObject (outbound_members content)) |}.

(** The header the bench decodes [outbound_text content] into. *)
Definition outbound_header (content : json) : OutboundPayload :=
  {| Out_EventType := "Message"; Out_Timestamp := 0%Z;
     Out_SenderID := TestData_ApplicantNumber; Out_ReceiverID := TestData_RecruiterNumber;
     Out_ChatID := TestData_ApplicantChatID; Out_MessageID := TestData_MessageID;
     Out_MsgType := "text"; Out_MediaType := ""; Out_IsGroup := false;
     Out_Content := Some content; Out_MimeType := ""; Out_ErrorCode := "" |}.

(** ** Vocabulary of the statements *)

(** Two events agree on the addresses the partition key is built from. *)
Definition same_addresses (p p' : WhatsAppMessage) : Prop :=
  SenderID p' = SenderID p /\ ReceiverID p' = ReceiverID p.

(** The policy record (and error) the peer branch gets for [senderID]. *)
Definition lookup_policy (wcm : WhatsAppClientManager) (senderID : string)
  : option (RecruiterConfigDB * option error) :=
  finished (GetRecruiterConfig (RecruiterNumber (RecruiterConfig_ wcm)) senderID (database wcm)).

(** The conditions of the four checks of the peer branch. *)
Definition not_member (c : RecruiterConfigDB) : bool := negb (Enabled c).
Definition over_rate_limit (wcm : WhatsAppClientManager) (c : RecruiterConfigDB) : bool :=
  (MessageCount c >=? MessageRateLimit (RecruiterConfig_ wcm))%Z.
Definition disallowed_kind (wcm : WhatsAppClientManager) (info : MessageInfo) : bool :=
  negb (kind_allowed wcm info).

(** Blocked when any of the four holds. *)
Definition blocked_by_checks (wcm : WhatsAppClientManager) (info : MessageInfo)
    (c : RecruiterConfigDB) : bool :=
  not_member c || over_rate_limit wcm c || Info_IsGroup info || disallowed_kind wcm info.

(** The error code assigned last, in the order membership, rate limit,
    group; the allowed-type check assigns none. *)
Definition last_assigned_code (wcm : WhatsAppClientManager) (info : MessageInfo)
    (c : RecruiterConfigDB) : option string :=
  if Info_IsGroup info then Some ErrorCodeGroupMessage
  else if over_rate_limit wcm c then Some ErrorRateLimitExceeded
  else if not_member c then Some ErrorCodeBlockedSender
  else None.

Definition tagged (p : WhatsAppMessage) (code : option string) : WhatsAppMessage :=
  match code with
  | Some c => set_ErrorCode p c
  | None => p
  end.

(** The warnings of the four checks: one segment per check, in source
    order, each present exactly when its own condition holds. *)
Definition checks_log (wcm : WhatsAppClientManager) (info : MessageInfo)
    (c : RecruiterConfigDB) : list effect :=
  (if not_member c
   then [Log LevelWarn "[Blocked]: Reason: Sender ID not allowed" (Some ErrorCodeBlockedSender)]
   else [])
  ++ (if over_rate_limit wcm c
      then [Log LevelWarn "[Blocked]: Reason: Messages to this chat have exceeded the rate limit"
              (Some ErrorRateLimitExceeded)]
      else [])
  ++ (if Info_IsGroup info
      then [Log LevelWarn "[Blocked]: Reason: Group message" None]
      else [])
  ++ (if disallowed_kind wcm info
      then [Log LevelWarn "[Blocked]: Reason: Disallowed message type" None]
      else []).

(** The key the arms of [ReceiveMessage] compute. *)
Definition kafkaKey_of (storeJID : JID) (sender : string) : string :=
  User storeJID +:+ "_" +:+ sender.

(** The branch taken after content extraction. *)
Definition Message_branch `{Externals} (wcm : WhatsAppClientManager) (info : MessageInfo)
    (storeJID : JID) (p1 : WhatsAppMessage) : Proc Exit (bool * WhatsAppMessage) :=
  if String.eqb (User (Info_Sender info)) (User storeJID)
  then Message_self wcm (JID_String (Info_Chat info)) (User (Info_Sender info))
         (kafkaKey_of storeJID (User (Info_Sender info))) p1
  else Message_peer wcm info (User (Info_Sender info)) false p1.

(** The warning after [SendPresence], when it failed. *)
Definition presence_log (client : Client) : list effect :=
  if is_nil (Client_SendPresence client) then []
  else [Log LevelWarn " Error  Unable to set the SendPresence" None].




(** *** Outbound dispatcher *)

Definition is_Err {A} (r : result A) : bool :=
  match r with
  | Ok _ => false
  | Err _ => true
  end.

(** The content of the record does not decode as its kind demands. *)
Definition content_decode_error `{Externals} (payload : OutboundPayload) : bool :=
  if String.eqb (Out_MsgType payload) "audio" then
    is_Err (Unmarshal_AudioMessage (Out_Content payload))
  else if String.eqb (Out_MsgType payload) "image" then
    is_Err (Unmarshal_ImageMessage (Out_Content payload))
  else if String.eqb (Out_MsgType payload) "document" then
    is_Err (Unmarshal_DocumentMessage (Out_Content payload))
  else if String.eqb (Out_MsgType payload) "text" then
    is_Err (Unmarshal_string (Out_Content payload))
  else false.

(** The pass for [msg] gets as far as the switch on the kind: the raw copy
    was written, the header decoded into [payload], and [clientManager] is
    registered under the header's [ReceiverID]. *)
Definition reaches_switch `{Externals} (mcm : MainClientManager) (n : nat) (msg : KafkaMessage)
    (payload : OutboundPayload) (clientManager : WhatsAppClientManager) : Prop :=
  exists rawWriter,
    KafkaWriters (MessageHandler_ mcm) !! "raw" = Some rawWriter
    /\ WriteMessages rawWriter {| Key := uuid_New n; Value := Value msg |} = None
    /\ Unmarshal_payload (Value msg) = Ok payload
    /\ GetClientManager mcm (Out_ReceiverID payload) = Some clientManager.

(** A send on the transport that returned an error. *)
Definition failed_send (e : effect) : bool :=
  match e with
  | TransportSend _ _ (Some _) | TransportChatPresence _ _ (Some _) => true
  | _ => false
  end.

Definition transport_send_failed (t : list effect) : Prop :=
  existsb failed_send t = true.

(** The log and the raw copy that precede the switch. *)
Definition before_switch `{Externals} (n : nat) (msg : KafkaMessage) : list effect :=
  [Log LevelDebug "Received Message" None;
   Write "raw" {| Key := uuid_New n; Value := Value msg |} None;
   Log LevelDebug "payload" None].

(** A call of a send method followed by the logging of its error: it makes
    no further call, it goes on to the next statement unless the send
    panicked, and it panics only before anything reached the transport. *)
Definition continues_or_died_silent (m : Proc unit unit) : Prop :=
  invocations (trace m) = []
  /\ (snd m = Next tt \/ (snd m = Panicked /\ transport_sends (trace m) = [])).


(** ** Session supervisor: construction and phone pairing *)

(** [NewWhatsAppClientManager]: a supervisor without client, device store or
    logout callback, not connected. (Its loggers are not state.) *)
Definition NewWhatsAppClientManager (recruiterConfig : RecruiterConfig)
    (container : option Container) (messageCallback : option MessageCallback_t)
    (database : option PostgresRepository) : WhatsAppClientManager :=
  {| RecruiterConfig_ := recruiterConfig;
     WhatsAppClient := None;
     DeviceStore := None;
     Container_ := container;
     IsConnected := false;
     MessageCallback := messageCallback;
     database := database;
     OnLogout := false |}.

(** [PairPhone]. [pairPhone] is what the client's [PairPhone] answers for a
    phone number and a client name: the login code or an error. [len] counts
    bytes. *)
Definition PairPhone (wcm : WhatsAppClientManager) (pairPhone : string -> string -> result string)
    (phoneNumber clientName : string) : Proc (option error) (option error) :=
  if is_nil (WhatsAppClient wcm) then return_ (Some "WhatsApp client not initialized")
  else if (String.length phoneNumber <? 10)%nat || (15 <? String.length phoneNumber)%nat then
    return_ (Some "invalid phone number format")
  else
    let validClient := false in
    let allowed := HostClientType (RecruiterConfig_ wcm) in
    let validClient := if String.eqb allowed clientName then true else validClient in
    if negb validClient then
      return_ (Some ("invalid client name; allowed: " +:+ HostClientType (RecruiterConfig_ wcm)))
    else
      do _ <- log LevelInfo "Pairing phone number" None;
      match pairPhone phoneNumber clientName with
      | Err err =>
          do _ <- emit (TransportPairPhone phoneNumber clientName (Some err));
          do _ <- log LevelError "Phone pairing failed" None;
          return_ (Some err)
      | Ok loginCode =>
          do _ <- emit (TransportPairPhone phoneNumber clientName None);
          do _ <- log LevelInfo "Phone pairing successful" None;
          return_ None
      end.

(** ** Event bus adapter: closing *)

(** [NewMessageHandler]. *)
Definition NewMessageHandler (kafkaWriters : gmap string Writer) : MessageHandler :=
  {| KafkaWriters := kafkaWriters |}.

(** The loop of [Close] over the writers. Go leaves the order of [range]
    over a map open: [order] is the order in which the keys are visited.
    [Writer_Close key] is what [Close()] of the writer stored under [key]
    answers. A nil writer is an absent one. The result is the list of the
    closes made, in order, and [firstErr]. *)
Fixpoint Close_range (Writer_Close : string -> option error) (writers : gmap string Writer)
    (order : list string) (firstErr : option error)
  : list (string * option error) * option error :=
  match order with
  | [] => ([], firstErr)
  | key :: order' =>
      match writers !! key with
      | Some writer =>
          let err := Writer_Close key in
          let firstErr :=
            match err with
            | Some e =>
                (* capture the first error, but keep closing others *)
                if is_nil firstErr
                then Some ("error closing writer [" +:+ key +:+ "]: " +:+ e)
                else firstErr
            | None => firstErr
            end in
          let rest := Close_range Writer_Close writers order' firstErr in
          ((key, err) :: fst rest, snd rest)
      | None => Close_range Writer_Close writers order' firstErr
      end
  end.

(** [Close]: closes all writers of the handler. *)
Definition Close (mh : MessageHandler) (Writer_Close : string -> option error)
    (order : list string) : list (string * option error) * option error :=
  Close_range Writer_Close (KafkaWriters mh) order None.

(** ** Fleet manager: [MainClientManager] *)

Definition set_ClientManagers (mcm : MainClientManager)
    (cms : gmap string WhatsAppClientManager) : MainClientManager :=
  {| ClientManagers := cms; KafkaReaders := KafkaReaders mcm;
     MessageHandler_ := MessageHandler_ mcm |}.

(** [NewMainClientManager]: an empty registry over the readers and a handler
    of the writers. *)
Definition NewMainClientManager (kafkaReaders : gmap string (list ReadResult))
    (kafkaWriters : gmap string Writer) : MainClientManager :=
  let messageHandler := NewMessageHandler kafkaWriters in
  {| ClientManagers := ∅; KafkaReaders := kafkaReaders; MessageHandler_ := messageHandler |}.

(** The logout callback [InitializeClient] installs: it deletes the
    supervisor from the registry. *)
Definition OnLogout_callback (mcm : MainClientManager) (recruiterID : string)
  : MainClientManager :=
  set_ClientManagers mcm (delete recruiterID (ClientManagers mcm)).

(** The registry after the logout callbacks a run of a supervisor made. *)
Definition after_logouts (t : list effect) (mcm : MainClientManager) : MainClientManager :=
  fold_left (fun mcm e => match e with
                          | OnLogoutCall recruiterID => OnLogout_callback mcm recruiterID
                          | _ => mcm
                          end) t mcm.

(** [InitializeClient]. [container] is [mcm.Container]. The registry holds
    the pointer of the supervisor, so the assignment of [OnLogout] after the
    insertion changes the registered supervisor. *)
Definition InitializeClient `{Externals} (mcm : MainClientManager) (container : option Container)
    (recruiterConfig : RecruiterConfig) (devicesInStore : list Device)
    (database : option PostgresRepository)
  : Proc (MainClientManager * option error) (MainClientManager * option error) :=
  match ClientManagers mcm !! RecruiterNumber recruiterConfig with
  | Some _ =>
      do _ <- log LevelInfo "Client already exists, skipping initialization" None;
      return_ (mcm, None)
  | None =>
      let clientManager :=
        NewWhatsAppClientManager recruiterConfig container
          (Some (SendMessageToKafka_callback (MessageHandler_ mcm))) database in
      do '(clientManager, err) <- call (Connect clientManager devicesInStore);
      match err with
      | Some e =>
          do _ <- log LevelError "Failed to connect client" None;
          return_ (mcm, Some e)
      | None =>
          let mcm :=
            set_ClientManagers mcm
              (<[RecruiterNumber recruiterConfig := clientManager]> (ClientManagers mcm)) in
          do _ <- log LevelInfo "Client initialized successfully" None;
          (* Set the logout callback *)
          let clientManager := set_OnLogout clientManager true in
          let mcm :=
            set_ClientManagers mcm
              (<[RecruiterNumber recruiterConfig := clientManager]> (ClientManagers mcm)) in
          return_ (mcm, None)
      end
  end.

(** The loop of [InitializeAllClients] over [mcm.Config.WhatsApp]. *)
Fixpoint InitializeAllClients_range `{Externals} (mcm : MainClientManager)
    (container : option Container) (configs : list RecruiterConfig)
    (devicesInStore : list Device) (database : option PostgresRepository)
  : Proc (MainClientManager * option error) MainClientManager :=
  match configs with
  | [] => ret mcm
  | recruiterConfig :: configs' =>
      if Enable recruiterConfig then
        do '(mcm, err) <-
          call (InitializeClient mcm container recruiterConfig devicesInStore database);
        match err with
        | Some e =>
            do _ <- log LevelError "Failed to initialize client" None;
            return_ (mcm, Some e)
        | None => InitializeAllClients_range mcm container configs' devicesInStore database
        end
      else InitializeAllClients_range mcm container configs' devicesInStore database
  end.

(** [InitializeAllClients]. [WhatsApp] is [mcm.Config.WhatsApp],
    [GetAllDevices] what the container's [GetAllDevices] answers. *)
Definition InitializeAllClients `{Externals} (mcm : MainClientManager)
    (container : option Container) (WhatsApp : list RecruiterConfig)
    (GetAllDevices : result (list Device)) (database : option PostgresRepository)
  : Proc (MainClientManager * option error) (MainClientManager * option error) :=
  do _ <- log LevelInfo "Initializing all WhatsApp clients" None;
  do _ <- deref container;
  match GetAllDevices with
  | Err err =>
      do _ <- log LevelError "Failed to get devices from store" None;
      return_ (mcm, Some err)
  | Ok devicesInStore =>
      do mcm <- InitializeAllClients_range mcm container WhatsApp devicesInStore database;
      do _ <- log LevelInfo "All WhatsApp clients initialized successfully" None;
      return_ (mcm, None)
  end.

(** The loop of [DisconnectAllClients], visiting the keys in [order]; the
    supervisors are disconnected in place. *)
Fixpoint DisconnectAllClients_range (order : list string)
    (cms : gmap string WhatsAppClientManager)
  : Proc unit (gmap string WhatsAppClientManager) :=
  match order with
  | [] => ret cms
  | recruiterNumber :: order' =>
      match cms !! recruiterNumber with
      | Some clientManager =>
          do clientManager <- call (Disconnect clientManager);
          do _ <- log LevelInfo "Client disconnected" None;
          DisconnectAllClients_range order' (<[recruiterNumber := clientManager]> cms)
      | None => DisconnectAllClients_range order' cms
      end
  end.

(** [DisconnectAllClients]. *)
Definition DisconnectAllClients (mcm : MainClientManager) (order : list string)
  : Proc unit MainClientManager :=
  do _ <- log LevelInfo "Disconnecting all WhatsApp clients" None;
  do cms <- DisconnectAllClients_range order (ClientManagers mcm);
  ret (set_ClientManagers mcm cms).

(** ** Vocabulary of the further statements *)

(** The topics of the publishes of a run, in order. *)
Definition topics (t : list effect) : list string :=
  map (fun c => snd (fst (fst c))) (publishes t).

(** Every publish but the last was accepted. *)
Fixpoint stops_at_first_failure (l : list (WhatsAppMessage * string * string * option error))
  : Prop :=
  match l with
  | [] => True
  | [_] => True
  | (_, _, _, err) :: l' => err = None /\ stops_at_first_failure l'
  end.

(** The topics an event other than [Message] is published to when every
    publish is accepted. *)
Definition routing (evt : Event) : list string :=
  match evt with
  | EvCallAccept _ | EvCallOffer _ | EvCallReject _ => ["raw"]
  | EvLoggedOut _ _ _ => ["failed"; "raw"]
  | EvChatPresence _ _ _ _ => ["raw"; "ingest"]
  | EvTemporaryBan _ _ => ["raw"; "failed"]
  | EvMessage _ _ | EvOther => []
  end.

Definition is_Message (evt : Event) : bool :=
  match evt with
  | EvMessage _ _ => true
  | _ => false
  end.

(** The chat a call of a send method is addressed to. *)
Definition SendOp_chatID (op : SendOp) : string :=
  match op with
  | SendText chatID _ | SendAudio chatID _ | SendImage chatID _
  | SendDocument chatID _ | SendTyping chatID => chatID
  end.

(** The first stored device whose bare user is the tenant's number. *)
Definition matching_device (recruiterNumber : string) (ids : list JID) : option JID :=
  find (fun id => String.eqb (ExtractPhoneNumber (User id)) recruiterNumber) ids.

(** The pairings and the QR files of a trace. *)
Definition pairings (t : list effect) : list (string * string * option error) :=
  flat_map (fun e => match e with
                     | TransportPairPhone phoneNumber clientName res =>
                         [(phoneNumber, clientName, res)]
                     | _ => []
                     end) t.

Definition qr_files (t : list effect) : list (string * string) :=
  flat_map (fun e => match e with
                     | QRCodeFile _ qrCode description => [(qrCode, description)]
                     | _ => []
                     end) t.

(** The codes of the "code" items of a QR channel up to its first "success"
    or "timeout" item. *)
Fixpoint codes_until_end (items : list QRChannelItem) : list string :=
  match items with
  | [] => []
  | evt :: items' =>
      if String.eqb (QR_Event evt) "code" then QR_Code evt :: codes_until_end items'
      else if String.eqb (QR_Event evt) "success" then []
      else if String.eqb (QR_Event evt) "timeout" then []
      else codes_until_end items'
  end.

(** The client name the login goroutine pairs under. *)
Definition login_client_name (cfg : RecruiterConfig) : string :=
  if strings_EqualFold "Chrome (Ubuntu)" (HostClientType cfg) then HostClientType cfg
  else "Chrome (Ubuntu)".

(** The arm of [ReceiveMessage] an event is handled by. *)
Definition arm_of `{Externals} (wcm : WhatsAppClientManager) (client : Client) (evt : Event)
  : Proc Exit Exit :=
  match evt with
  | EvMessage info msg => ReceiveMessage_Message wcm client info msg
  | EvCallAccept meta => ReceiveMessage_Call wcm client "CallAccept" meta
  | EvCallOffer meta => ReceiveMessage_Call wcm client "CallOffer" meta
  | EvCallReject meta => ReceiveMessage_Call wcm client "CallReject" meta
  | EvLoggedOut _ Reason_NumberString Reason_String =>
      ReceiveMessage_LoggedOut wcm client Reason_NumberString Reason_String
  | EvChatPresence Chat Sender State Media =>
      ReceiveMessage_ChatPresence wcm client Chat Sender State Media
  | EvTemporaryBan Code_String Expire_String =>
      ReceiveMessage_TemporaryBan wcm client Code_String Expire_String
  | EvOther => ret {| isBlocked := false; payload := zero_WhatsAppMessage; wcm_final := wcm |}
  end.

(** One event published under one key to the topics of a list, in order,
    until a publish fails. *)
Fixpoint chain (cb : MessageCallback_t) (p : WhatsAppMessage) (key : string)
    (topicNames : list string) : list (WhatsAppMessage * string * string * option error) :=
  match topicNames with
  | [] => []
  | topicName :: topicNames' =>
      (p, topicName, key, cb p topicName key)
        :: match cb p topicName key with
           | None => chain cb p key topicNames'
           | Some _ => []
           end
  end.

(** *** Further benches *)

(** The test tenant's supervisor over a callback that refuses every publish
    to the topic [down], and one that allows the types [allowed] only. *)
Definition refusing_supervisor (down : string) (rows : list RecruiterConfigDB)
  : WhatsAppClientManager :=
  {| RecruiterConfig_ := GetTestRecruiterConfig false;
     WhatsAppClient := Some (bench_client TestData_RecruiterNumber);
     DeviceStore := Some {| Device_ID := Some (user_jid TestData_RecruiterNumber) |};
     Container_ := Some bench_container;
     IsConnected := true;
     MessageCallback :=
       Some (fun _ topicName _ =>
               if String.eqb topicName down then Some "broker down" else None);
     database := Some (bench_store rows);
     OnLogout := true |}.

Definition allowing_supervisor (allowed : list string) (rows : list RecruiterConfigDB)
  : WhatsAppClientManager :=
  bench_supervisor
    {| RecruiterNumber := TestData_RecruiterNumber;
       HostClientType := TestData_HostClientType;
       HostClientName := TestData_HostClientName;
       AllowedMediaTypes := allowed;
       MessageRateLimit := TestData_DefaultRateLimit;
       Enable := true |}
    (bench_store rows).

(** A media message of [sender] in its own chat. *)
Definition media_info (sender mediaType : string) : MessageInfo :=
  {| Info_Chat := user_jid sender; Info_Sender := user_jid sender; Info_IsGroup := false;
     Info_Type := "media"; Info_MediaType := mediaType;
     Info_Timestamp := 1753437367258691000%Z |}.

(** What makes a pass of the dispatcher's loop the last one: the read was
    cancelled, or, on a handler with a raw writer, the raw copy was refused,
    the header did not decode, or no supervisor is registered under the
    header's [ReceiverID]. *)
Definition ends_loop `{Externals} (mcm : MainClientManager) (n : nat) (r : ReadResult) : Prop :=
  match r with
  | ReadErr err => err = "fetching message: context canceled"
  | ReadOk msg =>
      exists rawWriter,
        KafkaWriters (MessageHandler_ mcm) !! "raw" = Some rawWriter
        /\ (WriteMessages rawWriter {| Key := uuid_New n; Value := Value msg |} <> None
            \/ is_Err (Unmarshal_payload (Value msg)) = true
            \/ exists payload,
                 Unmarshal_payload (Value msg) = Ok payload
                 /\ GetClientManager mcm (Out_ReceiverID payload) = None)
  end.

(** A fleet whose test tenant is registered but disconnected. *)
Definition idle_fleet : MainClientManager :=
  {| ClientManagers := <[TestData_RecruiterNumber := set_IsConnected (test_supervisor []) false]> ∅;
     KafkaReaders := ∅;
     MessageHandler_ := bench_bus |}.

(** A supervisor after [Disconnect]. *)
Definition disconnected (w : WhatsAppClientManager) : WhatsAppClientManager :=
  if negb (is_nil (WhatsAppClient w)) && IsConnected w then set_IsConnected w false else w.

(** The first item a receive on the QR channel yields: the zero item when
    the channel is closed. *)
Definition first_item (run : LoginRun) : QRChannelItem :=
  match qrChan run with
  | e :: _ => e
  | [] => {| QR_Event := ""; QR_Code := "" |}
  end.

(** A stored device with an id. *)
Definition stored (id : JID) : Device := {| Device_ID := Some id |}.

(** A container whose [GetDevice] fails. *)
Definition failing_container : Container :=
  {| GetDevice := fun _ => Err "sql: database is closed";
     NewDevice := {| Device_ID := None |} |}.

(** The phone number and the client name pass the checks of [PairPhone]. *)
Definition pairable (wcm : WhatsAppClientManager) (phoneNumber clientName : string) : bool :=
  negb (is_nil (WhatsAppClient wcm))
  && (10 <=? String.length phoneNumber)%nat && (String.length phoneNumber <=? 15)%nat
  && String.eqb (HostClientType (RecruiterConfig_ wcm)) clientName.

(** The unit tests of [ExtractPhoneNumber] and [ConvertToJID]. *)
Example TestExtractPhoneNumber :
  ExtractPhoneNumber "918050992006@s.whatsapp.net" = "918050992006" /\
  ExtractPhoneNumber "918496952149:12" = "918496952149" /\
  ExtractPhoneNumber "918050992006" = "918050992006" /\
  ExtractPhoneNumber "" = "".
Proof. repeat split; reflexivity. Qed.

Example TestConvertToJID :
  ConvertToJID "918050992006" = "918050992006@s.whatsapp.net" /\
  ConvertToJID "" = "@s.whatsapp.net".
Proof. split; reflexivity. Qed.

(** * Properties *)

(** ** Identity utilities *)

Section IdentityUtilities.

Lemma ascii_dec_eqb (a b : ascii) :
  (if ascii_dec a b then true else false) = Ascii.eqb b a.
Proof.
  destruct (ascii_dec a b) as [->|Hne].
  - now rewrite Ascii.eqb_refl.
  - symmetry. apply Ascii.eqb_neq. congruence.
Qed.

(** Go's [Index] for a one-byte separator, by the two scans of the
    specification's wording. *)
Lemma Index_single (c : ascii) (s : string) :
  strings_Index s (String c EmptyString)
  = if occurs c s then Some (String.length (prefix_before c s)) else None.
Proof.
  unfold strings_Index.
  induction s as [|b s IH]; [reflexivity|].
  cbn [String.index String.prefix occurs prefix_before].
  pose proof (ascii_dec_eqb c b) as Hdec.
  destruct (ascii_dec c b) as [->|Hne].
  - rewrite Ascii.eqb_refl. destruct s; reflexivity.
  - rewrite <- Hdec. rewrite IH. now destruct (occurs c s).
Qed.

Lemma Contains_single (c : ascii) (s : string) :
  strings_Contains s (String c EmptyString) = occurs c s.
Proof.
  unfold strings_Contains. rewrite Index_single. now destruct (occurs c s).
Qed.

Lemma substring_prefix_before (c : ascii) (s : string) :
  String.substring 0 (String.length (prefix_before c s)) s = prefix_before c s.
Proof.
  induction s as [|b s IH]; [reflexivity|].
  cbn [prefix_before]. destruct (Ascii.eqb b c); [reflexivity|].
  cbn [String.length String.substring]. now rewrite IH.
Qed.

Lemma prefix_before_absent (c : ascii) (s : string) :
  occurs c s = false -> prefix_before c s = s.
Proof.
  induction s as [|b s IH]; [reflexivity|].
  cbn [occurs prefix_before]. destruct (Ascii.eqb b c); [discriminate|].
  intros H. now rewrite IH.
Qed.

(** The first part [Split] returns is the prefix before the separator. *)
Lemma Split_first (c : ascii) (s : string) :
  match strings_Split s (String c EmptyString) with
  | p :: _ => p
  | [] => EmptyString
  end = prefix_before c s.
Proof.
  unfold strings_Split. cbn [String.eqb].
  destruct s as [|b s]; [reflexivity|].
  cbn [String.length genSplit]. rewrite Index_single.
  destruct (occurs c (String b s)) eqn:Hocc.
  - apply substring_prefix_before.
  - symmetry. now apply prefix_before_absent.
Qed.

(** [ExtractPhoneNumber] is the specification's [to_bare], on every input. *)
Lemma ExtractPhoneNumber_to_bare (jid : string) :
  ExtractPhoneNumber jid = to_bare jid.
Proof.
  unfold ExtractPhoneNumber, to_bare.
  change "@" with (String "@"%char EmptyString).
  rewrite Contains_single.
  destruct (occurs "@" jid).
  - apply Split_first.
  - change ":" with (String ":"%char EmptyString). apply Split_first.
Qed.

Lemma occurs_app (c : ascii) (s t : string) :
  occurs c (s +:+ t) = occurs c s || occurs c t.
Proof.
  induction s as [|b s IH]; [reflexivity|].
  simpl. destruct (Ascii.eqb b c); [reflexivity|exact IH].
Qed.

Lemma prefix_before_app (c : ascii) (s t : string) :
  occurs c s = false ->
  prefix_before c (s +:+ String c t) = s.
Proof.
  induction s as [|b s IH]; simpl.
  - now rewrite Ascii.eqb_refl.
  - destruct (Ascii.eqb b c); [discriminate|]. intros H. now rewrite IH.
Qed.

(** The round trip needs only that the bare id holds no "@". *)
Lemma to_bare_to_qualified (x : string) :
  occurs "@" x = false -> to_bare (to_qualified x) = x.
Proof.
  intros H. unfold to_bare, to_qualified.
  rewrite occurs_app. rewrite orb_true_r.
  now apply prefix_before_app.
Qed.

End IdentityUtilities.

(** C9. The identity transforms are total functions (they are defined on
    every string) and round-trip: for every non-empty bare id [x] holding
    neither "@" nor ":", [ExtractPhoneNumber (ConvertToJID x) = x]; here
    [ConvertToJID] appends "@s.whatsapp.net", and [ExtractPhoneNumber] is, on
    every input, the prefix before the first "@" if there is one, else the
    prefix before the first ":" (the whole input when there is neither), so
    that the empty input yields the empty output. *)
Theorem identity_transforms_round_trip (x : string)
    (Hnonempty : x <> "")
    (Hat : strings_Contains x "@" = false)
    (Hcolon : strings_Contains x ":" = false) :
  ExtractPhoneNumber (ConvertToJID x) = x
  /\ ConvertToJID x = x +:+ "@s.whatsapp.net"
  /\ (forall jid, ExtractPhoneNumber jid = to_bare jid)
  /\ (forall bare, ConvertToJID bare = to_qualified bare)
  /\ ExtractPhoneNumber "" = "".
Proof.
  split; [|repeat split; auto using ExtractPhoneNumber_to_bare].
  rewrite ExtractPhoneNumber_to_bare.
  apply to_bare_to_qualified.
  change "@" with (String "@"%char EmptyString) in Hat.
  now rewrite Contains_single in Hat.
Qed.

Lemma identity_transforms_round_trip_witness :
  "918050992006" <> ""
  /\ strings_Contains "918050992006" "@" = false
  /\ strings_Contains "918050992006" ":" = false
  /\ ExtractPhoneNumber (ConvertToJID "918050992006") = "918050992006".
Proof.
  split; [discriminate|]. split; [reflexivity|]. split; [reflexivity|].
  apply (identity_transforms_round_trip "918050992006"); [discriminate|reflexivity|reflexivity].
Defined.

(** ** Computations: traces and outcomes of sequenced statements *)

Section Computations.
Context {R A B : Type}.

Lemma trace_bind (m : Proc R A) (k : A -> Proc R B) :
  trace (bind m k)
  = trace m ++ match snd m with
               | Next a => trace (k a)
               | _ => []
               end.
Proof.
  destruct m as [t [a|r|]]; cbn [bind trace fst snd].
  - now destruct (k a).
  - now rewrite app_nil_r.
  - now rewrite app_nil_r.
Qed.

Lemma snd_bind (m : Proc R A) (k : A -> Proc R B) :
  snd (bind m k)
  = match snd m with
    | Next a => snd (k a)
    | Returned r => Returned r
    | Panicked => Panicked
    end.
Proof.
  destruct m as [t [a|r|]]; cbn [bind snd]; try reflexivity.
  now destruct (k a).
Qed.

Lemma bind_Next (t : list effect) (a : A) (k : A -> Proc R B) :
  bind (t, Next a) k = (t ++ trace (k a), snd (k a)).
Proof. cbn [bind]. now destruct (k a). Qed.

Lemma bind_ret (a : A) (k : A -> Proc R B) : bind (ret a) k = k a.
Proof. unfold ret. cbn [bind]. now destruct (k a). Qed.

End Computations.

Lemma bind_emit {R B} (e : effect) (k : unit -> Proc R B) :
  bind (emit e) k = (e :: trace (k tt), snd (k tt)).
Proof. unfold emit. cbn [bind]. now destruct (k tt). Qed.

Lemma bind_log {R B} lvl msg code (k : unit -> Proc R B) :
  bind (log lvl msg code) k = (Log lvl msg code :: trace (k tt), snd (k tt)).
Proof. apply bind_emit. Qed.

Lemma publishes_app (t1 t2 : list effect) :
  publishes (t1 ++ t2) = publishes t1 ++ publishes t2.
Proof. apply flat_map_app. Qed.

Lemma invocations_app (t1 t2 : list effect) :
  invocations (t1 ++ t2) = invocations t1 ++ invocations t2.
Proof. apply flat_map_app. Qed.

Lemma transport_sends_app (t1 t2 : list effect) :
  transport_sends (t1 ++ t2) = transport_sends t1 ++ transport_sends t2.
Proof. apply List.filter_app. Qed.

(** Taking a computation apart at its first statement. *)
Ltac first_statement m E :=
  let t := fresh "t" in
  destruct m as [t [?|?|]] eqn:E.

Ltac string_cases :=
  repeat match goal with
    | |- context [String.eqb ?a ?b] => destruct (String.eqb_spec a b)
    | |- context [if ?b then _ else _] => destruct b eqn:?
    | |- context [match ?o with Some _ => _ | None => _ end] => destruct o eqn:?
    | |- context [match ?o with Ok _ => _ | Err _ => _ end] => destruct o eqn:?
    end.

(** ** Inbound filter: what each stage of the [Message] arm publishes *)

Section FilterStages.
Context `{Externals}.

Lemma callback_spec {R} (wcm : WhatsAppClientManager) (p : WhatsAppMessage)
    (topic key : string) :
  @callback R wcm p topic key
  = match MessageCallback wcm with
    | Some cb => ([Publish p topic key (cb p topic key)], Next (cb p topic key))
    | None => ([], Panicked)
    end.
Proof. unfold callback. now destruct (MessageCallback wcm). Qed.

(** Content extraction publishes nothing. *)
Lemma Message_content_quiet wcm client info msg p :
  publishes (trace (Message_content wcm client info msg p)) = [].
Proof.
  unfold Message_content.
  destruct (String.eqb (Info_Type info) "text").
  { destruct (String.eqb _ ""); reflexivity. }
  destruct (String.eqb (Info_Type info) "media"); [|reflexivity].
  destruct (Client_DownloadAny client msg); [|reflexivity].
  destruct (String.eqb (Info_MediaType info) "audio" || String.eqb (Info_MediaType info) "ptt").
  { destruct (AudioMessage_ msg) as [[[m|]]|]; reflexivity. }
  destruct (String.eqb (Info_MediaType info) "image").
  { destruct (ImageMessage_ msg) as [[[m|]]|]; reflexivity. }
  destruct (String.eqb (Info_MediaType info) "document").
  { destruct (DocumentMessage_ msg) as [[[m|]]|]; reflexivity. }
  reflexivity.
Qed.

(** It assigns the kind, the content and the MIME type only. *)
Lemma Message_content_fields wcm client info msg p p' :
  snd (Message_content wcm client info msg p) = Next p' ->
  SenderID p' = SenderID p /\ ReceiverID p' = ReceiverID p /\ ErrorCode p' = ErrorCode p.
Proof.
  unfold Message_content.
  destruct (String.eqb (Info_Type info) "text").
  { destruct (String.eqb _ ""); cbn; intros [= <-]; auto. }
  destruct (String.eqb (Info_Type info) "media"); [|cbn; intros [= <-]; auto].
  destruct (Client_DownloadAny client msg); [|discriminate].
  destruct (String.eqb (Info_MediaType info) "audio" || String.eqb (Info_MediaType info) "ptt").
  { destruct (AudioMessage_ msg) as [[[m|]]|]; cbn; intros [= <-]; auto. }
  destruct (String.eqb (Info_MediaType info) "image").
  { destruct (ImageMessage_ msg) as [[[m|]]|]; cbn; intros [= <-]; auto. }
  destruct (String.eqb (Info_MediaType info) "document").
  { destruct (DocumentMessage_ msg) as [[[m|]]|]; cbn; intros [= <-]; auto. }
  discriminate.
Qed.

(** A text message with both bodies empty ends the function there. *)
Lemma Message_content_empty_text wcm client info msg p :
  Info_Type info = "text" ->
  GetExtendedTextMessage_GetText msg = "" ->
  GetConversation msg = "" ->
  Message_content wcm client info msg p
  = ([Log LevelWarn "Blocked: Empty message" (Some (ErrorCode p))],
     Returned {| isBlocked := true; payload := set_MsgType p "text"; wcm_final := wcm |}).
Proof.
  intros Ht He Hc. unfold Message_content. rewrite Ht, He, Hc. reflexivity.
Qed.

(** The policy lookup publishes nothing and always yields a record. *)
Lemma GetRecruiterConfig_quiet recruiterID senderID db :
  publishes (trace (GetRecruiterConfig recruiterID senderID db)) = [].
Proof.
  unfold GetRecruiterConfig. destruct db as [db|]; [|reflexivity]. cbn.
  destruct (Db_Query db recruiterID senderID); [|reflexivity].
  destruct (Scan _); reflexivity.
Qed.

Lemma check_membership_quiet {R} c st :
  publishes (trace (@check_membership R c st)) = [].
Proof. destruct st. unfold check_membership. now destruct (negb _). Qed.

Lemma check_rate_limit_quiet {R} wcm c st :
  publishes (trace (@check_rate_limit R wcm c st)) = [].
Proof. destruct st. unfold check_rate_limit. now destruct (_ >=? _)%Z. Qed.

Lemma check_group_quiet {R} info st :
  publishes (trace (@check_group R info st)) = [].
Proof. destruct st. unfold check_group. now destruct (Info_IsGroup _). Qed.

Lemma check_kind_allowed_quiet {R} wcm info st :
  publishes (trace (@check_kind_allowed R wcm info st)) = [].
Proof. destruct st. unfold check_kind_allowed. now destruct (negb _). Qed.

(** Each check goes on to the next statement, and touches the error code
    only. *)
Lemma check_membership_next {R} c b p :
  exists b' p', snd (@check_membership R c (b, p)) = Next (b', p') /\ same_addresses p p'.
Proof. unfold check_membership. destruct (negb _); cbn; do 2 eexists; split; try reflexivity; split; reflexivity. Qed.

Lemma check_rate_limit_next {R} wcm c b p :
  exists b' p', snd (@check_rate_limit R wcm c (b, p)) = Next (b', p') /\ same_addresses p p'.
Proof. unfold check_rate_limit. destruct (_ >=? _)%Z; cbn; do 2 eexists; split; try reflexivity; split; reflexivity. Qed.

Lemma check_group_next {R} info b p :
  exists b' p', snd (@check_group R info (b, p)) = Next (b', p') /\ same_addresses p p'.
Proof. unfold check_group. destruct (Info_IsGroup _); cbn; do 2 eexists; split; try reflexivity; split; reflexivity. Qed.

Lemma check_kind_allowed_next {R} wcm info b p :
  exists b', snd (@check_kind_allowed R wcm info (b, p)) = Next (b', p).
Proof. unfold check_kind_allowed. destruct (negb _); cbn; eexists; reflexivity. Qed.

End FilterStages.

Section FilterRuns.
Context `{Externals}.

(** The four checks as one closed form. *)
Lemma peer_checks_closed_form {R} wcm info c b p :
  bind (@check_membership R c (b, p)) (fun st =>
    bind (check_rate_limit wcm c st) (fun st =>
      bind (check_group info st) (fun st => check_kind_allowed wcm info st)))
  = (checks_log wcm info c,
     Next (b || blocked_by_checks wcm info c, tagged p (last_assigned_code wcm info c))).
Proof.
  unfold check_membership, check_rate_limit, check_group, check_kind_allowed,
    checks_log, blocked_by_checks, last_assigned_code, not_member, over_rate_limit,
    disallowed_kind.
  destruct (negb (Enabled c)), (MessageCount c >=? _)%Z, (Info_IsGroup info),
    (negb (kind_allowed wcm info)), b; reflexivity.
Qed.

Lemma GetRecruiterConfig_returns recruiterID senderID db :
  exists t c e,
    GetRecruiterConfig recruiterID senderID (Some db) = (t, Returned (c, e))
    /\ publishes t = [].
Proof.
  unfold GetRecruiterConfig. cbn.
  destruct (Db_Query db recruiterID senderID); [destruct (Scan _)|];
    cbn; do 3 eexists; split; reflexivity.
Qed.

(** The peer branch: the lookup's log lines, then the checks. *)
Lemma Message_peer_closed_form wcm info senderID b p c e :
  lookup_policy wcm senderID = Some (c, e) ->
  exists t0,
    Message_peer wcm info senderID b p
    = (t0 ++ checks_log wcm info c,
       Next (b || blocked_by_checks wcm info c, tagged p (last_assigned_code wcm info c)))
    /\ publishes t0 = [].
Proof.
  unfold lookup_policy, Message_peer. intros Hl.
  destruct (database wcm) as [db|]; [|discriminate].
  destruct (GetRecruiterConfig_returns (RecruiterNumber (RecruiterConfig_ wcm)) senderID db)
    as (t & c' & e' & Hg & Hq).
  rewrite Hg in *. cbn in Hl. injection Hl as -> ->.
  cbn [call]. rewrite bind_Next. cbn [trace fst snd].
  rewrite peer_checks_closed_form.
  destruct e as [e|]; cbn.
  - exists (t ++ [Log LevelError "Issue while reading the GetRecruiterConfig" None;
                  Log LevelDebug "The result from the configFromDb" None]).
    split; [now rewrite <- app_assoc|].
    rewrite publishes_app, Hq. reflexivity.
  - exists (t ++ [Log LevelDebug "The result from the configFromDb" None]).
    split; [now rewrite <- app_assoc|].
    rewrite publishes_app, Hq. reflexivity.
Qed.

Lemma checks_log_quiet wcm info c : publishes (checks_log wcm info c) = [].
Proof.
  unfold checks_log.
  destruct (not_member c), (over_rate_limit wcm c), (Info_IsGroup info),
    (disallowed_kind wcm info); reflexivity.
Qed.

Lemma Message_peer_quiet wcm info senderID b p :
  publishes (trace (Message_peer wcm info senderID b p)) = [].
Proof.
  destruct (lookup_policy wcm senderID) as [[c e]|] eqn:Hl.
  - destruct (Message_peer_closed_form wcm info senderID b p c e Hl) as (t0 & -> & Hq).
    cbn [trace fst]. now rewrite publishes_app, Hq, checks_log_quiet.
  - unfold lookup_policy in Hl. unfold Message_peer.
    destruct (database wcm) as [db|]; [|reflexivity].
    destruct (GetRecruiterConfig_returns (RecruiterNumber (RecruiterConfig_ wcm)) senderID db)
      as (t & c' & e' & Hg & _).
    rewrite Hg in Hl. discriminate.
Qed.



(** The self-message branch. *)
Lemma Message_self_closed_form wcm chatID senderID key p :
  Message_self wcm chatID senderID key p
  = if String.eqb chatID (ConvertToJID (RecruiterNumber (RecruiterConfig_ wcm))) then
      match MessageCallback wcm with
      | None => ([], Panicked)
      | Some cb =>
          match cb p "admin" key with
          | Some e =>
              ([Publish p "admin" key (Some e);
                Log LevelError "Error sending message to admin topic " None],
               Returned {| isBlocked := true; payload := p; wcm_final := wcm |})
          | None =>
              ([Publish p "admin" key None;
                Log LevelInfo "[Redirect]: Reason: Self-message (Admin topic)"
                  (Some InfoCodeAdminMessage)],
               Next (true, set_ErrorCode p InfoCodeAdminMessage))
          end
      end
    else
      ([Log LevelDebug "Extracted ph no" None;
        Log LevelInfo "[Blocked]: Reason: Recruiter manual message to applicant"
          (Some InfoCodeRecruiterManual)],
       Next (true, set_ErrorCode (set_ReceiverID p (ExtractPhoneNumber chatID))
                     InfoCodeRecruiterManual)).
Proof.
  unfold Message_self. destruct (String.eqb chatID _); [|reflexivity].
  rewrite callback_spec. destruct (MessageCallback wcm) as [cb|]; [|reflexivity].
  cbn. destruct (cb p "admin" key); reflexivity.
Qed.

(** Emission. *)
Lemma Message_emit_closed_form wcm key b p :
  let exit := {| isBlocked := b; payload := p; wcm_final := wcm |} in
  Message_emit wcm key b p
  = match MessageCallback wcm with
    | None => ([], Panicked)
    | Some cb =>
        let raw :=
          match cb p "raw" key with
          | Some e => ([Publish p "raw" key (Some e); Log LevelError "Error sending message" None],
                       Returned exit)
          | None => ([Publish p "raw" key None], Next exit)
          end in
        if b then raw
        else
          match cb p "ingest" key with
          | Some e =>
              ([Publish p "ingest" key (Some e); Log LevelError "Error sending message" None],
               Returned exit)
          | None =>
              ([Publish p "ingest" key None; Log LevelInfo "Message sent to [Ingest] topic" None]
                 ++ fst raw, snd raw)
          end
    end.
Proof.
  unfold Message_emit. rewrite !callback_spec.
  destruct (MessageCallback wcm) as [cb|], b; cbn; try reflexivity.
  - destruct (cb p "raw" key); reflexivity.
  - destruct (cb p "ingest" key); [reflexivity|]. cbn.
    destruct (cb p "raw" key); reflexivity.
Qed.

End FilterRuns.

Section MessageRuns.
Context `{Externals}.

Lemma ReceiveMessage_Message_run wcm client storeJID info msg :
  WhatsAppClient wcm = Some client ->
  Store_ID client = Some storeJID ->
  ReceiveMessage wcm (EvMessage info msg)
  = let key := kafkaKey_of storeJID (User (Info_Sender info)) in
    match Message_content wcm client info msg (Message_new info storeJID) with
    | (t1, Next p1) =>
        match Message_branch wcm info storeJID p1 with
        | (t2, Next (b, p2)) =>
            (presence_log client ++ t1 ++ t2 ++ [Log LevelInfo "EVENT Recived" None]
               ++ trace (Message_emit wcm key b p2),
             snd (Message_emit wcm key b p2))
        | (t2, Returned r) => (presence_log client ++ t1 ++ t2, Returned r)
        | (t2, Panicked) => (presence_log client ++ t1 ++ t2, Panicked)
        end
    | (t1, Returned r) => (presence_log client ++ t1, Returned r)
    | (t1, Panicked) => (presence_log client ++ t1, Panicked)
    end.
Proof.
  intros Hc Hs. unfold ReceiveMessage, ReceiveMessage_Message, Message_branch, presence_log.
  rewrite Hc. cbn [deref ret bind]. rewrite Hs. cbn [deref ret bind].
  change (ReceiverID (Message_new info storeJID) +:+ "_" +:+ SenderID (Message_new info storeJID))
    with (kafkaKey_of storeJID (User (Info_Sender info))).
  destruct (Message_content wcm client info msg (Message_new info storeJID))
    as [t1 [p1|r|]].
  - cbn [bind].
    destruct (if String.eqb (User (Info_Sender info)) (User storeJID) then _ else _)
      as [t2 [[b p2]|r|]].
    + cbn [bind log emit]. destruct (Message_emit _ _ _ _) as [t3 o3]. cbn [trace fst snd].
      destruct (is_nil (Client_SendPresence client)); cbn; rewrite ?app_nil_r; reflexivity.
    + destruct (is_nil (Client_SendPresence client)); cbn; rewrite ?app_nil_r; reflexivity.
    + destruct (is_nil (Client_SendPresence client)); cbn; rewrite ?app_nil_r; reflexivity.
  - destruct (is_nil (Client_SendPresence client)); cbn; rewrite ?app_nil_r; reflexivity.
  - destruct (is_nil (Client_SendPresence client)); cbn; rewrite ?app_nil_r; reflexivity.
Qed.
End MessageRuns.

(** ** Inbound filter: emission invariants *)

Section MessagePublishes.
Context `{Externals}.

Lemma presence_log_quiet client : publishes (presence_log client) = [].
Proof. unfold presence_log. now destruct (is_nil _). Qed.

(** What a [Message] event publishes, stage by stage. *)
Lemma Message_run_publishes wcm client storeJID info msg :
  WhatsAppClient wcm = Some client ->
  Store_ID client = Some storeJID ->
  publishes (trace (ReceiveMessage wcm (EvMessage info msg)))
  = match snd (Message_content wcm client info msg (Message_new info storeJID)) with
  | Next p1 =>
      publishes (trace (Message_branch wcm info storeJID p1))
      ++ match snd (Message_branch wcm info storeJID p1) with
         | Next (b, p2) =>
             publishes (trace (Message_emit wcm
                                 (kafkaKey_of storeJID (User (Info_Sender info))) b p2))
         | _ => []
         end
  | _ => []
  end.
Proof.
  intros Hc Hs. rewrite (ReceiveMessage_Message_run wcm client storeJID info msg Hc Hs).
  cbv zeta.
  pose proof (Message_content_quiet wcm client info msg (Message_new info storeJID)) as Hq.
  destruct (Message_content wcm client info msg (Message_new info storeJID)) as [t1 [p1|r|]];
  cbn [trace fst snd] in *.
  - destruct (Message_branch wcm info storeJID p1) as [t2 [[b p2]|r|]]; cbn [trace fst snd];
    rewrite !publishes_app, presence_log_quiet, Hq; cbn [app]; try reflexivity;
    now rewrite app_nil_r.
  - now rewrite publishes_app, presence_log_quiet, Hq.
  - now rewrite publishes_app, presence_log_quiet, Hq.
Qed.

(** Without a client, or before pairing, the function panics at once. *)
Lemma ReceiveMessage_no_client wcm evt :
  WhatsAppClient wcm = None -> ReceiveMessage wcm evt = ([], Panicked).
Proof. intros Hc. unfold ReceiveMessage. now rewrite Hc. Qed.

Lemma ReceiveMessage_Message_no_store wcm client info msg :
  WhatsAppClient wcm = Some client -> Store_ID client = None ->
  publishes (trace (ReceiveMessage wcm (EvMessage info msg))) = [].
Proof.
  intros Hc Hs. unfold ReceiveMessage, ReceiveMessage_Message. rewrite Hc.
  cbn [deref ret bind]. rewrite Hs.
  destruct (is_nil (Client_SendPresence client)); reflexivity.
Qed.

(** The publishes of the two branches and of the emission, as lists. *)
Lemma Message_emit_publishes wcm key b p :
  publishes (trace (Message_emit wcm key b p))
  = match MessageCallback wcm with
  | None => []
  | Some cb =>
      if b then [(p, "raw", key, cb p "raw" key)]
      else (p, "ingest", key, cb p "ingest" key)
             :: match cb p "ingest" key with
                | None => [(p, "raw", key, cb p "raw" key)]
                | Some _ => []
                end
  end.
Proof.
  rewrite Message_emit_closed_form. cbv zeta.
  destruct (MessageCallback wcm) as [cb|]; [|reflexivity].
  destruct b.
  - destruct (cb p "raw" key); reflexivity.
  - destruct (cb p "ingest" key); [reflexivity|].
    destruct (cb p "raw" key); reflexivity.
Qed.

Lemma Message_self_publishes wcm chatID senderID key p :
  publishes (trace (Message_self wcm chatID senderID key p))
  = if String.eqb chatID (ConvertToJID (RecruiterNumber (RecruiterConfig_ wcm))) then
    match MessageCallback wcm with
    | None => []
    | Some cb => [(p, "admin", key, cb p "admin" key)]
    end
  else [].
Proof.
  rewrite Message_self_closed_form.
  destruct (String.eqb chatID _); [|reflexivity].
  destruct (MessageCallback wcm) as [cb|]; [|reflexivity].
  destruct (cb p "admin" key); reflexivity.
Qed.

Lemma Message_self_blocks wcm chatID senderID key p b p' :
  snd (Message_self wcm chatID senderID key p) = Next (b, p') -> b = true.
Proof.
  rewrite Message_self_closed_form.
  destruct (String.eqb chatID _).
  - destruct (MessageCallback wcm) as [cb|]; [|discriminate].
    destruct (cb p "admin" key); [discriminate|]. now intros [= <- _].
  - now intros [= <- _].
Qed.

End MessagePublishes.



(** ** Inbound filter: empty text messages *)

(** An inbound text message whose two bodies are empty is dropped before
    anything is published; the function ends with [isBlocked] set and the
    error code as it was, empty. *)
Lemma empty_text_dropped `{Externals} (wcm : WhatsAppClientManager) (client : Client)
    (storeJID : JID) (info : MessageInfo) (msg : E2EMessage) :
  WhatsAppClient wcm = Some client ->
  Store_ID client = Some storeJID ->
  Info_Type info = "text" ->
  GetExtendedTextMessage_GetText msg = "" ->
  GetConversation msg = "" ->
  ReceiveMessage wcm (EvMessage info msg)
  = (presence_log client ++ [Log LevelWarn "Blocked: Empty message" (Some "")],
     Returned {| isBlocked := true;
                 payload := set_MsgType (Message_new info storeJID) "text";
                 wcm_final := wcm |}).
Proof.
  intros Hc Hs Ht He Hv.
  rewrite (ReceiveMessage_Message_run wcm client storeJID info msg Hc Hs). cbv zeta.
  now rewrite (Message_content_empty_text wcm client info msg _ Ht He Hv).
Qed.

Lemma empty_text_publishes_nothing `{Externals} (wcm : WhatsAppClientManager)
    (info : MessageInfo) (msg : E2EMessage) :
  Info_Type info = "text" ->
  GetExtendedTextMessage_GetText msg = "" ->
  GetConversation msg = "" ->
  publishes (trace (ReceiveMessage wcm (EvMessage info msg))) = [].
Proof.
  intros Ht He Hv.
  destruct (WhatsAppClient wcm) as [client|] eqn:Hc;
    [|now rewrite (ReceiveMessage_no_client wcm _ Hc)].
  destruct (Store_ID client) as [storeJID|] eqn:Hs;
    [|now apply (ReceiveMessage_Message_no_store wcm client)].
  rewrite (empty_text_dropped wcm client storeJID info msg Hc Hs Ht He Hv).
  cbn [trace fst]. now rewrite publishes_app, presence_log_quiet.
Qed.

(** C7. An inbound text message whose two bodies are empty is dropped
    without a publish to any topic and with [isBlocked] set; contrary to
    the claim its error code is not EMPTY_MESSAGE: it is the empty string it
    was created with, which is also what the one log line of the branch
    shows. *)
Theorem empty_text_error_code_not_set `{Externals} (wcm : WhatsAppClientManager)
    (client : Client) (storeJID : JID) (info : MessageInfo) (msg : E2EMessage)
    (Hc : WhatsAppClient wcm = Some client)
    (Hs : Store_ID client = Some storeJID)
    (Ht : Info_Type info = "text")
    (He : GetExtendedTextMessage_GetText msg = "")
    (Hv : GetConversation msg = "") :
  publishes (trace (ReceiveMessage wcm (EvMessage info msg))) = []
  /\ trace (ReceiveMessage wcm (EvMessage info msg))
     = presence_log client ++ [Log LevelWarn "Blocked: Empty message" (Some "")]
  /\ exists exit,
       finished (ReceiveMessage wcm (EvMessage info msg)) = Some exit
       /\ isBlocked exit = true
       /\ ErrorCode (payload exit) = ""
       /\ ErrorCode (payload exit) <> ErrorCodeEmptyMessage.
Proof.
  split; [exact (empty_text_publishes_nothing wcm info msg Ht He Hv)|].
  rewrite (empty_text_dropped wcm client storeJID info msg Hc Hs Ht He Hv).
  split; [reflexivity|].
  eexists. split; [reflexivity|]. repeat split. discriminate.
Qed.

Lemma empty_text_error_code_not_set_witness :
  let run := ReceiveMessage (H := bench) (test_supervisor [GetTestRecruiterConfigDB])
               (applicant_text "") in
  publishes (trace run) = []
  /\ trace run = [Log LevelWarn "Blocked: Empty message" (Some "")]
  /\ exists exit,
       finished run = Some exit
       /\ isBlocked exit = true
       /\ ErrorCode (payload exit) = "".
Proof.
  cbv zeta.
  destruct (empty_text_error_code_not_set (H := bench)
              (test_supervisor [GetTestRecruiterConfigDB])
              (bench_client TestData_RecruiterNumber) (user_jid TestData_RecruiterNumber)
              (text_info TestData_ApplicantNumber TestData_ApplicantNumber false)
              (text_body "") eq_refl eq_refl eq_refl eq_refl eq_refl)
    as (Hquiet & Htrace & exit & Hfin & Hb & Hcode & _).
  split; [exact Hquiet|]. split; [exact Htrace|].
  exists exit. auto.
Defined.

(** ** Inbound filter: a failing policy lookup *)

(** A driver error yields the zero policy record, whose [Enabled] is false,
    together with the error. *)
Lemma lookup_policy_driver_error (wcm : WhatsAppClientManager) (db : PostgresRepository)
    (senderID : string) (e : error) :
  database wcm = Some db ->
  Db_Query db (RecruiterNumber (RecruiterConfig_ wcm)) senderID = Err e ->
  lookup_policy wcm senderID
  = Some (zero_RecruiterConfigDB, Some ("failed to execute query: " +:+ e)).
Proof.
  intros Hdb Hq. unfold lookup_policy, GetRecruiterConfig. rewrite Hdb. cbn. now rewrite Hq.
Qed.

(** A missing row yields the default policy and no error. *)
Lemma lookup_policy_no_row (wcm : WhatsAppClientManager) (db : PostgresRepository)
    (senderID : string) :
  database wcm = Some db ->
  Db_Query db (RecruiterNumber (RecruiterConfig_ wcm)) senderID = Ok [] ->
  lookup_policy wcm senderID
  = Some ({| RecruiterID := RecruiterNumber (RecruiterConfig_ wcm); ApplicantID := senderID;
             Enabled := true; MessageCount := 0 |}, None).
Proof.
  intros Hdb Hq. unfold lookup_policy, GetRecruiterConfig. rewrite Hdb. cbn. now rewrite Hq.
Qed.

(** So the peer branch blocks every event whose lookup failed in the driver. *)
Lemma driver_error_blocks `{Externals} (wcm : WhatsAppClientManager) (db : PostgresRepository)
    (info : MessageInfo) (senderID : string) (e : error) (b : bool) (p : WhatsAppMessage) :
  database wcm = Some db ->
  Db_Query db (RecruiterNumber (RecruiterConfig_ wcm)) senderID = Err e ->
  exists t p',
    Message_peer wcm info senderID b p = (t, Next (true, p'))
    /\ In (Log LevelWarn "[Blocked]: Reason: Sender ID not allowed"
             (Some ErrorCodeBlockedSender)) t.
Proof.
  intros Hdb Hq.
  destruct (Message_peer_closed_form wcm info senderID b p _ _
              (lookup_policy_driver_error wcm db senderID e Hdb Hq)) as (t0 & Heq & _).
  rewrite Heq. do 2 eexists. split.
  - unfold blocked_by_checks, not_member. cbn. now rewrite orb_true_r.
  - apply in_or_app. right. unfold checks_log, not_member. cbn. now left.
Qed.

(** A peer message that passed content extraction: how the function ends
    and what it publishes, from the policy record [c] of the pair. *)
Lemma peer_message_run `{Externals} (wcm : WhatsAppClientManager) (client : Client)
    (storeJID : JID) (info : MessageInfo) (msg : E2EMessage) (p1 : WhatsAppMessage)
    (c : RecruiterConfigDB) (e : option error) (cb : MessageCallback_t) :
  WhatsAppClient wcm = Some client ->
  Store_ID client = Some storeJID ->
  User (Info_Sender info) <> User storeJID ->
  snd (Message_content wcm client info msg (Message_new info storeJID)) = Next p1 ->
  lookup_policy wcm (User (Info_Sender info)) = Some (c, e) ->
  MessageCallback wcm = Some cb ->
  (exists exit,
      finished (ReceiveMessage wcm (EvMessage info msg)) = Some exit
      /\ isBlocked exit = blocked_by_checks wcm info c
      /\ payload exit = tagged p1 (last_assigned_code wcm info c))
  /\ publishes (trace (ReceiveMessage wcm (EvMessage info msg)))
     = publishes (trace (Message_emit wcm (kafkaKey_of storeJID (User (Info_Sender info)))
                           (blocked_by_checks wcm info c)
                           (tagged p1 (last_assigned_code wcm info c)))).
Proof.
  intros Hc Hs Hpeer Hcontent Hpolicy Hcb.
  destruct (Message_peer_closed_form wcm info (User (Info_Sender info)) false p1 c e Hpolicy)
    as (t0 & Hpeer_eq & Hquiet).
  cbn [orb] in Hpeer_eq. apply String.eqb_neq in Hpeer. split.
  - rewrite (ReceiveMessage_Message_run wcm client storeJID info msg Hc Hs). cbv zeta.
    destruct (Message_content wcm client info msg (Message_new info storeJID)) as [t1 o1].
    cbn [snd] in Hcontent. subst o1.
    unfold Message_branch. rewrite Hpeer, Hpeer_eq.
    rewrite Message_emit_closed_form, Hcb. cbv zeta. unfold finished. cbn [snd].
    destruct (blocked_by_checks wcm info c).
    + destruct (cb _ "raw" _); cbn [snd]; eexists; split; try reflexivity; split; reflexivity.
    + destruct (cb _ "ingest" _); cbn [snd];
        [eexists; split; try reflexivity; split; reflexivity|].
      destruct (cb _ "raw" _); cbn [snd]; eexists; split; try reflexivity; split; reflexivity.
  - rewrite (Message_run_publishes wcm client storeJID info msg Hc Hs), Hcontent.
    unfold Message_branch. rewrite Hpeer.
    rewrite Message_peer_quiet, Hpeer_eq. reflexivity.
Qed.

(** C2. Contrary to the claim, for every inbound peer message whose policy
    lookup fails with a driver error the checks run on the zero-value
    record, whose [Enabled] is false: the event is blocked and published to
    raw only, and, unless the group check or the rate-limit check overwrites
    the code, it is tagged BLOCKED_SENDER. *)
Theorem lookup_failure_blocks_sender `{Externals} (wcm : WhatsAppClientManager)
    (client : Client) (storeJID : JID) (db : PostgresRepository) (info : MessageInfo)
    (msg : E2EMessage) (p1 : WhatsAppMessage) (e : error) (cb : MessageCallback_t)
    (Hc : WhatsAppClient wcm = Some client)
    (Hs : Store_ID client = Some storeJID)
    (Hpeer : User (Info_Sender info) <> User storeJID)
    (Hcontent : snd (Message_content wcm client info msg (Message_new info storeJID)) = Next p1)
    (Hdb : database wcm = Some db)
    (Hdriver : Db_Query db (RecruiterNumber (RecruiterConfig_ wcm)) (User (Info_Sender info))
               = Err e)
    (Hcb : MessageCallback wcm = Some cb) :
  lookup_policy wcm (User (Info_Sender info))
  = Some (zero_RecruiterConfigDB, Some ("failed to execute query: " +:+ e))
  /\ exists exit,
       finished (ReceiveMessage wcm (EvMessage info msg)) = Some exit
       /\ isBlocked exit = true
       /\ publishes (trace (ReceiveMessage wcm (EvMessage info msg)))
          = [(payload exit, "raw", kafkaKey_of storeJID (User (Info_Sender info)),
              cb (payload exit) "raw" (kafkaKey_of storeJID (User (Info_Sender info))))]
       /\ (Info_IsGroup info = false ->
           (0 < MessageRateLimit (RecruiterConfig_ wcm))%Z ->
           payload exit = set_ErrorCode p1 ErrorCodeBlockedSender).
Proof.
  pose proof (lookup_policy_driver_error wcm db (User (Info_Sender info)) e Hdb Hdriver)
    as Hpolicy.
  split; [exact Hpolicy|].
  destruct (peer_message_run wcm client storeJID info msg p1 _ _ cb
              Hc Hs Hpeer Hcontent Hpolicy Hcb) as ((exit & Hfin & Hb & Hp) & Hpub).
  assert (Hblocked : blocked_by_checks wcm info zero_RecruiterConfigDB = true) by reflexivity.
  exists exit. split; [exact Hfin|]. split; [now rewrite Hb|]. split.
  - rewrite Hpub, Message_emit_publishes, Hcb, Hblocked, Hp. reflexivity.
  - intros Hgroup Hlimit. rewrite Hp. unfold last_assigned_code, over_rate_limit.
    rewrite Hgroup. cbn [MessageCount zero_RecruiterConfigDB].
    destruct (Z.geb_spec 0 (MessageRateLimit (RecruiterConfig_ wcm))); [lia|reflexivity].
Qed.

Lemma lookup_failure_blocks_sender_witness :
  let down := bench_supervisor (GetTestRecruiterConfig false) bench_store_down in
  let norow := test_supervisor [] in
  publishes (trace (ReceiveMessage (H := bench) down (applicant_text "hi")))
  = [(set_ErrorCode (GetTestWhatsAppMessage "Message") ErrorCodeBlockedSender,
      "raw", "918496952149_918050992006", None)]
  /\ publishes (trace (ReceiveMessage (H := bench) norow (applicant_text "hi")))
     = [(GetTestWhatsAppMessage "Message", "ingest", "918496952149_918050992006", None);
        (GetTestWhatsAppMessage "Message", "raw", "918496952149_918050992006", None)].
Proof.
  cbv zeta. split; [|reflexivity].
  destruct (lookup_failure_blocks_sender (H := bench)
              (bench_supervisor (GetTestRecruiterConfig false) bench_store_down)
              (bench_client TestData_RecruiterNumber) (user_jid TestData_RecruiterNumber)
              bench_store_down
              (text_info TestData_ApplicantNumber TestData_ApplicantNumber false)
              (text_body "hi") (GetTestWhatsAppMessage "Message")
              "dial tcp: connection refused" (fun _ _ _ => None)
              eq_refl eq_refl ltac:(discriminate) eq_refl eq_refl eq_refl eq_refl)
    as (_ & exit & _ & _ & Hpub & Htag).
  change (applicant_text "hi")
    with (EvMessage (text_info TestData_ApplicantNumber TestData_ApplicantNumber false)
            (text_body "hi")).
  rewrite Hpub, (Htag eq_refl ltac:(reflexivity)). reflexivity.
Defined.

(** ** Inbound filter: partition keys *)

Section PartitionKeys.
Context `{Externals}.




Lemma LogoutEventHandler_quiet wcm :
  publishes (trace (LogoutEventHandler wcm)) = [].
Proof.
  unfold LogoutEventHandler.
  destruct wcm as [cfg [c|] ds ct [] cb db []]; reflexivity.
Qed.


End PartitionKeys.


Section EveryArm.
Context `{Externals}.

(** Before the device is paired no arm publishes. *)
Lemma ReceiveMessage_no_store wcm client evt :
  WhatsAppClient wcm = Some client -> Store_ID client = None ->
  publishes (trace (ReceiveMessage wcm evt)) = [].
Proof.
  intros Hc Hs. destruct evt; try (now apply (ReceiveMessage_Message_no_store wcm client));
    unfold ReceiveMessage, ReceiveMessage_Call, ReceiveMessage_LoggedOut,
      ReceiveMessage_ChatPresence, ReceiveMessage_TemporaryBan;
    rewrite Hc; cbn [deref ret bind log emit]; rewrite ?Hs;
    destruct (is_nil (Client_SendPresence client)); reflexivity.
Qed.



End EveryArm.




(** ** Inbound filter: the self-message branch *)

(** C5, amended. For every inbound Message event whose sender id equals the
    tenant's store id, the event is never published to the ingest topic; when
    additionally the chat id equals the qualified tenant identifier and
    content extraction has not dropped the event, its untagged copy is
    published first, to admin, and, if that publish succeeds, the event
    tagged SELF_MESSAGE_ADMIN is then published to raw; nothing else is
    published. *)
Theorem self_message_routing `{Externals} (wcm : WhatsAppClientManager) (client : Client)
    (storeJID : JID) (info : MessageInfo) (msg : E2EMessage)
    (Hc : WhatsAppClient wcm = Some client)
    (Hs : Store_ID client = Some storeJID)
    (Hself : User (Info_Sender info) = User storeJID) :
  (forall p key err,
      ~ In (p, "ingest", key, err)
          (publishes (trace (ReceiveMessage wcm (EvMessage info msg)))))
  /\ (JID_String (Info_Chat info) = ConvertToJID (RecruiterNumber (RecruiterConfig_ wcm)) ->
      forall p1 cb,
        snd (Message_content wcm client info msg (Message_new info storeJID)) = Next p1 ->
        MessageCallback wcm = Some cb ->
        let key := kafkaKey_of storeJID (User storeJID) in
        ErrorCode p1 = ""
        /\ publishes (trace (ReceiveMessage wcm (EvMessage info msg)))
           = (p1, "admin", key, cb p1 "admin" key)
               :: match cb p1 "admin" key with
                  | None =>
                      [(set_ErrorCode p1 InfoCodeAdminMessage, "raw", key,
                        cb (set_ErrorCode p1 InfoCodeAdminMessage) "raw" key)]
                  | Some _ => []
                  end).
Proof.
  rewrite (Message_run_publishes wcm client storeJID info msg Hc Hs).
  unfold Message_branch. rewrite Hself, String.eqb_refl.
  split.
  - intros p key err Hin.
    destruct (snd (Message_content _ _ _ _ _)) as [p1|r|]; try contradiction.
    rewrite Message_self_publishes in Hin.
    apply in_app_or in Hin. destruct Hin as [Hin|Hin].
    + destruct (String.eqb _ _); [|contradiction].
      destruct (MessageCallback wcm); [|contradiction].
      destruct Hin as [Heq|[]]. inversion Heq.
    + destruct (snd (Message_self _ _ _ _ _)) as [[b p2]|r|] eqn:Hb; try contradiction.
      apply Message_self_blocks in Hb. subst b.
      rewrite Message_emit_publishes in Hin.
      destruct (MessageCallback wcm); [|contradiction].
      destruct Hin as [Heq|[]]. inversion Heq.
  - intros Hown p1 cb Hcontent Hcb. cbv zeta.
    rewrite Hcontent. split.
    + apply Message_content_fields in Hcontent. now destruct Hcontent as (_ & _ & ->).
    + rewrite Message_self_publishes.
      rewrite Message_self_closed_form, Hown, String.eqb_refl, Hcb.
      destruct (cb p1 "admin" _); cbn [snd app]; [reflexivity|].
      now rewrite Message_emit_publishes, Hcb.
Qed.

Lemma self_message_routing_witness :
  let run := ReceiveMessage (H := bench) (test_supervisor [GetTestRecruiterConfigDB])
               (tenant_text TestData_RecruiterNumber "note") in
  let note :=
    {| EventType := "Message"; TimeStamp := 1753437367258691000%Z;
       SenderID := "918496952149"; ReceiverID := "918496952149";
       ChatID := "918496952149@s.whatsapp.net"; MessageID := TestData_MessageID;
       MsgType := "text"; MediaType := ""; IsGroup := false;
       Content := ContentString "note"; MimeType := ""; ErrorCode := "" |} in
  (forall p key err, ~ In (p, "ingest", key, err) (publishes (trace run)))
  /\ publishes (trace run)
     = [(note, "admin", "918496952149_918496952149", None);
        (set_ErrorCode note InfoCodeAdminMessage, "raw", "918496952149_918496952149", None)].
Proof.
  cbv zeta.
  destruct (self_message_routing (H := bench) (test_supervisor [GetTestRecruiterConfigDB])
              (bench_client TestData_RecruiterNumber) (user_jid TestData_RecruiterNumber)
              (text_info TestData_RecruiterNumber TestData_RecruiterNumber false)
              (text_body "note") eq_refl eq_refl eq_refl) as [Hno Hown].
  split; [exact Hno|].
  exact (proj2 (Hown eq_refl _ _ eq_refl eq_refl)).
Defined.

(** C5 as stated fails on an empty text: the tenant's own message into its
    own chat, with both bodies empty, is published nowhere, not to admin
    either. *)
Lemma empty_self_message_not_on_admin :
  exists info msg,
    tenant_text TestData_RecruiterNumber "" = EvMessage info msg
    /\ SenderID (Message_new (H := bench) info (user_jid TestData_RecruiterNumber))
       = TestData_RecruiterNumber
    /\ JID_String (Info_Chat info) = ConvertToJID TestData_RecruiterNumber
    /\ publishes (trace (ReceiveMessage (H := bench) (test_supervisor [GetTestRecruiterConfigDB])
                           (EvMessage info msg))) = [].
Proof. do 2 eexists. split; [reflexivity|]. repeat split. Qed.

(** ** Inbound filter: the peer branch *)

(** C6. For every inbound peer message (a Message event from another sender
    than the store id that passed content extraction, with the policy record
    [c] looked up for the pair) the four checks are all evaluated, in the
    order membership, rate limit, group, allowed type: each logs its warning
    exactly when its own condition holds, the event is blocked when any
    holds, and the error code kept is the one assigned last. Hence a peer
    message whose pair is not enabled, whose message count has reached the
    rate limit and which is a group message is blocked (published to raw
    only) with error code GROUP_MESSAGE. *)
Theorem peer_checks_all_evaluated `{Externals} (wcm : WhatsAppClientManager) (client : Client)
    (storeJID : JID) (info : MessageInfo) (msg : E2EMessage) (p1 : WhatsAppMessage)
    (c : RecruiterConfigDB) (e : option error) (cb : MessageCallback_t)
    (Hc : WhatsAppClient wcm = Some client)
    (Hs : Store_ID client = Some storeJID)
    (Hpeer : User (Info_Sender info) <> User storeJID)
    (Hcontent : snd (Message_content wcm client info msg (Message_new info storeJID)) = Next p1)
    (Hpolicy : lookup_policy wcm (User (Info_Sender info)) = Some (c, e))
    (Hcb : MessageCallback wcm = Some cb) :
  (exists t0,
      Message_peer wcm info (User (Info_Sender info)) false p1
      = (t0 ++ checks_log wcm info c,
         Next (blocked_by_checks wcm info c, tagged p1 (last_assigned_code wcm info c)))
      /\ publishes t0 = [])
  /\ (exists exit,
         finished (ReceiveMessage wcm (EvMessage info msg)) = Some exit
         /\ isBlocked exit = blocked_by_checks wcm info c
         /\ payload exit = tagged p1 (last_assigned_code wcm info c))
  /\ (Enabled c = false ->
      (MessageCount c >= MessageRateLimit (RecruiterConfig_ wcm))%Z ->
      Info_IsGroup info = true ->
      exists exit,
        finished (ReceiveMessage wcm (EvMessage info msg)) = Some exit
        /\ isBlocked exit = true
        /\ ErrorCode (payload exit) = ErrorCodeGroupMessage
        /\ publishes (trace (ReceiveMessage wcm (EvMessage info msg)))
           = [(payload exit, "raw", kafkaKey_of storeJID (User (Info_Sender info)),
               cb (payload exit) "raw" (kafkaKey_of storeJID (User (Info_Sender info))))]).
Proof.
  destruct (Message_peer_closed_form wcm info (User (Info_Sender info)) false p1 c e Hpolicy)
    as (t0 & Hpeer_eq & Hquiet).
  cbn [orb] in Hpeer_eq.
  destruct (peer_message_run wcm client storeJID info msg p1 c e cb
              Hc Hs Hpeer Hcontent Hpolicy Hcb) as (Hrun & Hpub).
  split; [exists t0; split; assumption|]. split; [exact Hrun|].
  intros Hen Hrate Hgroup.
  destruct Hrun as (exit & Hfin & Hb & Hp). exists exit.
  assert (Hblocked : blocked_by_checks wcm info c = true).
  { unfold blocked_by_checks, not_member. rewrite Hen. reflexivity. }
  assert (Hcode : last_assigned_code wcm info c = Some ErrorCodeGroupMessage).
  { unfold last_assigned_code. now rewrite Hgroup. }
  split; [exact Hfin|]. split; [now rewrite Hb|]. split; [now rewrite Hp, Hcode|].
  rewrite Hpub, Message_emit_publishes, Hcb, Hblocked, Hp. reflexivity.
Qed.

Lemma peer_checks_all_evaluated_witness :
  let w := test_supervisor [ {| RecruiterID := TestData_RecruiterNumber;
                                ApplicantID := TestData_ApplicantNumber;
                                Enabled := false; MessageCount := 15 |} ] in
  let run := ReceiveMessage (H := bench) w
               (text_event TestData_ApplicantNumber TestData_ApplicantNumber true "hi") in
  lookup_policy w TestData_ApplicantNumber
  = Some ({| RecruiterID := TestData_RecruiterNumber; ApplicantID := TestData_ApplicantNumber;
             Enabled := false; MessageCount := 15 |}, None)
  /\ exists exit,
       finished run = Some exit
       /\ isBlocked exit = true
       /\ ErrorCode (payload exit) = ErrorCodeGroupMessage.
Proof.
  cbv zeta. split; [reflexivity|].
  destruct (peer_checks_all_evaluated (H := bench)
              (test_supervisor [ {| RecruiterID := TestData_RecruiterNumber;
                                    ApplicantID := TestData_ApplicantNumber;
                                    Enabled := false; MessageCount := 15 |} ])
              (bench_client TestData_RecruiterNumber) (user_jid TestData_RecruiterNumber)
              (text_info TestData_ApplicantNumber TestData_ApplicantNumber true)
              (text_body "hi") _ _ _ _ eq_refl eq_refl ltac:(discriminate)
              eq_refl eq_refl eq_refl) as (_ & _ & Hhence).
  destruct (Hhence eq_refl ltac:(discriminate) eq_refl) as (exit & Hfin & Hb & Hcode & _).
  exists exit. auto.
Defined.

(** ** Outbound dispatcher *)

Section Dispatcher.
Context `{Externals}.

(** A send method ends in one of five ways. *)
Lemma send_via_cases wcm chatID response failure success :
  send_via wcm chatID response failure success
  = (if negb (IsConnected wcm) then ([], Returned (Some "client not connected"))
     else match ParseJID chatID with
          | Err err => ([Log LevelError "Error parsing JID" None], Returned (Some err))
          | Ok targetJID =>
              match WhatsAppClient wcm with
              | None => ([], Panicked)
              | Some client =>
                  match Client_SendMessage client targetJID response with
                  | Some e =>
                      ([TransportSend targetJID response (Some e); Log LevelError failure None],
                       Returned (Some e))
                  | None =>
                      ([TransportSend targetJID response None; Log LevelInfo success None],
                       Returned None)
                  end
              end
          end).
Proof.
  unfold send_via. destruct (negb (IsConnected wcm)); [reflexivity|].
  destruct (ParseJID chatID); [|reflexivity].
  destruct (WhatsAppClient wcm) as [client|]; [|reflexivity].
  cbn. destruct (Client_SendMessage client a response); reflexivity.
Qed.

Lemma SendTypingIndicator_cases wcm chatID :
  SendTypingIndicator wcm chatID
  = (if negb (IsConnected wcm) then ([], Returned (Some "client not connected"))
     else match ParseJID chatID with
          | Err err => ([Log LevelError "Error parsing JID" None], Returned (Some err))
          | Ok targetJID =>
              match WhatsAppClient wcm with
              | None => ([], Panicked)
              | Some client =>
                  match Client_SendChatPresence client targetJID "composing" with
                  | Some e =>
                      ([TransportChatPresence targetJID "composing" (Some e);
                        Log LevelError "Failed to send typing indicator" None],
                       Returned (Some e))
                  | None =>
                      ([TransportChatPresence targetJID "composing" None;
                        Log LevelInfo "Typing indicator sent successfully" None],
                       Returned None)
                  end
              end
          end).
Proof.
  unfold SendTypingIndicator. destruct (negb (IsConnected wcm)); [reflexivity|].
  destruct (ParseJID chatID); [|reflexivity].
  destruct (WhatsAppClient wcm) as [client|]; [|reflexivity].
  cbn. destruct (Client_SendChatPresence client a "composing"); reflexivity.
Qed.

Lemma send_then_log_cases wcm chatID response failure success msg :
  continues_or_died_silent
    (bind (call (send_via wcm chatID response failure success))
       (fun err => when (negb (is_nil err)) (log LevelError msg None))).
Proof.
  rewrite send_via_cases. unfold continues_or_died_silent.
  destruct (negb (IsConnected wcm)); [cbn; auto|].
  destruct (ParseJID chatID); [|cbn; auto].
  destruct (WhatsAppClient wcm) as [client|]; [|cbn; auto].
  destruct (Client_SendMessage client a response); cbn; auto.
Qed.

Lemma typing_then_log_cases wcm chatID msg :
  continues_or_died_silent
    (bind (call (SendTypingIndicator wcm chatID))
       (fun err => when (negb (is_nil err)) (log LevelError msg None))).
Proof.
  rewrite SendTypingIndicator_cases. unfold continues_or_died_silent.
  destruct (negb (IsConnected wcm)); [cbn; auto|].
  destruct (ParseJID chatID); [|cbn; auto].
  destruct (WhatsAppClient wcm) as [client|]; [|cbn; auto].
  destruct (Client_SendChatPresence client a "composing"); cbn; auto.
Qed.

(** The switch on the kind never executes [return]: it goes on to the next
    read, or the goroutine died in a send on a supervisor without client. *)
Lemma send_by_kind_outcome receiver cm payload :
  snd (send_by_kind receiver cm payload) = Next tt
  \/ (snd (send_by_kind receiver cm payload) = Panicked
      /\ transport_sends (trace (send_by_kind receiver cm payload)) = []).
Proof.
  unfold send_by_kind, SendAudioMessage, SendImageMessage, SendDocumentMessage, SendTextMessage.
  repeat match goal with
         | |- context [if String.eqb ?a ?b then _ else _] => destruct (String.eqb a b)
         | |- context [match ?r with Ok _ => _ | Err _ => _ end] => destruct r
         end;
    try (left; reflexivity);
    match goal with
    | |- context [call (send_via ?w ?c ?r ?f ?s)] =>
        destruct (send_then_log_cases w c r f s f) as [_ Hcase]
    | |- context [call (SendTypingIndicator ?w ?c)] =>
        destruct (typing_then_log_cases w c "Failed to send typing indicator") as [_ Hcase]
    end;
    rewrite bind_emit; cbn [trace fst snd];
    (destruct Hcase as [Hn|[Hp Hq]]; [left; exact Hn|right; split; [exact Hp|exact Hq]]).
Qed.

End Dispatcher.

Section HeaderDecoding.
Context `{Externals}.





End HeaderDecoding.

Section HeaderFields.
Context `{Externals}.





Lemma dispatch_at_switch mcm n msg payload cm :
  reaches_switch mcm n msg payload cm ->
  dispatch mcm n msg
  = (before_switch n msg ++ trace (send_by_kind (Out_ReceiverID payload) cm payload),
     snd (send_by_kind (Out_ReceiverID payload) cm payload)).
Proof.
  intros (rawWriter & Hraw & Hcopy & Hheader & Hreg).
  unfold dispatch. rewrite bind_log, Hraw. cbn [deref]. rewrite bind_ret.
  rewrite Hcopy, bind_emit, Hheader, bind_log, Hreg. reflexivity.
Qed.

(** A pass that ends before the switch reaches neither a supervisor nor the
    transport. *)
Lemma dispatch_cases mcm n msg :
  (exists payload cm, reaches_switch mcm n msg payload cm)
  \/ (invocations (trace (dispatch mcm n msg)) = []
      /\ transport_sends (trace (dispatch mcm n msg)) = []
      /\ snd (dispatch mcm n msg) <> Next tt).
Proof.
  unfold dispatch. rewrite bind_log.
  destruct (KafkaWriters (MessageHandler_ mcm) !! "raw") as [rawWriter|] eqn:Hraw;
    [|right; cbn; repeat split; discriminate].
  cbn [deref]. rewrite bind_ret.
  destruct (WriteMessages rawWriter _) eqn:Hcopy; rewrite bind_emit;
    [right; cbn; repeat split; discriminate|].
  destruct (Unmarshal_payload (Value msg)) as [payload|] eqn:Hheader;
    [|right; cbn; repeat split; discriminate].
  rewrite bind_log.
  destruct (GetClientManager mcm (Out_ReceiverID payload)) as [cm|] eqn:Hreg;
    [|right; cbn; repeat split; discriminate].
  left. exists payload, cm, rawWriter. auto.
Qed.

Lemma no_transport_send_no_failure t :
  transport_sends t = [] -> existsb failed_send t = false.
Proof.
  induction t as [|e t IH]; [reflexivity|].
  destruct e; cbn; auto; discriminate.
Qed.

Lemma send_by_kind_decode_error receiver cm payload :
  content_decode_error payload = true ->
  send_by_kind receiver cm payload = ([], Next tt).
Proof.
  unfold content_decode_error, send_by_kind.
  repeat match goal with
         | |- context [if String.eqb ?a ?b then _ else _] => destruct (String.eqb a b)
         end;
    try discriminate;
    match goal with
    | |- context [is_Err ?r] => destruct r
    end; try discriminate; reflexivity.
Qed.

End HeaderFields.


(** A record whose header does not decode ends the goroutine: the records
    behind it are not read. *)
Lemma header_decode_error_stops `{Externals} (mcm : MainClientManager) (n : nat)
    (msg : KafkaMessage) (reads : list ReadResult) (rawWriter : Writer) (e : error) :
  KafkaWriters (MessageHandler_ mcm) !! "raw" = Some rawWriter ->
  WriteMessages rawWriter {| Key := uuid_New n; Value := Value msg |} = None ->
  Unmarshal_payload (Value msg) = Err e ->
  sending_loop mcm n (ReadOk msg :: reads)
  = ([Log LevelDebug "Received Message" None;
      Write "raw" {| Key := uuid_New n; Value := Value msg |} None;
      Log LevelError "Error unmarshaling payload" None],
     Returned tt).
Proof.
  intros Hraw Hcopy Hheader. cbn [sending_loop iteration]. unfold dispatch.
  rewrite bind_log, Hraw. cbn [deref]. rewrite bind_ret.
  rewrite Hcopy, bind_emit, Hheader, bind_log. reflexivity.
Qed.

(** C8, amended. In the outbound dispatcher loop, a transport send that
    returns an error, or a record whose content does not decode as its kind
    demands, never ends the loop: the pass for that record goes on to the
    next read (on a content decode failure without any send attempted), and
    the loop continues with the records that follow. (A record whose header
    does not decode is not covered: see [header_decode_error_stops].) *)
Theorem dispatcher_survives_record_errors `{Externals} (mcm : MainClientManager) (n : nat)
    (msg : KafkaMessage) (reads : list ReadResult)
    (Hfail : transport_send_failed (trace (dispatch mcm n msg))
             \/ exists payload cm,
                  reaches_switch mcm n msg payload cm
                  /\ content_decode_error payload = true) :
  snd (dispatch mcm n msg) = Next tt
  /\ ((exists payload cm,
          reaches_switch mcm n msg payload cm /\ content_decode_error payload = true) ->
      invocations (trace (dispatch mcm n msg)) = []
      /\ transport_sends (trace (dispatch mcm n msg)) = [])
  /\ sending_loop mcm n (ReadOk msg :: reads)
     = (trace (dispatch mcm n msg) ++ trace (sending_loop mcm (S n) reads),
        snd (sending_loop mcm (S n) reads)).
Proof.
  assert (Hdecode : (exists payload cm,
                        reaches_switch mcm n msg payload cm
                        /\ content_decode_error payload = true) ->
                    dispatch mcm n msg = (before_switch n msg, Next tt)).
  { intros (payload & cm & Hreach & Herr).
    rewrite (dispatch_at_switch mcm n msg payload cm Hreach).
    rewrite (send_by_kind_decode_error _ cm payload Herr). cbn [trace fst snd].
    now rewrite app_nil_r. }
  assert (Hnext : snd (dispatch mcm n msg) = Next tt).
  { destruct Hfail as [Hsend|Hdec]; [|now rewrite (Hdecode Hdec)].
    unfold transport_send_failed in Hsend.
    destruct (dispatch_cases mcm n msg) as [(payload & cm & Hreach)|(_ & Hnone & _)].
    - rewrite (dispatch_at_switch mcm n msg payload cm Hreach) in *. cbn [trace fst snd] in *.
      destruct (send_by_kind_outcome (Out_ReceiverID payload) cm payload) as [Hn|[_ Hq]];
        [exact Hn|].
      rewrite existsb_app in Hsend. rewrite (no_transport_send_no_failure _ Hq) in Hsend.
      discriminate.
    - rewrite (no_transport_send_no_failure _ Hnone) in Hsend. discriminate. }
  split; [exact Hnext|]. split.
  - intros Hdec. rewrite (Hdecode Hdec). split; reflexivity.
  - cbn [sending_loop iteration].
    destruct (dispatch mcm n msg) as [t o]. cbn [snd] in Hnext. subst o.
    now rewrite bind_Next.
Qed.


Lemma dispatcher_survives_record_errors_witness :
  let broken := outbound_text (JNumber 42) in
  let next := outbound_text (JString "hi") in
  let fleet := bench_fleet [ReadOk broken; ReadOk next] in
  (exists payload cm,
      reaches_switch (H := bench) fleet 0 broken payload cm
      /\ content_decode_error (H := bench) payload = true)
  /\ snd (dispatch (H := bench) fleet 0 broken) = Next tt
  /\ invocations (trace (dispatch (H := bench) fleet 0 broken)) = []
  /\ invocations (trace (sending_loop (H := bench) fleet 0 [ReadOk broken; ReadOk next]))
     = [(TestData_RecruiterNumber, SendText TestData_ApplicantChatID "hi")].
Proof.
  cbv zeta.
  assert (Hdec : exists payload cm,
             reaches_switch (H := bench)
               (bench_fleet [ReadOk (outbound_text (JNumber 42));
                             ReadOk (outbound_text (JString "hi"))])
               0 (outbound_text (JNumber 42)) payload cm
             /\ content_decode_error (H := bench) payload = true).
  { exists (outbound_header (JNumber 42)), (test_supervisor []). split.
    - exists accepting_writer.
      split; [|split; [|split]]; vm_compute; reflexivity.
    - vm_compute. reflexivity. }
  split; [exact Hdec|].
  destruct (dispatcher_survives_record_errors (H := bench)
              (bench_fleet [ReadOk (outbound_text (JNumber 42));
                            ReadOk (outbound_text (JString "hi"))])
              0 (outbound_text (JNumber 42)) [ReadOk (outbound_text (JString "hi"))]
              (or_intror Hdec)) as (Hnext & Hquiet & Hloop).
  split; [exact Hnext|].
  split; [exact (proj1 (Hquiet Hdec))|].
  rewrite Hloop. vm_compute. reflexivity.
Defined.

(** C8 as stated fails on a record whose value is not a JSON object: its
    header does not decode, the goroutine returns, and the text record
    behind it, which is sent when it comes first, is never sent. *)
Lemma undecodable_record_stops_dispatcher :
  let garbled := {| Key := "918050992006_918496952149"; Value := Some (JString "hello") |} in
  let next := outbound_text (JString "hi") in
  let fleet := bench_fleet [ReadOk garbled; ReadOk next] in
  is_Err (Unmarshal_payload (H := bench) (Value garbled)) = true
  /\ snd (dispatch (H := bench) fleet 0 garbled) = Returned tt
  /\ snd (sending_loop (H := bench) fleet 0 [ReadOk garbled; ReadOk next]) = Returned tt
  /\ invocations (trace (sending_loop (H := bench) fleet 0 [ReadOk garbled; ReadOk next])) = []
  /\ invocations (trace (sending_loop (H := bench) fleet 0 [ReadOk next]))
     = [(TestData_RecruiterNumber, SendText TestData_ApplicantChatID "hi")].
Proof.
  cbv zeta. split; [|split; [|split; [|split]]]; vm_compute; reflexivity.
Qed.

(** ** Session supervisor: connecting *)

Section Connecting.
Context `{Externals}.

Lemma call_finished {R R'} (body : Proc R R) :
  snd (call (R' := R') body)
  = match finished body with
    | Some r => Next r
    | None => Panicked
    end.
Proof. destruct body as [t [r|r|]]; reflexivity. Qed.

(** Whichever way [getOrCreateDeviceStore] returns, with a stored device,
    a new one or the container's error, it has set [IsConnected]. *)
Lemma getOrCreateDeviceStore_sets_flag wcm devices w1 r :
  finished (getOrCreateDeviceStore wcm devices) = Some (w1, r) ->
  w1 = set_IsConnected wcm true.
Proof.
  induction devices as [|device devices IH]; cbn [getOrCreateDeviceStore].
  - rewrite bind_log. cbn [Container_ set_IsConnected].
    destruct (Container_ wcm) as [container|]; cbn; [|discriminate].
    now intros [= <- _].
  - destruct (Device_ID device) as [id|]; cbn [deref]; [|discriminate].
    rewrite bind_ret.
    destruct (negb (is_nil (Some id)) && String.eqb _ _); [|exact IH].
    rewrite bind_log. cbn [Container_ set_IsConnected].
    destruct (Container_ wcm) as [container|]; cbn; [|discriminate].
    now intros [= <- _].
Qed.

(** With no stored device the store is the container's new device. *)
Lemma getOrCreateDeviceStore_new wcm container :
  Container_ wcm = Some container ->
  finished (getOrCreateDeviceStore wcm [])
  = Some (set_IsConnected wcm true, Ok (Some (NewDevice container))).
Proof.
  intros Hc. cbn [getOrCreateDeviceStore]. rewrite bind_log.
  cbn [Container_ set_IsConnected]. now rewrite Hc.
Qed.

(** [LoginEventHandler] returns nil only past its last assignment. *)
Lemma LoginEventHandler_sets_flag wcm deviceStore w' :
  finished (LoginEventHandler wcm deviceStore) = Some (w', None) ->
  IsConnected w' = true.
Proof.
  unfold LoginEventHandler.
  destruct deviceStore as [d|].
  - rewrite bind_ret. cbn [DeviceStore set_DeviceStore deref]. rewrite bind_ret.
    cbn [WhatsAppClient set_WhatsAppClient].
    destruct (whatsmeow_NewClient d); cbn; [|discriminate].
    now intros [= <-].
  - destruct (Container_ wcm) as [container|]; cbn [deref]; [|discriminate].
    rewrite !bind_ret. cbn [DeviceStore set_DeviceStore deref]. rewrite bind_ret.
    cbn [WhatsAppClient set_WhatsAppClient].
    destruct (whatsmeow_NewClient _); cbn; [|discriminate].
    now intros [= <-].
Qed.

(** The login goroutine assigns no field of the supervisor. *)
Lemma after_goroutine_same run n w : after_goroutine run n w = w.
Proof.
  unfold after_goroutine.
  generalize (firstn n (trace (asyncLogin_goroutine (RecruiterConfig_ w) run))).
  intros t. induction t as [|e t IH]; [reflexivity|exact IH].
Qed.

Lemma Connect_returns_connected wcm devicesInStore w' :
  finished (Connect wcm devicesInStore) = Some (w', None) ->
  IsConnected w' = true.
Proof.
  unfold Connect. destruct (IsConnected wcm) eqn:Hflag.
  - rewrite bind_log. cbn. now intros [= <-].
  - unfold finished. rewrite snd_bind, call_finished.
    destruct (finished (getOrCreateDeviceStore wcm devicesInStore)) as [[w1 r]|] eqn:Hstore;
      [|discriminate].
    destruct r as [deviceStore|err]; [|rewrite bind_log; discriminate].
    rewrite snd_bind, call_finished.
    destruct (finished (LoginEventHandler w1 deviceStore)) as [[w2 err]|] eqn:Hlogin;
      [|discriminate].
    destruct err as [e|]; cbn; [discriminate|].
    intros [= <-]. exact (LoginEventHandler_sets_flag _ _ _ Hlogin).
Qed.

End Connecting.

(** C10. [Connect] marks the supervisor connected before authentication
    completes: whenever it returns nil the supervisor's [IsConnected] is
    true, whichever devices were stored (so also when none matched and the
    device is the container's new, unpaired one), and it stays true
    whatever the login goroutine meets afterwards and however far it has
    got. A first [Connect] that finds no stored device returns with the flag
    set by [getOrCreateDeviceStore] before any client exists. *)
Theorem Connect_marks_connected `{Externals} (wcm : WhatsAppClientManager)
    (devicesInStore : list Device) (w' : WhatsAppClientManager)
    (Hnil : finished (Connect wcm devicesInStore) = Some (w', None)) :
  IsConnected w' = true
  /\ (forall (run : LoginRun) (n : nat), IsConnected (after_goroutine run n w') = true)
  /\ (forall w1 r, finished (getOrCreateDeviceStore wcm devicesInStore) = Some (w1, r) ->
        IsConnected w1 = true /\ WhatsAppClient w1 = WhatsAppClient wcm).
Proof.
  pose proof (Connect_returns_connected wcm devicesInStore w' Hnil) as Hflag.
  split; [exact Hflag|]. split.
  - intros run n. now rewrite after_goroutine_same.
  - intros w1 r Hstore.
    rewrite (getOrCreateDeviceStore_sets_flag _ _ _ _ Hstore). split; reflexivity.
Qed.

Lemma Connect_marks_connected_witness :
  let fresh := set_WhatsAppClient (set_DeviceStore (set_IsConnected (test_supervisor []) false) None) None in
  exists w',
    finished (Connect (H := bench) fresh []) = Some (w', None)
    /\ DeviceStore w' = Some {| Device_ID := None |}
    /\ IsConnected w' = true
    /\ IsConnected
         (after_goroutine
            {| Client_Connect := None;
               qrChan := [{| QR_Event := "code"; QR_Code := "2@abc" |};
                          {| QR_Event := "timeout"; QR_Code := "" |}];
               Client_PairPhone := Err "pairing refused" |} 5 w') = true.
Proof.
  cbv zeta. eexists.
  assert (Hnil : finished (Connect (H := bench)
                    (set_WhatsAppClient
                       (set_DeviceStore (set_IsConnected (test_supervisor []) false) None) None) [])
                 = Some (_, None)) by (vm_compute; reflexivity).
  split; [exact Hnil|].
  split; [reflexivity|].
  destruct (Connect_marks_connected (H := bench) _ _ _ Hnil) as (Hflag & Hlater & _).
  split; [exact Hflag|apply Hlater].
Defined.

(** ** Outbound dispatcher: text records *)

Section TextRecords.
Context `{Externals}.



End TextRecords.




(** ** Inbound filter: what every run keeps to *)

Section PublishOrder.
Context `{Externals}.

Lemma Message_stops wcm client storeJID info msg :
  WhatsAppClient wcm = Some client ->
  Store_ID client = Some storeJID ->
  stops_at_first_failure (publishes (trace (ReceiveMessage wcm (EvMessage info msg)))).
Proof.
  intros Hc Hs. rewrite (Message_run_publishes wcm client storeJID info msg Hc Hs).
  destruct (snd (Message_content wcm client info msg (Message_new info storeJID)))
    as [p1|r|]; [|exact I|exact I].
  unfold Message_branch.
  destruct (String.eqb (User (Info_Sender info)) (User storeJID)).
  - rewrite Message_self_publishes, Message_self_closed_form.
    destruct (String.eqb (JID_String (Info_Chat info)) _).
    + destruct (MessageCallback wcm) as [cb|] eqn:Hcb; [|exact I].
      destruct (cb p1 "admin" _); cbn [snd app]; [exact I|].
      rewrite Message_emit_publishes, Hcb. cbn. auto.
    + cbn [snd app]. rewrite Message_emit_publishes.
      destruct (MessageCallback wcm) as [cb|]; exact I.
  - rewrite Message_peer_quiet. cbn [app].
    destruct (snd (Message_peer _ _ _ _ _)) as [[b p2]|r|]; [|exact I|exact I].
    rewrite Message_emit_publishes.
    destruct (MessageCallback wcm) as [cb|]; [|exact I].
    destruct b; [exact I|].
    destruct (cb p2 "ingest" _) eqn:Hi; [exact I|]. cbn. auto.
Qed.

(** With a client, the function is the presence warning followed by the
    arm of the event. *)
Lemma ReceiveMessage_arm wcm client evt :
  WhatsAppClient wcm = Some client ->
  ReceiveMessage wcm evt
  = (presence_log client ++ trace (arm_of wcm client evt), snd (arm_of wcm client evt)).
Proof.
  intros Hc. unfold ReceiveMessage, presence_log. rewrite Hc. cbn [deref]. rewrite bind_ret.
  destruct (is_nil (Client_SendPresence client)); cbn [negb when].
  - rewrite bind_ret. destruct evt; cbn [arm_of app]; unfold trace;
      match goal with |- ?m = _ => destruct m end; reflexivity.
  - rewrite bind_log. destruct evt; reflexivity.
Qed.

Lemma arm_publishes wcm client evt :
  WhatsAppClient wcm = Some client ->
  publishes (trace (ReceiveMessage wcm evt)) = publishes (trace (arm_of wcm client evt)).
Proof.
  intros Hc. rewrite (ReceiveMessage_arm wcm client evt Hc). cbn [trace fst].
  now rewrite publishes_app, presence_log_quiet.
Qed.

Lemma chain_stops cb p key topicNames :
  stops_at_first_failure (chain cb p key topicNames).
Proof.
  induction topicNames as [|t ts IH]; [exact I|].
  cbn [chain]. destruct (cb p t key) eqn:Hr; [exact I|].
  destruct ts as [|t' ts]; [exact I|].
  cbn [chain] in *. cbn [stops_at_first_failure]. split; [reflexivity|exact IH].
Qed.

(** An event that is no [Message] is published as it is, without any check:
    one event under one key, to the topics of its kind in their order. *)
Lemma other_arms_chain wcm client storeJID cb evt :
  Store_ID client = Some storeJID ->
  MessageCallback wcm = Some cb ->
  is_Message evt = false ->
  exists p,
    publishes (trace (arm_of wcm client evt))
    = chain cb p (User storeJID +:+ "_" +:+ SenderID p) (routing evt)
    /\ ReceiverID p = User storeJID.
Proof.
  intros Hs Hcb Hevt.
  destruct evt as [info msg|meta|meta|meta|oc num reason|chat sender state media|code expire|];
    try discriminate; cbn [arm_of routing];
    unfold ReceiveMessage_Call, ReceiveMessage_LoggedOut, ReceiveMessage_ChatPresence,
      ReceiveMessage_TemporaryBan;
    rewrite ?bind_log, ?Hs; cbn [deref]; rewrite ?bind_ret, ?bind_log; cbn [trace fst snd];
    rewrite ?callback_spec, ?Hcb.
  1-6: match goal with |- context [Publish ?p _ _ _] => exists p end;
       (split; [|reflexivity]); cbn [chain ReceiverID SenderID].
  - cbn. destruct (cb _ "raw" _); reflexivity.
  - cbn. destruct (cb _ "raw" _); reflexivity.
  - cbn. destruct (cb _ "raw" _); reflexivity.
  - cbn [bind].
    destruct (cb _ "failed" _); [reflexivity|].
    cbn [bind log emit app trace fst publishes flat_map].
    destruct (cb _ "raw" _); [reflexivity|].
    pose proof (LogoutEventHandler_quiet wcm) as Hq.
    destruct (LogoutEventHandler wcm) as [t [w|w|]]; cbn [trace fst] in Hq; cbn;
      change (flat_map _ ?l) with (publishes l); rewrite ?publishes_app, Hq; reflexivity.
  - cbn. destruct (cb _ "raw" _); [reflexivity|]. cbn. destruct (cb _ "ingest" _); reflexivity.
  - cbn. destruct (cb _ "raw" _); [reflexivity|]. cbn. destruct (cb _ "failed" _); reflexivity.
  - exists (set_ReceiverID zero_WhatsAppMessage (User storeJID)). split; reflexivity.
Qed.

End PublishOrder.

Lemma other_arms_no_callback `{Externals} wcm client evt :
  MessageCallback wcm = None ->
  is_Message evt = false ->
  publishes (trace (arm_of wcm client evt)) = [].
Proof.
  intros Hcb Hevt.
  destruct evt as [info msg|meta|meta|meta|oc num reason|chat sender state media|code expire|];
    try discriminate; cbn [arm_of];
    unfold ReceiveMessage_Call, ReceiveMessage_LoggedOut, ReceiveMessage_ChatPresence,
      ReceiveMessage_TemporaryBan;
    rewrite ?bind_log; destruct (Store_ID client) as [storeJID|]; cbn [deref];
    rewrite ?bind_ret, ?bind_log; cbn [trace fst snd];
    rewrite ?callback_spec, ?Hcb; reflexivity.
Qed.

Lemma chain_topics cb p key topicNames p' t k' r :
  In (p', t, k', r) (chain cb p key topicNames) -> In t topicNames /\ p' = p /\ k' = key.
Proof.
  induction topicNames as [|t0 ts IH]; [contradiction|].
  cbn [chain]. intros [[= <- <- <- _]|Hin]; [repeat split; now left|].
  destruct (cb p t0 key); [contradiction|].
  destruct (IH Hin) as (Ht & Hp & Hk). repeat split; auto. now right.
Qed.

(** X1. Whatever the event, [ReceiveMessage] stops publishing at the first
    publish that fails: every call of the callback but the last one it makes
    returned nil. *)
Theorem publishes_stop_at_first_failure `{Externals} (wcm : WhatsAppClientManager)
    (evt : Event) :
  stops_at_first_failure (publishes (trace (ReceiveMessage wcm evt))).
Proof.
  destruct (WhatsAppClient wcm) as [client|] eqn:Hc;
    [|rewrite (ReceiveMessage_no_client wcm _ Hc); exact I].
  destruct (Store_ID client) as [storeJID|] eqn:Hs;
    [|rewrite (ReceiveMessage_no_store wcm client evt Hc Hs); exact I].
  destruct (is_Message evt) eqn:Hevt.
  - destruct evt; try discriminate. exact (Message_stops wcm client storeJID _ _ Hc Hs).
  - rewrite (arm_publishes wcm client evt Hc).
    destruct (MessageCallback wcm) as [cb|] eqn:Hcb.
    + destruct (other_arms_chain wcm client storeJID cb evt Hs Hcb Hevt) as (p & -> & _).
      apply chain_stops.
    + rewrite (other_arms_no_callback wcm client evt Hcb Hevt). exact I.
Qed.

(** X2. An event that is no [Message] is never filtered: on a paired
    supervisor with a callback it is published as one event, addressed to
    the store id and keyed by the store id and the event's sender id, to the
    topics of its kind in their fixed order (a call: raw; a chat presence:
    raw, ingest; a logout: failed, raw; a temporary ban: raw, failed; any
    other event: none), up to the first publish that fails. *)
Theorem other_events_unfiltered `{Externals} (wcm : WhatsAppClientManager) (client : Client)
    (storeJID : JID) (cb : MessageCallback_t) (evt : Event)
    (Hc : WhatsAppClient wcm = Some client)
    (Hs : Store_ID client = Some storeJID)
    (Hcb : MessageCallback wcm = Some cb)
    (Hevt : is_Message evt = false) :
  exists p,
    publishes (trace (ReceiveMessage wcm evt))
    = chain cb p (User storeJID +:+ "_" +:+ SenderID p) (routing evt)
    /\ ReceiverID p = User storeJID.
Proof.
  rewrite (arm_publishes wcm client evt Hc).
  exact (other_arms_chain wcm client storeJID cb evt Hs Hcb Hevt).
Qed.

Lemma other_events_unfiltered_witness :
  topics (trace (ReceiveMessage (H := bench) (test_supervisor [])
                   (EvChatPresence (user_jid TestData_ApplicantNumber)
                      (user_jid TestData_ApplicantNumber) "composing" "")))
  = ["raw"; "ingest"].
Proof.
  destruct (other_events_unfiltered (H := bench) (test_supervisor [])
              (bench_client TestData_RecruiterNumber) (user_jid TestData_RecruiterNumber)
              (fun _ _ _ => None)
              (EvChatPresence (user_jid TestData_ApplicantNumber)
                 (user_jid TestData_ApplicantNumber) "composing" "")
              eq_refl eq_refl eq_refl eq_refl) as (p & Hpub & _).
  unfold topics. rewrite Hpub. reflexivity.
Defined.

(** ** Session supervisor: logout *)

Section Logout.
Context `{Externals}.

(** [LogoutEventHandler] on a supervisor with a client. *)
Lemma LogoutEventHandler_run wcm client :
  WhatsAppClient wcm = Some client ->
  LogoutEventHandler wcm
  = ((if IsConnected wcm
      then [TransportLogout;
            Log LevelDebug "disconnecting wcm.WhatsAppClient.Logout() " None;
            Log LevelInfo "WhatsApp client disconnected" None]
      else [])
     ++ (if OnLogout wcm then [OnLogoutCall (RecruiterNumber (RecruiterConfig_ wcm))] else []),
     Next (if IsConnected wcm then set_IsConnected wcm false else wcm)).
Proof.
  intros Hc. unfold LogoutEventHandler. rewrite Hc. cbn [deref is_nil negb andb].
  rewrite bind_ret.
  destruct wcm as [cfg c ds ct [] cb db []]; reflexivity.
Qed.

Lemma after_logouts_app t1 t2 mcm :
  after_logouts (t1 ++ t2) mcm = after_logouts t2 (after_logouts t1 mcm).
Proof. apply fold_left_app. Qed.

End Logout.

(** X3. [LogoutEventHandler] reads the client before anything else: on a
    supervisor without client it panics, and the logout callback, which
    would take the supervisor out of the registry, is not called. With a
    client it leaves the supervisor disconnected, logs out on the transport
    exactly when the supervisor was connected, and calls the logout
    callback, when one is installed, once with the tenant's number; a
    second call logs out no more but calls the callback again. *)
Theorem LogoutEventHandler_contract (wcm : WhatsAppClientManager) :
  (WhatsAppClient wcm = None -> LogoutEventHandler wcm = ([], Panicked))
  /\ (forall client, WhatsAppClient wcm = Some client ->
      exists w',
        finished (LogoutEventHandler wcm) = Some w'
        /\ IsConnected w' = false
        /\ List.filter (fun e => match e with TransportLogout => true | _ => false end)
             (trace (LogoutEventHandler wcm))
           = (if IsConnected wcm then [TransportLogout] else [])
        /\ (forall mcm,
              after_logouts (trace (LogoutEventHandler wcm)) mcm
              = if OnLogout wcm
                then OnLogout_callback mcm (RecruiterNumber (RecruiterConfig_ wcm))
                else mcm)
        /\ trace (LogoutEventHandler w')
           = (if OnLogout wcm then [OnLogoutCall (RecruiterNumber (RecruiterConfig_ wcm))]
              else [])).
Proof.
  split.
  - intros Hc. unfold LogoutEventHandler. now rewrite Hc.
  - intros client Hc. rewrite (LogoutEventHandler_run wcm client Hc).
    eexists. split; [reflexivity|].
    destruct wcm as [cfg c ds ct [] cb db []]; cbn in Hc; subst c;
      (split; [reflexivity|]); (split; [reflexivity|]); (split; [reflexivity|]); reflexivity.
Qed.

(** ** Inbound filter: the logged-out event *)

Section LoggedOut.
Context `{Externals}.

Lemma LoggedOut_run wcm client storeJID cb num reason :
  Store_ID client = Some storeJID ->
  MessageCallback wcm = Some cb ->
  exists p key,
    ReceiveMessage_LoggedOut wcm client num reason
    = match cb p "failed" key with
      | Some _ =>
          ([Publish p "failed" key (cb p "failed" key);
            Log LevelError "Error sending message" None],
           Returned {| isBlocked := false; payload := p; wcm_final := wcm |})
      | None =>
          match cb p "raw" key with
          | Some _ =>
              ([Publish p "failed" key None; Log LevelInfo "[Logout]: " None;
                Publish p "raw" key (cb p "raw" key);
                Log LevelError "Error sending message" None],
               Returned {| isBlocked := false; payload := p; wcm_final := wcm |})
          | None =>
              ([Publish p "failed" key None; Log LevelInfo "[Logout]: " None;
                Publish p "raw" key None]
               ++ trace (LogoutEventHandler wcm)
               ++ (if is_nil (finished (LogoutEventHandler wcm)) then []
                   else [Log LevelDebug "[Logout Successfull]" None]),
               match finished (LogoutEventHandler wcm) with
               | Some w => Next {| isBlocked := false; payload := p; wcm_final := w |}
               | None => Panicked
               end)
          end
      end.
Proof.
  intros Hs Hcb. unfold ReceiveMessage_LoggedOut. rewrite Hs. cbn [deref]. rewrite bind_ret.
  rewrite !callback_spec, Hcb.
  match goal with |- context [Publish ?p _ ?k _] => exists p, k end.
  rewrite bind_Next. cbn [trace fst snd].
  destruct (cb _ "failed" _) eqn:Hf; [reflexivity|].
  rewrite bind_log. cbn [trace fst snd]. rewrite bind_Next. cbn [trace fst snd].
  destruct (cb _ "raw" _) eqn:Hr; [reflexivity|].
  unfold finished.
  destruct (LogoutEventHandler wcm) as [t [w|w|]]; cbn; rewrite ?app_nil_r; reflexivity.
Qed.

Lemma after_logouts_presence client mcm : after_logouts (presence_log client) mcm = mcm.
Proof. unfold presence_log. now destruct (is_nil _). Qed.

End LoggedOut.

(** X4. A logged-out event whose two publishes (failed, then raw) are
    accepted ends in [LogoutEventHandler]: the supervisor is left
    disconnected and the logout callback, when installed, takes it out of
    the registry. When one of the publishes fails the function returns
    before the handler: the supervisor is as it was, still registered, and
    the transport's logout is not called. *)
Theorem logged_out_then_logout `{Externals} (wcm : WhatsAppClientManager) (client : Client)
    (storeJID : JID) (cb : MessageCallback_t) (OnConnect : bool)
    (Reason_NumberString Reason_String : string)
    (Hc : WhatsAppClient wcm = Some client)
    (Hs : Store_ID client = Some storeJID)
    (Hcb : MessageCallback wcm = Some cb) :
  let run := ReceiveMessage wcm (EvLoggedOut OnConnect Reason_NumberString Reason_String) in
  (Forall (fun c => snd c = None) (publishes (trace run)) ->
   exists exit,
     finished run = Some exit
     /\ topics (trace run) = ["failed"; "raw"]
     /\ IsConnected (wcm_final exit) = false
     /\ forall mcm,
          after_logouts (trace run) mcm
          = if OnLogout wcm
            then OnLogout_callback mcm (RecruiterNumber (RecruiterConfig_ wcm))
            else mcm)
  /\ (Exists (fun c => snd c <> None) (publishes (trace run)) ->
      exists exit,
        finished run = Some exit
        /\ wcm_final exit = wcm
        /\ (forall mcm, after_logouts (trace run) mcm = mcm)
        /\ ~ In TransportLogout (trace run)).
Proof.
  cbv zeta. rewrite (ReceiveMessage_arm wcm client _ Hc). cbn [arm_of trace fst snd].
  destruct (LoggedOut_run wcm client storeJID cb Reason_NumberString Reason_String Hs Hcb)
    as (p & key & ->).
  rewrite (LogoutEventHandler_run wcm client Hc). unfold finished, topics.
  rewrite publishes_app, presence_log_quiet. cbn [app].
  assert (Hpre : ~ In TransportLogout (presence_log client))
    by (unfold presence_log; destruct (is_nil _); cbn; intuition discriminate).
  destruct (cb p "failed" key) as [e|] eqn:Hf; [|destruct (cb p "raw" key) as [e|] eqn:Hr];
    cbn [trace fst snd]; split.
  - intros Hall. inversion Hall as [|? ? Hhd _]. cbn in Hhd. discriminate.
  - intros _. eexists. split; [reflexivity|]. split; [reflexivity|]. split.
    + intros mcm. now rewrite after_logouts_app, after_logouts_presence.
    + intros Hin. apply in_app_or in Hin. destruct Hin as [Hin|Hin]; [auto|].
      cbn in Hin. intuition discriminate.
  - intros Hall. cbn in Hall. inversion Hall as [|? ? _ Htl]. inversion Htl as [|? ? Hhd _].
    cbn in Hhd. discriminate.
  - intros _. eexists. split; [reflexivity|]. split; [reflexivity|]. split.
    + intros mcm. now rewrite after_logouts_app, after_logouts_presence.
    + intros Hin. apply in_app_or in Hin. destruct Hin as [Hin|Hin]; [auto|].
      cbn in Hin. intuition discriminate.
  - intros _. eexists. split; [reflexivity|]. split.
    { destruct (IsConnected wcm), (OnLogout wcm); reflexivity. }
    split; [destruct (IsConnected wcm) eqn:E; cbn; [reflexivity|exact E]|].
    intros mcm. rewrite after_logouts_app, after_logouts_presence.
    destruct (IsConnected wcm), (OnLogout wcm); reflexivity.
  - intros Hex. exfalso.
    destruct (IsConnected wcm), (OnLogout wcm); cbn in Hex;
      inversion Hex as [? ? Hh|? ? Htl]; try (now apply Hh);
      inversion Htl as [? ? Hh|? ? Htl']; try (now apply Hh); inversion Htl'.
Qed.

Lemma logged_out_then_logout_witness :
  let run := ReceiveMessage (H := bench) (test_supervisor [])
               (EvLoggedOut false "401" "logged out") in
  is_Some (GetClientManager (bench_fleet []) TestData_RecruiterNumber)
  /\ GetClientManager (after_logouts (trace run) (bench_fleet [])) TestData_RecruiterNumber
     = None.
Proof.
  cbv zeta. split; [vm_compute; eexists; reflexivity|].
  destruct (logged_out_then_logout (H := bench) (test_supervisor [])
              (bench_client TestData_RecruiterNumber) (user_jid TestData_RecruiterNumber)
              (fun _ _ _ => None) false "401" "logged out" eq_refl eq_refl eq_refl)
    as [Haccepted _].
  destruct Haccepted as (exit & _ & _ & _ & Hafter).
  - vm_compute. repeat constructor.
  - rewrite Hafter. vm_compute. reflexivity.
Defined.

(** ** Inbound filter: peer messages *)

Section PeerMessages.
Context `{Externals}.

Lemma not_blocked_no_code wcm info c :
  blocked_by_checks wcm info c = false -> last_assigned_code wcm info c = None.
Proof.
  unfold blocked_by_checks, last_assigned_code.
  destruct (not_member c), (over_rate_limit wcm c), (Info_IsGroup info); try discriminate.
  reflexivity.
Qed.

(** A failed scan, as a missing row, yields the default policy. *)
Lemma lookup_policy_scan_error wcm db senderID rows e :
  database wcm = Some db ->
  Db_Query db (RecruiterNumber (RecruiterConfig_ wcm)) senderID = Ok rows ->
  Scan rows = Err e ->
  lookup_policy wcm senderID
  = Some ({| RecruiterID := RecruiterNumber (RecruiterConfig_ wcm); ApplicantID := senderID;
             Enabled := true; MessageCount := 0 |}, None).
Proof.
  intros Hdb Hq Hscan. unfold lookup_policy, GetRecruiterConfig. rewrite Hdb. cbn.
  now rewrite Hq, Hscan.
Qed.

End PeerMessages.

(** X5. A peer message that passes all checks and whose publish to ingest
    fails is not published to raw either: the function returns after the
    failed publish, so the event is on no topic. *)
Theorem ingest_failure_skips_raw `{Externals} (wcm : WhatsAppClientManager) (client : Client)
    (storeJID : JID) (info : MessageInfo) (msg : E2EMessage) (p1 : WhatsAppMessage)
    (c : RecruiterConfigDB) (e : option error) (cb : MessageCallback_t) (err : error)
    (Hc : WhatsAppClient wcm = Some client)
    (Hs : Store_ID client = Some storeJID)
    (Hpeer : User (Info_Sender info) <> User storeJID)
    (Hcontent : snd (Message_content wcm client info msg (Message_new info storeJID)) = Next p1)
    (Hpolicy : lookup_policy wcm (User (Info_Sender info)) = Some (c, e))
    (Hcb : MessageCallback wcm = Some cb)
    (Hadmitted : blocked_by_checks wcm info c = false)
    (Hingest : cb p1 "ingest" (kafkaKey_of storeJID (User (Info_Sender info))) = Some err) :
  publishes (trace (ReceiveMessage wcm (EvMessage info msg)))
  = [(p1, "ingest", kafkaKey_of storeJID (User (Info_Sender info)), Some err)]
  /\ ~ In "raw" (topics (trace (ReceiveMessage wcm (EvMessage info msg)))).
Proof.
  destruct (peer_message_run wcm client storeJID info msg p1 c e cb
              Hc Hs Hpeer Hcontent Hpolicy Hcb) as (_ & Hpub).
  unfold topics. rewrite Hpub, Message_emit_publishes, Hcb, Hadmitted.
  rewrite (not_blocked_no_code wcm info c Hadmitted). cbn [tagged]. rewrite Hingest.
  split; [reflexivity|]. cbn. intros [Hraw|[]]. discriminate.
Qed.

Lemma ingest_failure_skips_raw_witness :
  publishes (trace (ReceiveMessage (H := bench)
                      (refusing_supervisor "ingest" [GetTestRecruiterConfigDB])
                      (applicant_text "hi")))
  = [(GetTestWhatsAppMessage "Message", "ingest", "918496952149_918050992006",
      Some "broker down")].
Proof.
  refine (proj1 (ingest_failure_skips_raw (H := bench)
                   (refusing_supervisor "ingest" [GetTestRecruiterConfigDB])
                   (bench_client TestData_RecruiterNumber) (user_jid TestData_RecruiterNumber)
                   (text_info TestData_ApplicantNumber TestData_ApplicantNumber false)
                   (text_body "hi") (GetTestWhatsAppMessage "Message")
                   GetTestRecruiterConfigDB None _ "broker down"
                   eq_refl eq_refl _ eq_refl eq_refl eq_refl eq_refl eq_refl)).
  discriminate.
Defined.

(** X6. A pair without a row in the policy store, or whose first row has a
    NULL column, is treated as enabled with a message count of 0, without
    error. Its message is then blocked exactly when the tenant's rate limit
    is 0 or less, the message is a group message or its type is not allowed;
    otherwise it is published untagged to ingest and, that accepted, to
    raw. *)
Theorem missing_row_gets_defaults `{Externals} (wcm : WhatsAppClientManager) (client : Client)
    (storeJID : JID) (db : PostgresRepository) (info : MessageInfo) (msg : E2EMessage)
    (p1 : WhatsAppMessage) (rows : list Row) (e : error) (cb : MessageCallback_t)
    (Hc : WhatsAppClient wcm = Some client)
    (Hs : Store_ID client = Some storeJID)
    (Hpeer : User (Info_Sender info) <> User storeJID)
    (Hcontent : snd (Message_content wcm client info msg (Message_new info storeJID)) = Next p1)
    (Hdb : database wcm = Some db)
    (Hquery : Db_Query db (RecruiterNumber (RecruiterConfig_ wcm)) (User (Info_Sender info))
              = Ok rows)
    (Hscan : Scan rows = Err e)
    (Hcb : MessageCallback wcm = Some cb) :
  let key := kafkaKey_of storeJID (User (Info_Sender info)) in
  let blocked := (0 >=? MessageRateLimit (RecruiterConfig_ wcm))%Z
                 || Info_IsGroup info || disallowed_kind wcm info in
  lookup_policy wcm (User (Info_Sender info))
  = Some ({| RecruiterID := RecruiterNumber (RecruiterConfig_ wcm);
             ApplicantID := User (Info_Sender info);
             Enabled := true; MessageCount := 0 |}, None)
  /\ (exists exit,
         finished (ReceiveMessage wcm (EvMessage info msg)) = Some exit
         /\ isBlocked exit = blocked)
  /\ (blocked = false ->
      publishes (trace (ReceiveMessage wcm (EvMessage info msg)))
      = chain cb p1 key ["ingest"; "raw"]).
Proof.
  cbv zeta.
  pose proof (lookup_policy_scan_error wcm db (User (Info_Sender info)) rows e
                Hdb Hquery Hscan) as Hpolicy.
  destruct (peer_message_run wcm client storeJID info msg p1 _ _ cb
              Hc Hs Hpeer Hcontent Hpolicy Hcb) as ((exit & Hfin & Hb & Hp) & Hpub).
  split; [exact Hpolicy|]. split.
  - exists exit. split; [exact Hfin|]. rewrite Hb. reflexivity.
  - intros Hfree.
    assert (Hblk : blocked_by_checks wcm info
                     {| RecruiterID := RecruiterNumber (RecruiterConfig_ wcm);
                        ApplicantID := User (Info_Sender info);
                        Enabled := true; MessageCount := 0 |} = false) by exact Hfree.
    rewrite Hpub, Message_emit_publishes, Hcb, Hblk.
    rewrite (not_blocked_no_code wcm info _ Hblk). cbn [tagged chain].
    destruct (cb p1 "ingest" _); [reflexivity|].
    destruct (cb p1 "raw" _); reflexivity.
Qed.

Lemma missing_row_gets_defaults_witness :
  publishes (trace (ReceiveMessage (H := bench) (test_supervisor []) (applicant_text "hi")))
  = [(GetTestWhatsAppMessage "Message", "ingest", "918496952149_918050992006", None);
     (GetTestWhatsAppMessage "Message", "raw", "918496952149_918050992006", None)].
Proof.
  destruct (missing_row_gets_defaults (H := bench) (test_supervisor [])
              (bench_client TestData_RecruiterNumber) (user_jid TestData_RecruiterNumber)
              (bench_store [])
              (text_info TestData_ApplicantNumber TestData_ApplicantNumber false)
              (text_body "hi") (GetTestWhatsAppMessage "Message")
              [] "sql: Rows are closed" (fun _ _ _ => None)
              eq_refl eq_refl ltac:(discriminate) eq_refl eq_refl eq_refl eq_refl eq_refl)
    as (_ & _ & Hpub).
  change (applicant_text "hi")
    with (EvMessage (text_info TestData_ApplicantNumber TestData_ApplicantNumber false)
            (text_body "hi")).
  rewrite (Hpub eq_refl). reflexivity.
Defined.

(** X7. A peer message that only the allowed-type check blocks carries no
    error code: it is blocked and published to raw only, its error code the
    empty string ([ErrorCodeDisallowedMsgType] is assigned nowhere). *)
Theorem disallowed_kind_has_no_code `{Externals} (wcm : WhatsAppClientManager)
    (client : Client) (storeJID : JID) (info : MessageInfo) (msg : E2EMessage)
    (p1 : WhatsAppMessage) (c : RecruiterConfigDB) (e : option error) (cb : MessageCallback_t)
    (Hc : WhatsAppClient wcm = Some client)
    (Hs : Store_ID client = Some storeJID)
    (Hpeer : User (Info_Sender info) <> User storeJID)
    (Hcontent : snd (Message_content wcm client info msg (Message_new info storeJID)) = Next p1)
    (Hpolicy : lookup_policy wcm (User (Info_Sender info)) = Some (c, e))
    (Hcb : MessageCallback wcm = Some cb)
    (Hmember : Enabled c = true)
    (Hrate : (MessageCount c < MessageRateLimit (RecruiterConfig_ wcm))%Z)
    (Hgroup : Info_IsGroup info = false)
    (Hkind : kind_allowed wcm info = false) :
  let key := kafkaKey_of storeJID (User (Info_Sender info)) in
  exists exit,
    finished (ReceiveMessage wcm (EvMessage info msg)) = Some exit
    /\ isBlocked exit = true
    /\ payload exit = p1
    /\ ErrorCode (payload exit) = ""
    /\ publishes (trace (ReceiveMessage wcm (EvMessage info msg)))
       = [(p1, "raw", key, cb p1 "raw" key)].
Proof.
  cbv zeta.
  destruct (peer_message_run wcm client storeJID info msg p1 c e cb
              Hc Hs Hpeer Hcontent Hpolicy Hcb) as ((exit & Hfin & Hb & Hp) & Hpub).
  assert (Hover : over_rate_limit wcm c = false).
  { unfold over_rate_limit. destruct (Z.geb_spec (MessageCount c)
                                        (MessageRateLimit (RecruiterConfig_ wcm))); [lia|reflexivity]. }
  assert (Hblocked : blocked_by_checks wcm info c = true).
  { unfold blocked_by_checks, not_member, disallowed_kind.
    rewrite Hmember, Hover, Hgroup, Hkind. reflexivity. }
  assert (Hcode : last_assigned_code wcm info c = None).
  { unfold last_assigned_code, not_member. now rewrite Hgroup, Hover, Hmember. }
  rewrite Hcode in *. cbn [tagged] in *.
  exists exit. split; [exact Hfin|]. split; [now rewrite Hb|]. split; [exact Hp|]. split.
  - rewrite Hp. apply Message_content_fields in Hcontent.
    now destruct Hcontent as (_ & _ & ->).
  - rewrite Hpub, Message_emit_publishes, Hcb, Hblocked. reflexivity.
Qed.

Lemma disallowed_kind_has_no_code_witness :
  publishes (trace (ReceiveMessage (H := bench)
                      (allowing_supervisor ["image"] [GetTestRecruiterConfigDB])
                      (applicant_text "hi")))
  = [(GetTestWhatsAppMessage "Message", "raw", "918496952149_918050992006", None)].
Proof.
  destruct (disallowed_kind_has_no_code (H := bench)
              (allowing_supervisor ["image"] [GetTestRecruiterConfigDB])
              (bench_client TestData_RecruiterNumber) (user_jid TestData_RecruiterNumber)
              (text_info TestData_ApplicantNumber TestData_ApplicantNumber false)
              (text_body "hi") (GetTestWhatsAppMessage "Message")
              GetTestRecruiterConfigDB None (fun _ _ _ => None)
              eq_refl eq_refl ltac:(discriminate) eq_refl eq_refl eq_refl eq_refl
              ltac:(reflexivity) eq_refl eq_refl)
    as (exit & _ & _ & _ & _ & Hpub).
  exact Hpub.
Defined.

(** ** Inbound filter: media and the admin topic *)

(** X8. A media message whose download fails, or whose media type is none
    of audio, ptt, image and document, is dropped without a trace on the
    bus: nothing is published, not to raw either, whoever sent it, and the
    function ends with [isBlocked] unset. *)
Theorem media_dropped_silently `{Externals} (wcm : WhatsAppClientManager) (client : Client)
    (storeJID : JID) (info : MessageInfo) (msg : E2EMessage)
    (Hc : WhatsAppClient wcm = Some client)
    (Hs : Store_ID client = Some storeJID)
    (Hmedia : Info_Type info = "media")
    (Hdrop : is_Err (Client_DownloadAny client msg) = true
             \/ slices_Contains ["audio"; "ptt"; "image"; "document"] (Info_MediaType info)
                = false) :
  publishes (trace (ReceiveMessage wcm (EvMessage info msg))) = []
  /\ exists exit,
       finished (ReceiveMessage wcm (EvMessage info msg)) = Some exit
       /\ isBlocked exit = false.
Proof.
  assert (Hcontent : exists t exit,
             Message_content wcm client info msg (Message_new info storeJID)
             = (t, Returned exit) /\ isBlocked exit = false).
  { unfold Message_content. rewrite Hmedia. cbn [String.eqb Ascii.eqb Bool.eqb].
    destruct (Client_DownloadAny client msg) as [data|e];
      [|do 2 eexists; split; reflexivity].
    destruct Hdrop as [Hdl|Hkind]; [discriminate|].
    cbn in Hkind. rewrite !orb_false_r in Hkind.
    apply orb_false_elim in Hkind. destruct Hkind as [Ha Hkind].
    apply orb_false_elim in Hkind. destruct Hkind as [Hp Hkind].
    apply orb_false_elim in Hkind. destruct Hkind as [Hi Hd].
    rewrite Ha, Hp, Hi, Hd. cbn [orb].
    do 2 eexists; split; reflexivity. }
  destruct Hcontent as (t & exit & Hrun & Hb).
  split.
  - rewrite (Message_run_publishes wcm client storeJID info msg Hc Hs). now rewrite Hrun.
  - rewrite (ReceiveMessage_Message_run wcm client storeJID info msg Hc Hs). cbv zeta.
    rewrite Hrun. exists exit. split; [reflexivity|exact Hb].
Qed.

Lemma media_dropped_silently_witness :
  publishes (trace (ReceiveMessage (H := bench) (test_supervisor [GetTestRecruiterConfigDB])
                      (EvMessage (media_info TestData_ApplicantNumber "image")
                         (text_body "")))) = [].
Proof.
  exact (proj1 (media_dropped_silently (H := bench)
                  (test_supervisor [GetTestRecruiterConfigDB])
                  (bench_client TestData_RecruiterNumber) (user_jid TestData_RecruiterNumber)
                  (media_info TestData_ApplicantNumber "image") (text_body "")
                  eq_refl eq_refl eq_refl (or_introl eq_refl))).
Defined.

Section AdminTopic.
Context `{Externals}.

Lemma routing_without_admin evt : ~ In "admin" (routing evt).
Proof.
  destruct evt; cbn; intuition discriminate.
Qed.

Lemma Message_admin wcm client storeJID info msg p key err :
  WhatsAppClient wcm = Some client ->
  Store_ID client = Some storeJID ->
  In (p, "admin", key, err) (publishes (trace (ReceiveMessage wcm (EvMessage info msg)))) ->
  User (Info_Sender info) = User storeJID
  /\ JID_String (Info_Chat info) = ConvertToJID (RecruiterNumber (RecruiterConfig_ wcm))
  /\ ErrorCode p = "".
Proof.
  intros Hc Hs. rewrite (Message_run_publishes wcm client storeJID info msg Hc Hs).
  destruct (snd (Message_content wcm client info msg (Message_new info storeJID)))
    as [p1|r|] eqn:Hcontent; [|contradiction|contradiction].
  apply Message_content_fields in Hcontent. destruct Hcontent as (_ & _ & Hcode).
  unfold Message_branch.
  destruct (String.eqb_spec (User (Info_Sender info)) (User storeJID)) as [Hself|Hpeer].
  - rewrite Message_self_publishes, Message_self_closed_form.
    destruct (String.eqb_spec (JID_String (Info_Chat info))
                (ConvertToJID (RecruiterNumber (RecruiterConfig_ wcm)))) as [Hown|Hother].
    + destruct (MessageCallback wcm) as [cb|] eqn:Hcb; [|contradiction].
      destruct (cb p1 "admin" _); cbn [snd app].
      * intros [[= <- _ _]|[]]. auto.
      * rewrite Message_emit_publishes, Hcb. cbn [app].
        intros [[= <- _ _]|[Heq|[]]]; [auto|]. inversion Heq.
    + cbn [snd app]. rewrite Message_emit_publishes.
      destruct (MessageCallback wcm) as [cb|]; [|contradiction].
      intros [Heq|[]]. inversion Heq.
  - rewrite Message_peer_quiet. cbn [app].
    destruct (snd (Message_peer _ _ _ _ _)) as [[b p2]|r|]; [|contradiction|contradiction].
    rewrite Message_emit_publishes.
    destruct (MessageCallback wcm) as [cb|]; [|contradiction].
    destruct b.
    + intros [Heq|[]]. inversion Heq.
    + intros [Heq|Hin]; [inversion Heq|].
      destruct (cb p2 "ingest" _); [contradiction|].
      destruct Hin as [Heq|[]]. inversion Heq.
Qed.

End AdminTopic.

(** X9. Nothing but a tenant's own message in its own chat reaches the
    admin topic: every publish to admin is of a [Message] event whose sender
    is the store id and whose chat is the tenant's qualified number, and the
    event published there carries no error code. *)
Theorem only_own_chat_reaches_admin `{Externals} (wcm : WhatsAppClientManager) (evt : Event)
    (p : WhatsAppMessage) (key : string) (err : option error)
    (Hadmin : In (p, "admin", key, err) (publishes (trace (ReceiveMessage wcm evt)))) :
  exists client storeJID info msg,
    WhatsAppClient wcm = Some client
    /\ Store_ID client = Some storeJID
    /\ evt = EvMessage info msg
    /\ User (Info_Sender info) = User storeJID
    /\ JID_String (Info_Chat info) = ConvertToJID (RecruiterNumber (RecruiterConfig_ wcm))
    /\ ErrorCode p = "".
Proof.
  destruct (WhatsAppClient wcm) as [client|] eqn:Hc;
    [|rewrite (ReceiveMessage_no_client wcm _ Hc) in Hadmin; contradiction].
  destruct (Store_ID client) as [storeJID|] eqn:Hs;
    [|rewrite (ReceiveMessage_no_store wcm client evt Hc Hs) in Hadmin; contradiction].
  destruct (is_Message evt) eqn:Hevt.
  - destruct evt as [info msg| | | | | | |]; try discriminate.
    exists client, storeJID, info, msg.
    split; [reflexivity|]. split; [exact Hs|]. split; [reflexivity|].
    exact (Message_admin wcm client storeJID info msg p key err Hc Hs Hadmin).
  - exfalso. rewrite (arm_publishes wcm client evt Hc) in Hadmin.
    destruct (MessageCallback wcm) as [cb|] eqn:Hcb.
    + destruct (other_arms_chain wcm client storeJID cb evt Hs Hcb Hevt) as (p0 & Hpub & _).
      rewrite Hpub in Hadmin. apply chain_topics in Hadmin.
      exact (routing_without_admin evt (proj1 Hadmin)).
    + now rewrite (other_arms_no_callback wcm client evt Hcb Hevt) in Hadmin.
Qed.

Lemma only_own_chat_reaches_admin_witness :
  let run := ReceiveMessage (H := bench) (test_supervisor [])
               (tenant_text TestData_RecruiterNumber "note") in
  exists p,
    In (p, "admin", "918496952149_918496952149", None) (publishes (trace run))
    /\ ErrorCode p = "".
Proof.
  cbv zeta. eexists.
  assert (Hin : In (_, "admin", "918496952149_918496952149", None)
                  (publishes (trace (ReceiveMessage (H := bench) (test_supervisor [])
                                       (tenant_text TestData_RecruiterNumber "note")))))
    by (vm_compute; left; reflexivity).
  split; [exact Hin|].
  destruct (only_own_chat_reaches_admin (H := bench) _ _ _ _ _ Hin)
    as (client & storeJID & info & msg & _ & _ & _ & _ & _ & Hcode).
  exact Hcode.
Defined.

(** ** Outbound dispatcher: one pass of the loop *)

Section DispatcherPass.
Context `{Externals}.

(** A send followed by the logging of its error: no bus write, at most one
    message on the transport, none on a supervisor that is not connected. *)
Lemma send_then_log_quiet wcm chatID response failure success msg :
  let m : Proc unit unit := bind (call (send_via wcm chatID response failure success))
             (fun err => when (negb (is_nil err)) (log LevelError msg None)) in
  writes (trace m) = []
  /\ (length (transport_sends (trace m)) <= 1)%nat
  /\ (IsConnected wcm = false -> transport_sends (trace m) = [] /\ snd m = Next tt).
Proof.
  cbv zeta. rewrite send_via_cases.
  destruct (IsConnected wcm); cbn [negb].
  2: { cbn. repeat split; auto. }
  destruct (ParseJID chatID); [|cbn; repeat split; auto; discriminate].
  destruct (WhatsAppClient wcm) as [client|]; [|cbn; repeat split; auto; discriminate].
  destruct (Client_SendMessage client a response); cbn; repeat split; auto; discriminate.
Qed.

Lemma typing_then_log_quiet wcm chatID msg :
  let m : Proc unit unit := bind (call (SendTypingIndicator wcm chatID))
             (fun err => when (negb (is_nil err)) (log LevelError msg None)) in
  writes (trace m) = []
  /\ (length (transport_sends (trace m)) <= 1)%nat
  /\ (IsConnected wcm = false -> transport_sends (trace m) = [] /\ snd m = Next tt).
Proof.
  cbv zeta. rewrite SendTypingIndicator_cases.
  destruct (IsConnected wcm); cbn [negb].
  2: { cbn. repeat split; auto. }
  destruct (ParseJID chatID); [|cbn; repeat split; auto; discriminate].
  destruct (WhatsAppClient wcm) as [client|]; [|cbn; repeat split; auto; discriminate].
  destruct (Client_SendChatPresence client a "composing"); cbn; repeat split; auto; discriminate.
Qed.

Lemma writes_Invoke r op t : writes (Invoke r op :: t) = writes t.
Proof. reflexivity. Qed.

Lemma invocations_Invoke r op t : invocations (Invoke r op :: t) = (r, op) :: invocations t.
Proof. reflexivity. Qed.

Lemma transport_sends_Invoke r op t : transport_sends (Invoke r op :: t) = transport_sends t.
Proof. reflexivity. Qed.

(** The switch on the kind: at most one call of a send method, on the
    supervisor it was given and to the chat of the header. *)
Lemma send_by_kind_facts receiver cm payload :
  writes (trace (send_by_kind receiver cm payload)) = []
  /\ (length (invocations (trace (send_by_kind receiver cm payload))) <= 1)%nat
  /\ (forall r op, In (r, op) (invocations (trace (send_by_kind receiver cm payload))) ->
        r = receiver /\ SendOp_chatID op = Out_ChatID payload)
  /\ (length (transport_sends (trace (send_by_kind receiver cm payload))) <= 1)%nat
  /\ (IsConnected cm = false ->
      transport_sends (trace (send_by_kind receiver cm payload)) = []
      /\ snd (send_by_kind receiver cm payload) = Next tt).
Proof.
  unfold send_by_kind, SendAudioMessage, SendImageMessage, SendDocumentMessage, SendTextMessage.
  repeat match goal with
         | |- context [if String.eqb ?a ?b then _ else _] => destruct (String.eqb a b)
         | |- context [match ?r with Ok _ => _ | Err _ => _ end] => destruct r
         end;
    try (cbn; repeat split; auto; contradiction);
    match goal with
    | |- context [call (send_via ?w ?c ?r ?f ?s)] =>
        destruct (send_then_log_quiet w c r f s f) as (Hw & Ht & Hoff);
        destruct (send_then_log_cases w c r f s f) as [Hi _]
    | |- context [call (SendTypingIndicator ?w ?c)] =>
        destruct (typing_then_log_quiet w c "Failed to send typing indicator")
          as (Hw & Ht & Hoff);
        destruct (typing_then_log_cases w c "Failed to send typing indicator") as [Hi _]
    end;
    rewrite bind_emit; cbn [trace fst snd];
    rewrite writes_Invoke, invocations_Invoke, transport_sends_Invoke, Hw, Hi;
    (split; [reflexivity|]); (split; [cbn; lia|]);
    (split; [intros r op [[= <- <-]|[]]; split; reflexivity|]);
    (split; [exact Ht|exact Hoff]).
Qed.

End DispatcherPass.

(** X10. One pass of the dispatcher's loop ends the goroutine exactly when
    the read was cancelled or, the handler having a raw writer, the raw copy
    was refused, the record's header did not decode, or no supervisor is
    registered under the header's [ReceiverID]; the reads behind such a pass
    are never made. Any other read error is logged and the loop reads
    again. *)
Theorem loop_ends_exactly_when `{Externals} (mcm : MainClientManager) (n : nat)
    (r : ReadResult) :
  (snd (iteration mcm n r) = Returned tt <-> ends_loop mcm n r)
  /\ (forall reads, snd (iteration mcm n r) = Returned tt ->
        sending_loop mcm n (r :: reads) = iteration mcm n r)
  /\ (forall err reads,
        r = ReadErr err -> err <> "fetching message: context canceled" ->
        sending_loop mcm n (r :: reads)
        = (Log LevelError "Error reading message from Kafka" None
             :: trace (sending_loop mcm (S n) reads),
           snd (sending_loop mcm (S n) reads))).
Proof.
  split; [|split].
  - destruct r as [msg|err]; cbn [iteration ends_loop].
    + unfold dispatch. rewrite bind_log. cbn [snd].
      destruct (KafkaWriters (MessageHandler_ mcm) !! "raw") as [rawWriter|] eqn:Hraw.
      2: { cbn. split; [discriminate|]. intros (w & Hw & _). discriminate. }
      cbn [deref]. rewrite bind_ret, bind_emit. cbn [snd].
      destruct (WriteMessages rawWriter _) as [e|] eqn:Hcopy.
      { cbn. split; [|reflexivity]. intros _. exists rawWriter. split; [reflexivity|].
        left. rewrite Hcopy. discriminate. }
      destruct (Unmarshal_payload (Value msg)) as [payload|e] eqn:Hheader.
      2: { cbn. split; [|reflexivity]. intros _. exists rawWriter. split; [reflexivity|].
           right. left. reflexivity. }
      rewrite bind_log. cbn [snd].
      destruct (GetClientManager mcm (Out_ReceiverID payload)) as [cm|] eqn:Hreg.
      2: { cbn. split; [|reflexivity]. intros _. exists rawWriter. split; [reflexivity|].
           right. right. exists payload. split; [reflexivity|exact Hreg]. }
      split.
      * intros Hret.
        destruct (send_by_kind_outcome (Out_ReceiverID payload) cm payload) as [Hn|[Hp _]];
          rewrite Hret in *; discriminate.
      * intros (w & Hw & [Hc|[Hh|(p & Hp & Hn)]]).
        -- injection Hw as <-. elim Hc. exact Hcopy.
        -- discriminate.
        -- injection Hp as <-. rewrite Hreg in Hn. discriminate.
    + destruct (String.eqb_spec err "fetching message: context canceled") as [->|Hne].
      * cbn. split; reflexivity.
      * cbn. split; [discriminate|]. intros Heq. now elim Hne.
  - intros reads Hret. cbn [sending_loop].
    destruct (iteration mcm n r) as [t o]. cbn [snd] in Hret. now subst o.
  - intros err reads -> Hne. cbn [sending_loop iteration].
    apply String.eqb_neq in Hne. rewrite Hne. now rewrite bind_log.
Qed.

(** X11. Every record read is first copied to raw as it is, under the
    key drawn for the pass, whether or not it can be decoded or sent; the
    pass writes nothing else to the bus, and when the copy is refused no
    send method is called. *)
Theorem raw_copy_before_anything `{Externals} (mcm : MainClientManager) (n : nat)
    (msg : KafkaMessage) (rawWriter : Writer)
    (Hraw : KafkaWriters (MessageHandler_ mcm) !! "raw" = Some rawWriter) :
  let rawMsg := {| Key := uuid_New n; Value := Value msg |} in
  writes (trace (dispatch mcm n msg)) = [("raw", rawMsg, WriteMessages rawWriter rawMsg)]
  /\ (WriteMessages rawWriter rawMsg <> None ->
      invocations (trace (dispatch mcm n msg)) = []
      /\ transport_sends (trace (dispatch mcm n msg)) = []).
Proof.
  cbv zeta. unfold dispatch. rewrite bind_log, Hraw. cbn [deref]. rewrite bind_ret, bind_emit.
  cbn [trace fst].
  destruct (WriteMessages rawWriter _) as [e|] eqn:Hcopy.
  { split; [reflexivity|]. intros _. split; reflexivity. }
  split; [|intros Hne; now elim Hne].
  destruct (Unmarshal_payload (Value msg)) as [payload|e]; [|reflexivity].
  rewrite bind_log. cbn [trace fst].
  destruct (GetClientManager mcm (Out_ReceiverID payload)) as [cm|]; [|reflexivity].
  destruct (send_by_kind_facts (Out_ReceiverID payload) cm payload) as (Hw & _).
  cbn [writes flat_map app]. change (flat_map _ ?t) with (writes t). now rewrite Hw.
Qed.

Lemma raw_copy_before_anything_witness :
  writes (trace (dispatch (H := bench) (bench_fleet []) 0
                   {| Key := "k"; Value := Some (JString "hello") |}))
  = [("raw", {| Key := uuid_New (Externals := bench) 0; Value := Some (JString "hello") |},
      None)].
Proof.
  exact (proj1 (raw_copy_before_anything (H := bench) (bench_fleet []) 0
                  {| Key := "k"; Value := Some (JString "hello") |} accepting_writer
                  ltac:(vm_compute; reflexivity))).
Defined.

(** X12. A pass of the loop calls at most one send method and puts at most
    one message on the transport; the call is made on the supervisor
    registered under the decoded header's [ReceiverID] and addresses the
    header's chat. *)
Theorem at_most_one_send_per_record `{Externals} (mcm : MainClientManager) (n : nat)
    (msg : KafkaMessage) :
  (length (invocations (trace (dispatch mcm n msg))) <= 1)%nat
  /\ (length (transport_sends (trace (dispatch mcm n msg))) <= 1)%nat
  /\ forall r op,
       In (r, op) (invocations (trace (dispatch mcm n msg))) ->
       exists payload,
         Unmarshal_payload (Value msg) = Ok payload
         /\ r = Out_ReceiverID payload
         /\ SendOp_chatID op = Out_ChatID payload
         /\ is_Some (GetClientManager mcm r).
Proof.
  destruct (dispatch_cases mcm n msg) as [(payload & cm & Hreach)|(Hi & Ht & _)].
  - rewrite (dispatch_at_switch mcm n msg payload cm Hreach). cbn [trace fst].
    rewrite invocations_app, transport_sends_app. cbn [app].
    change (invocations (before_switch n msg)) with (@nil (string * SendOp)).
    change (transport_sends (before_switch n msg)) with (@nil effect). cbn [app].
    destruct (send_by_kind_facts (Out_ReceiverID payload) cm payload)
      as (_ & Hone & Hwho & Htr & _).
    split; [exact Hone|]. split; [exact Htr|].
    intros r op Hin. destruct (Hwho r op Hin) as [-> Hchat].
    destruct Hreach as (w & _ & _ & Hheader & Hreg).
    exists payload. split; [exact Hheader|]. split; [reflexivity|]. split; [exact Hchat|].
    rewrite Hreg. eexists. reflexivity.
  - rewrite Hi, Ht. split; [cbn; lia|]. split; [cbn; lia|]. intros r op [].
Qed.

(** X13. A record for a supervisor that is registered but not connected is
    consumed without reaching the transport, whatever its kind, and the loop
    reads on. *)
Theorem disconnected_supervisor_drops_record `{Externals} (mcm : MainClientManager) (n : nat)
    (msg : KafkaMessage) (payload : OutboundPayload) (cm : WhatsAppClientManager)
    (Hreach : reaches_switch mcm n msg payload cm)
    (Hoff : IsConnected cm = false) :
  transport_sends (trace (dispatch mcm n msg)) = []
  /\ snd (dispatch mcm n msg) = Next tt.
Proof.
  rewrite (dispatch_at_switch mcm n msg payload cm Hreach). cbn [trace fst snd].
  destruct (send_by_kind_facts (Out_ReceiverID payload) cm payload) as (_ & _ & _ & _ & Hq).
  destruct (Hq Hoff) as [Ht Hn].
  rewrite transport_sends_app, Ht. split; [reflexivity|exact Hn].
Qed.

Lemma disconnected_supervisor_drops_record_witness :
  is_Some (GetClientManager idle_fleet TestData_RecruiterNumber)
  /\ transport_sends (trace (dispatch (H := bench) idle_fleet 0 (outbound_text (JString "hi"))))
     = []
  /\ snd (dispatch (H := bench) idle_fleet 0 (outbound_text (JString "hi"))) = Next tt.
Proof.
  split; [vm_compute; eexists; reflexivity|].
  apply (disconnected_supervisor_drops_record (H := bench) idle_fleet 0
           (outbound_text (JString "hi")) (outbound_header (JString "hi"))
           (set_IsConnected (test_supervisor []) false)).
  - exists accepting_writer. split; [|split; [|split]]; vm_compute; reflexivity.
  - reflexivity.
Defined.

(** X14. Once the logout callback has taken a tenant out of the registry, a
    record addressed to that tenant ends the dispatcher's loop: nothing is
    sent for it, and the records behind it, for whichever tenant, are never
    read. *)
Theorem logged_out_tenant_halts_dispatcher `{Externals} (mcm : MainClientManager) (n : nat)
    (msg : KafkaMessage) (reads : list ReadResult) (rawWriter : Writer)
    (payload : OutboundPayload)
    (Hraw : KafkaWriters (MessageHandler_ mcm) !! "raw" = Some rawWriter)
    (Hcopy : WriteMessages rawWriter {| Key := uuid_New n; Value := Value msg |} = None)
    (Hheader : Unmarshal_payload (Value msg) = Ok payload) :
  let after := OnLogout_callback mcm (Out_ReceiverID payload) in
  GetClientManager after (Out_ReceiverID payload) = None
  /\ sending_loop after n (ReadOk msg :: reads)
     = (before_switch n msg ++ [Log LevelError "Client manager not found for receiver" None],
        Returned tt)
  /\ invocations (trace (sending_loop after n (ReadOk msg :: reads))) = [].
Proof.
  cbv zeta.
  assert (Hgone : GetClientManager (OnLogout_callback mcm (Out_ReceiverID payload))
                    (Out_ReceiverID payload) = None)
    by apply lookup_delete_eq.
  split; [exact Hgone|].
  assert (Hloop : sending_loop (OnLogout_callback mcm (Out_ReceiverID payload)) n
                    (ReadOk msg :: reads)
                  = (before_switch n msg
                       ++ [Log LevelError "Client manager not found for receiver" None],
                     Returned tt)).
  { cbn [sending_loop iteration]. unfold dispatch.
    cbn [OnLogout_callback set_ClientManagers MessageHandler_].
    rewrite bind_log, Hraw. cbn [deref]. rewrite bind_ret.
    rewrite Hcopy, bind_emit, Hheader, bind_log, Hgone. reflexivity. }
  split; [exact Hloop|]. now rewrite Hloop.
Qed.

Lemma logged_out_tenant_halts_dispatcher_witness :
  let fleet := OnLogout_callback (bench_fleet []) TestData_RecruiterNumber in
  invocations (trace (sending_loop (H := bench) fleet 0
                        [ReadOk (outbound_text (JString "hi"));
                         ReadOk (outbound_text (JString "hi"))])) = []
  /\ snd (sending_loop (H := bench) fleet 0
            [ReadOk (outbound_text (JString "hi")); ReadOk (outbound_text (JString "hi"))])
     = Returned tt.
Proof.
  cbv zeta.
  destruct (logged_out_tenant_halts_dispatcher (H := bench) (bench_fleet []) 0
              (outbound_text (JString "hi")) [ReadOk (outbound_text (JString "hi"))]
              accepting_writer (outbound_header (JString "hi"))
              ltac:(vm_compute; reflexivity) eq_refl ltac:(vm_compute; reflexivity))
    as (_ & Hloop & Hquiet).
  split; [exact Hquiet|].
  exact (f_equal snd Hloop).
Defined.

(** ** Event bus adapter: one publish *)

(** X15. [SendMessageToKafka] never panics and writes at most one record:
    the marshalled payload, under the key it was given, to the writer of the
    topic it was given. It returns nil exactly when that write was accepted
    or the topic has no writer: a missing writer is reported as success
    although nothing was written. A payload that does not marshal is an
    error and nothing is written. *)
Theorem SendMessageToKafka_contract `{Externals} (mh : MessageHandler)
    (payload : WhatsAppMessage) (topicName kafkaKey : string) :
  exists r,
    finished (SendMessageToKafka mh payload topicName kafkaKey) = Some r
    /\ SendMessageToKafka_callback mh payload topicName kafkaKey = r
    /\ writes (trace (SendMessageToKafka mh payload topicName kafkaKey))
       = match KafkaWriters mh !! topicName, json_Marshal payload with
         | Some writer, Ok jsonMsg =>
             [(topicName, {| Key := kafkaKey; Value := Some jsonMsg |},
               WriteMessages writer {| Key := kafkaKey; Value := Some jsonMsg |})]
         | _, _ => []
         end
    /\ (r = None <->
        KafkaWriters mh !! topicName = None
        \/ exists writer jsonMsg,
             KafkaWriters mh !! topicName = Some writer
             /\ json_Marshal payload = Ok jsonMsg
             /\ WriteMessages writer {| Key := kafkaKey; Value := Some jsonMsg |} = None).
Proof.
  unfold SendMessageToKafka_callback, SendMessageToKafka.
  destruct (KafkaWriters mh !! topicName) as [writer|] eqn:Hw.
  2: { exists None. cbn. repeat split; auto. }
  destruct (json_Marshal payload) as [jsonMsg|e] eqn:Hm.
  2: { exists (Some e). cbn. repeat split; try discriminate.
       intros [Hn|(w & j & _ & Hj & _)]; discriminate. }
  rewrite bind_emit.
  destruct (WriteMessages writer _) as [e|] eqn:Hwrite.
  - exists (Some e). cbn. repeat split; try discriminate.
    intros [Hn|(w & j & [= <-] & [= <-] & Hacc)]; [discriminate|].
    rewrite Hwrite in Hacc. discriminate.
  - exists None. cbn. repeat split; auto.
    intros _. right. exists writer, jsonMsg. auto.
Qed.

(** ** Session supervisor: sending *)

(** X16. The four message sends check the connection first: on a
    supervisor that is not connected they return "client not connected"
    without parsing the chat id or touching the transport. They put at most
    one message on the transport, and return nil exactly when the supervisor
    is connected, the chat id parses, and the transport accepted the one
    message sent to the parsed address. *)
Theorem send_contract `{Externals} (wcm : WhatsAppClientManager) (chatID : string)
    (response : OutMessage) (failure success : string) :
  let run := send_via wcm chatID response failure success in
  (IsConnected wcm = false -> run = ([], Returned (Some "client not connected")))
  /\ (length (transport_sends (trace run)) <= 1)%nat
  /\ (finished run = Some None <->
      IsConnected wcm = true
      /\ exists targetJID client,
           ParseJID chatID = Ok targetJID
           /\ WhatsAppClient wcm = Some client
           /\ Client_SendMessage client targetJID response = None)
  /\ (finished run = Some None ->
      exists targetJID,
        ParseJID chatID = Ok targetJID
        /\ transport_sends (trace run) = [TransportSend targetJID response None]).
Proof.
  cbv zeta. rewrite send_via_cases.
  destruct (IsConnected wcm); cbn [negb].
  2: { split; [reflexivity|]. split; [cbn; lia|]. split; [|discriminate].
       split; [discriminate|]. intros (Hc & _). discriminate. }
  split; [discriminate|].
  destruct (ParseJID chatID) as [targetJID|e].
  2: { split; [cbn; lia|]. split; [|discriminate].
       split; [discriminate|]. intros (_ & j & c & Hj & _). discriminate. }
  destruct (WhatsAppClient wcm) as [client|].
  2: { split; [cbn; lia|]. split; [|discriminate].
       split; [discriminate|]. intros (_ & j & c & _ & Hc & _). discriminate. }
  destruct (Client_SendMessage client targetJID response) as [e|] eqn:Hsend.
  - split; [cbn; lia|]. split; [|discriminate].
    split; [discriminate|].
    intros (_ & j & c & [= <-] & [= <-] & Hacc). rewrite Hsend in Hacc. discriminate.
  - split; [cbn; lia|]. split.
    + split; [|reflexivity]. intros _. split; [reflexivity|]. exists targetJID, client. auto.
    + intros _. exists targetJID. split; reflexivity.
Qed.

(** X17. [Disconnect] leaves a supervisor that has a client disconnected,
    and a second [Disconnect] does nothing. It disconnects the transport
    exactly when the supervisor was connected. Afterwards every send and
    the typing indicator return "client not connected" and nothing reaches
    the transport. *)
Theorem Disconnect_then_sends_fail `{Externals} (wcm : WhatsAppClientManager)
    (client : Client) (Hclient : WhatsAppClient wcm = Some client) :
  let w' := disconnected wcm in
  snd (Disconnect wcm) = Next w'
  /\ IsConnected w' = false
  /\ Disconnect w' = ([], Next w')
  /\ (In TransportDisconnect (trace (Disconnect wcm)) <-> IsConnected wcm = true)
  /\ (forall chatID response failure success,
        send_via w' chatID response failure success
        = ([], Returned (Some "client not connected")))
  /\ (forall chatID,
        SendTypingIndicator w' chatID = ([], Returned (Some "client not connected"))).
Proof.
  cbv zeta. unfold Disconnect, disconnected, send_via, SendTypingIndicator.
  rewrite Hclient. cbn [is_nil negb andb].
  destruct wcm as [cfg c ds ct [] cb db ol]; cbn in Hclient; subst c; cbn.
  - repeat split; auto.
  - repeat split; auto; try discriminate; try (now intros []).
Qed.

Lemma Disconnect_then_sends_fail_witness :
  let w' := disconnected (test_supervisor []) in
  IsConnected w' = false
  /\ SendTextMessage (H := bench) w' TestData_ApplicantChatID "hi"
     = ([], Returned (Some "client not connected")).
Proof.
  cbv zeta.
  destruct (Disconnect_then_sends_fail (H := bench) (test_supervisor [])
              (bench_client TestData_RecruiterNumber) eq_refl)
    as (_ & Hoff & _ & _ & Hsend & _).
  split; [exact Hoff|]. apply Hsend.
Defined.

(** ** Session supervisor: phone pairing *)

(** X18. [PairPhone] asks the transport to pair only when the supervisor has
    a client, the phone number is 10 to 15 bytes long and the client name is
    the configured host client type, letter for letter; it returns nil
    exactly when, besides, the transport paired. The client is tested
    first: without one the error is "WhatsApp client not initialized"
    whatever the arguments. *)
Theorem PairPhone_validates (wcm : WhatsAppClientManager)
    (pairPhone : string -> string -> result string) (phoneNumber clientName : string) :
  let run := PairPhone wcm pairPhone phoneNumber clientName in
  pairings (trace run)
  = (if pairable wcm phoneNumber clientName
     then [(phoneNumber, clientName,
            match pairPhone phoneNumber clientName with
            | Ok _ => None
            | Err e => Some e
            end)]
     else [])
  /\ (finished run = Some None <->
      pairable wcm phoneNumber clientName = true
      /\ is_Err (pairPhone phoneNumber clientName) = false)
  /\ (WhatsAppClient wcm = None ->
      run = ([], Returned (Some "WhatsApp client not initialized"))).
Proof.
  cbv zeta. unfold PairPhone, pairable.
  destruct (WhatsAppClient wcm) as [client|]; cbn [is_nil negb andb].
  2: { cbn. repeat split; auto; try discriminate. intros []; discriminate. }
  rewrite (Nat.leb_antisym (String.length phoneNumber) 10),
    (Nat.leb_antisym 15 (String.length phoneNumber)).
  destruct (String.length phoneNumber <? 10)%nat; cbn [orb negb andb].
  { cbn. repeat split; try discriminate. intros []; discriminate. }
  destruct (15 <? String.length phoneNumber)%nat; cbn [orb negb andb].
  { cbn. repeat split; try discriminate. intros []; discriminate. }
  destruct (String.eqb (HostClientType (RecruiterConfig_ wcm)) clientName); cbn [negb].
  2: { cbn. repeat split; try discriminate. intros []; discriminate. }
  rewrite bind_log.
  destruct (pairPhone phoneNumber clientName); cbn; repeat split; auto; try discriminate.
  intros []; discriminate.
Qed.

(** ** Session supervisor: the login goroutine *)

Section LoginGoroutine.

Lemma pairings_app t1 t2 : pairings (t1 ++ t2) = pairings t1 ++ pairings t2.
Proof. apply flat_map_app. Qed.

Lemma qr_files_app t1 t2 : qr_files (t1 ++ t2) = qr_files t1 ++ qr_files t2.
Proof. apply flat_map_app. Qed.

Lemma pairings_Log lvl msg code t : pairings (Log lvl msg code :: t) = pairings t.
Proof. reflexivity. Qed.

Lemma qr_files_Log lvl msg code t : qr_files (Log lvl msg code :: t) = qr_files t.
Proof. reflexivity. Qed.

Lemma pairings_QRCodeFile r c d t : pairings (QRCodeFile r c d :: t) = pairings t.
Proof. reflexivity. Qed.

Lemma qr_files_QRCodeFile r c d t : qr_files (QRCodeFile r c d :: t) = (c, d) :: qr_files t.
Proof. reflexivity. Qed.

Lemma pairings_PairPhone p c r t :
  pairings (TransportPairPhone p c r :: t) = (p, c, r) :: pairings t.
Proof. reflexivity. Qed.

Lemma qr_files_PairPhone p c r t : qr_files (TransportPairPhone p c r :: t) = qr_files t.
Proof. reflexivity. Qed.

Lemma qr_fallback_loop_files recruiter items :
  pairings (trace (qr_fallback_loop recruiter items)) = []
  /\ qr_files (trace (qr_fallback_loop recruiter items))
     = map (fun c => (c, "QR Code Retry")) (codes_until_end items).
Proof.
  induction items as [|evt items [IHp IHq]]; [split; reflexivity|].
  cbn [qr_fallback_loop codes_until_end].
  destruct (String.eqb (QR_Event evt) "code").
  - rewrite bind_emit. cbn [trace fst]. split; [exact IHp|].
    cbn [map]. change (qr_files (?e :: ?t)) with (qr_files [e] ++ qr_files t).
    now rewrite IHq.
  - destruct (String.eqb (QR_Event evt) "success"); [split; reflexivity|].
    destruct (String.eqb (QR_Event evt) "timeout"); [split; reflexivity|].
    split; assumption.
Qed.

Lemma pairing_wait_loop_quiet items :
  pairings (trace (pairing_wait_loop items)) = []
  /\ qr_files (trace (pairing_wait_loop items)) = [].
Proof.
  induction items as [|evt items IH]; [split; reflexivity|].
  cbn [pairing_wait_loop].
  destruct (String.eqb (QR_Event evt) "success"); [split; reflexivity|].
  destruct (String.eqb (QR_Event evt) "timeout"); [split; reflexivity|].
  exact IH.
Qed.

(** What the goroutine asks of the transport and writes to the QR file. *)
Lemma asyncLogin_goroutine_effects cfg run :
  let started := is_nil (Client_Connect run) && String.eqb (QR_Event (first_item run)) "code" in
  pairings (trace (asyncLogin_goroutine cfg run))
  = (if started
     then [(RecruiterNumber cfg, login_client_name cfg,
            match Client_PairPhone run with
            | Ok _ => None
            | Err e => Some e
            end)]
     else [])
  /\ qr_files (trace (asyncLogin_goroutine cfg run))
     = (if started
        then (QR_Code (first_item run), "Initial QR Code")
               :: match Client_PairPhone run with
                  | Ok _ => []
                  | Err _ =>
                      map (fun c => (c, "QR Code Retry")) (codes_until_end (tl (qrChan run)))
                  end
        else []).
Proof.
  cbv zeta. unfold asyncLogin_goroutine, login_client_name. rewrite bind_log. cbn [trace fst].
  rewrite pairings_Log, qr_files_Log.
  change (first_item run) with (match qrChan run with
                                | e :: _ => e
                                | [] => {| QR_Event := ""; QR_Code := "" |}
                                end).
  destruct (Client_Connect run) as [e|]; cbn [is_nil andb]; [split; reflexivity|].
  set (evt := match qrChan run with
              | e :: _ => e
              | [] => {| QR_Event := ""; QR_Code := "" |}
              end).
  destruct (String.eqb (QR_Event evt) "code"); [|split; reflexivity].
  rewrite trace_bind.
  assert (Hwhen : forall (b : bool) msg,
             pairings (trace (when (R := unit) b (log LevelError msg None))) = []
             /\ qr_files (trace (when (R := unit) b (log LevelError msg None))) = []
             /\ snd (when (R := unit) b (log LevelError msg None)) = Next tt)
    by (intros [] msg; repeat split).
  destruct (Hwhen ((String.length (RecruiterNumber cfg) <? 10)%nat
                   || (15 <? String.length (RecruiterNumber cfg))%nat)
              "Invalid phone number format") as (Hp1 & Hq1 & ->).
  rewrite pairings_app, qr_files_app, Hp1, Hq1. cbn [app].
  destruct (qr_fallback_loop_files (RecruiterNumber cfg) (tl (qrChan run))) as [Hfp Hfq].
  destruct (pairing_wait_loop_quiet (tl (qrChan run))) as [Hwp Hwq].
  destruct (strings_EqualFold "Chrome (Ubuntu)" (HostClientType cfg)); cbn [negb when];
    rewrite ?bind_ret, ?bind_log, ?bind_emit; cbn [trace fst];
    rewrite ?pairings_Log, ?qr_files_Log, pairings_QRCodeFile, qr_files_QRCodeFile;
    destruct (Client_PairPhone run) as [code|e]; cbv beta iota;
    rewrite ?bind_emit, ?bind_log; cbn [trace fst snd];
    rewrite pairings_PairPhone, qr_files_PairPhone, pairings_Log, qr_files_Log,
      ?Hfp, ?Hfq, ?Hwp, ?Hwq;
    split; reflexivity.
Qed.

End LoginGoroutine.

(** X19. The login goroutine asks the transport to pair at most once, and
    exactly when the transport connected and the first item of the QR
    channel is a code. It pairs the tenant's number whatever its length, and
    under the name "Chrome (Ubuntu)" (or the configured host client type
    when that is the same name up to letter case): the checks that make
    [PairPhone] refuse are only logged here. *)
Theorem login_goroutine_pairs_unchecked (cfg : RecruiterConfig) (run : LoginRun) :
  pairings (trace (asyncLogin_goroutine cfg run))
  = (if is_nil (Client_Connect run) && String.eqb (QR_Event (first_item run)) "code"
     then [(RecruiterNumber cfg, login_client_name cfg,
            match Client_PairPhone run with
            | Ok _ => None
            | Err e => Some e
            end)]
     else [])
  /\ (Client_Connect run <> None ->
      asyncLogin_goroutine cfg run
      = ([Log LevelInfo "Starting authentication process" None;
          Log LevelError "Failed to connect WhatsApp client" None], Panicked)).
Proof.
  split; [exact (proj1 (asyncLogin_goroutine_effects cfg run))|].
  intros Hfail. unfold asyncLogin_goroutine. rewrite bind_log.
  destruct (Client_Connect run); [reflexivity|now elim Hfail].
Qed.

(** X20. The QR codes the login goroutine writes to the tenant's QR file:
    the code of the first item, when that is a code; then, only if the
    phone pairing failed, the codes of the items that follow, up to the
    first success or timeout item. After a successful pairing no further
    code is written. *)
Theorem login_goroutine_qr_files (cfg : RecruiterConfig) (run : LoginRun) :
  qr_files (trace (asyncLogin_goroutine cfg run))
  = (if is_nil (Client_Connect run) && String.eqb (QR_Event (first_item run)) "code"
     then (QR_Code (first_item run), "Initial QR Code")
            :: match Client_PairPhone run with
               | Ok _ => []
               | Err _ =>
                   map (fun c => (c, "QR Code Retry")) (codes_until_end (tl (qrChan run)))
               end
     else []).
Proof. exact (proj2 (asyncLogin_goroutine_effects cfg run)). Qed.

(** ** Session supervisor: the device store *)

Section DeviceStore.

(** Over stored devices that all have an id, the loop is a search for the
    first device of the tenant. *)
Lemma getOrCreateDeviceStore_search wcm container ids :
  Container_ wcm = Some container ->
  finished (getOrCreateDeviceStore wcm (map stored ids))
  = Some (set_IsConnected wcm true,
          match matching_device (RecruiterNumber (RecruiterConfig_ wcm)) ids with
          | Some id => GetDevice container id
          | None => Ok (Some (NewDevice container))
          end).
Proof.
  intros Hc. induction ids as [|id ids IH]; cbn [map getOrCreateDeviceStore].
  - rewrite bind_log. cbn [Container_ set_IsConnected]. now rewrite Hc.
  - cbn [stored Device_ID deref]. rewrite bind_ret. cbn [is_nil negb andb matching_device find].
    destruct (String.eqb (ExtractPhoneNumber (User id)) _); [|exact IH].
    rewrite bind_log. cbn [Container_ set_IsConnected]. now rewrite Hc.
Qed.

Lemma getOrCreateDeviceStore_nil_id wcm ids devices :
  matching_device (RecruiterNumber (RecruiterConfig_ wcm)) ids = None ->
  snd (getOrCreateDeviceStore wcm (map stored ids ++ {| Device_ID := None |} :: devices))
  = Panicked.
Proof.
  induction ids as [|id ids IH]; cbn [map app getOrCreateDeviceStore]; [reflexivity|].
  cbn [stored Device_ID deref]. rewrite bind_ret. cbn [is_nil negb andb matching_device find].
  destruct (String.eqb (ExtractPhoneNumber (User id)) _); [discriminate|exact IH].
Qed.

End DeviceStore.

(** X21. Over stored devices that all have an id, [getOrCreateDeviceStore]
    returns what the container's [GetDevice] answers for the first device
    whose bare user is the tenant's number, its error included, and the
    container's new device when there is none; the devices behind the first
    match are not looked at. Either way it has marked the supervisor
    connected. *)
Theorem getOrCreateDeviceStore_first_match (wcm : WhatsAppClientManager)
    (container : Container) (ids : list JID)
    (Hcontainer : Container_ wcm = Some container) :
  finished (getOrCreateDeviceStore wcm (map stored ids))
  = Some (set_IsConnected wcm true,
          match matching_device (RecruiterNumber (RecruiterConfig_ wcm)) ids with
          | Some id => GetDevice container id
          | None => Ok (Some (NewDevice container))
          end)
  /\ (forall id ids' devices,
        matching_device (RecruiterNumber (RecruiterConfig_ wcm)) ids = Some id ->
        finished (getOrCreateDeviceStore wcm (map stored ids ++ devices))
        = finished (getOrCreateDeviceStore wcm (map stored (ids ++ ids')))).
Proof.
  split; [exact (getOrCreateDeviceStore_search wcm container ids Hcontainer)|].
  intros id ids' devices Hm. rewrite getOrCreateDeviceStore_search with (container := container);
    [|exact Hcontainer].
  assert (Hfind : matching_device (RecruiterNumber (RecruiterConfig_ wcm)) (ids ++ ids')
                  = Some id).
  { unfold matching_device in *. induction ids as [|i ids IH]; [discriminate|].
    cbn [app find] in *. destruct (String.eqb _ _); [exact Hm|exact (IH Hm)]. }
  rewrite Hfind. clear Hfind.
  induction ids as [|i ids IH]; [discriminate|].
  cbn [map app getOrCreateDeviceStore stored Device_ID deref]. rewrite bind_ret.
  cbn [is_nil negb andb]. unfold matching_device in Hm. cbn [find] in Hm.
  destruct (String.eqb (ExtractPhoneNumber (User i)) _).
  - injection Hm as ->. rewrite bind_log. cbn [Container_ set_IsConnected].
    now rewrite Hcontainer.
  - exact (IH Hm).
Qed.

Lemma getOrCreateDeviceStore_first_match_witness :
  finished (getOrCreateDeviceStore (test_supervisor [])
              (map stored [user_jid TestData_ApplicantNumber;
                           user_jid TestData_RecruiterNumber]))
  = Some (set_IsConnected (test_supervisor []) true,
          Ok (Some (stored (user_jid TestData_RecruiterNumber)))).
Proof.
  exact (proj1 (getOrCreateDeviceStore_first_match (test_supervisor []) bench_container
                  [user_jid TestData_ApplicantNumber; user_jid TestData_RecruiterNumber]
                  eq_refl)).
Defined.

(** X22. A stored device without id makes [getOrCreateDeviceStore], and so
    a first [Connect], panic when the loop reaches it before a device of
    the tenant: the device's id is read before it is tested against nil. *)
Theorem device_without_id_panics `{Externals} (wcm : WhatsAppClientManager) (ids : list JID)
    (devices : list Device)
    (Hbefore : matching_device (RecruiterNumber (RecruiterConfig_ wcm)) ids = None) :
  let devicesInStore := map stored ids ++ {| Device_ID := None |} :: devices in
  snd (getOrCreateDeviceStore wcm devicesInStore) = Panicked
  /\ (IsConnected wcm = false -> finished (Connect wcm devicesInStore) = None).
Proof.
  cbv zeta.
  pose proof (getOrCreateDeviceStore_nil_id wcm ids devices Hbefore) as Hpanic.
  split; [exact Hpanic|].
  intros Hoff. unfold Connect, finished. rewrite Hoff, snd_bind.
  destruct (getOrCreateDeviceStore wcm _) as [t o]. cbn [snd] in Hpanic. now subst o.
Qed.

Lemma device_without_id_panics_witness :
  finished (Connect (H := bench)
              (NewWhatsAppClientManager (GetTestRecruiterConfig false) (Some bench_container)
                 None None)
              [stored (user_jid TestData_ApplicantNumber); {| Device_ID := None |};
               stored (user_jid TestData_RecruiterNumber)])
  = None.
Proof.
  exact (proj2 (device_without_id_panics (H := bench)
                  (NewWhatsAppClientManager (GetTestRecruiterConfig false)
                     (Some bench_container) None None)
                  [user_jid TestData_ApplicantNumber]
                  [stored (user_jid TestData_RecruiterNumber)] eq_refl) eq_refl).
Defined.

(** ** Session supervisor: a failed connect *)

Section FailedConnect.
Context `{Externals}.

Lemma LoginEventHandler_failure wcm deviceStore w' e :
  finished (LoginEventHandler wcm deviceStore) = Some (w', Some e) ->
  IsConnected w' = IsConnected wcm /\ WhatsAppClient w' = None.
Proof.
  unfold LoginEventHandler.
  destruct deviceStore as [d|].
  - rewrite bind_ret. cbn [DeviceStore set_DeviceStore deref]. rewrite bind_ret.
    cbn [WhatsAppClient set_WhatsAppClient].
    destruct (whatsmeow_NewClient d); cbn; [discriminate|].
    intros [= <- _]. split; reflexivity.
  - destruct (Container_ wcm) as [container|]; cbn [deref]; [|discriminate].
    rewrite !bind_ret. cbn [DeviceStore set_DeviceStore deref]. rewrite bind_ret.
    cbn [WhatsAppClient set_WhatsAppClient].
    destruct (whatsmeow_NewClient _); cbn; [discriminate|].
    intros [= <- _]. split; reflexivity.
Qed.

End FailedConnect.

(** X23. A [Connect] that fails, because the container cannot give the
    stored device or because no client can be built on it, still leaves the
    supervisor marked connected; every later [Connect] then returns nil at
    once ("Client already connected") without building a client. *)
Theorem failed_Connect_stays_connected `{Externals} (wcm : WhatsAppClientManager)
    (devicesInStore : list Device) (w' : WhatsAppClientManager) (e : error)
    (Hoff : IsConnected wcm = false)
    (Hfail : finished (Connect wcm devicesInStore) = Some (w', Some e)) :
  IsConnected w' = true
  /\ (WhatsAppClient wcm = None -> WhatsAppClient w' = None)
  /\ forall devices,
       Connect w' devices
       = ([Log LevelInfo "Client already connected" None], Returned (w', None)).
Proof.
  assert (Hflag : IsConnected w' = true /\ (WhatsAppClient wcm = None -> WhatsAppClient w' = None)).
  { revert Hfail. unfold Connect. rewrite Hoff. unfold finished.
    rewrite snd_bind, call_finished.
    destruct (finished (getOrCreateDeviceStore wcm devicesInStore)) as [[w1 r]|] eqn:Hstore;
      [|discriminate].
    apply getOrCreateDeviceStore_sets_flag in Hstore. subst w1.
    destruct r as [deviceStore|err].
    - rewrite snd_bind, call_finished.
      destruct (finished (LoginEventHandler _ deviceStore)) as [[w2 err]|] eqn:Hlogin;
        [|discriminate].
      destruct err as [e'|]; cbn; [|discriminate].
      intros [= <- _]. apply LoginEventHandler_failure in Hlogin.
      destruct Hlogin as [Hf Hc]. split; [now rewrite Hf|]. intros _. exact Hc.
    - rewrite bind_log. cbn. intros [= <- _]. split; [reflexivity|]. auto. }
  destruct Hflag as [Hflag Hclient]. split; [exact Hflag|]. split; [exact Hclient|].
  intros devices. unfold Connect. rewrite Hflag. now rewrite bind_log.
Qed.

Lemma failed_Connect_stays_connected_witness :
  let fresh := NewWhatsAppClientManager (GetTestRecruiterConfig false)
                 (Some failing_container) None None in
  exists w',
    finished (Connect (H := bench) fresh [stored (user_jid TestData_RecruiterNumber)])
    = Some (w', Some "sql: database is closed")
    /\ IsConnected w' = true
    /\ WhatsAppClient w' = None
    /\ finished (Connect (H := bench) w' []) = Some (w', None).
Proof.
  cbv zeta. eexists.
  assert (Hfail : finished (Connect (H := bench)
                    (NewWhatsAppClientManager (GetTestRecruiterConfig false)
                       (Some failing_container) None None)
                    [stored (user_jid TestData_RecruiterNumber)])
                  = Some (_, Some "sql: database is closed")) by (vm_compute; reflexivity).
  split; [exact Hfail|].
  destruct (failed_Connect_stays_connected (H := bench)
              (NewWhatsAppClientManager (GetTestRecruiterConfig false)
                 (Some failing_container) None None)
              [stored (user_jid TestData_RecruiterNumber)] _ _ eq_refl Hfail)
    as (Hflag & Hclient & Hagain).
  split; [exact Hflag|]. split; [exact (Hclient eq_refl)|].
  rewrite Hagain. reflexivity.
Defined.

(** ** Fleet manager: registration *)

Section Registration.
Context `{Externals}.

Lemma LoginEventHandler_success wcm deviceStore w' :
  finished (LoginEventHandler wcm deviceStore) = Some (w', None) ->
  RecruiterConfig_ w' = RecruiterConfig_ wcm
  /\ MessageCallback w' = MessageCallback wcm
  /\ database w' = database wcm
  /\ OnLogout w' = OnLogout wcm
  /\ IsConnected w' = true
  /\ WhatsAppClient w' <> None.
Proof.
  unfold LoginEventHandler.
  destruct deviceStore as [d|].
  - rewrite bind_ret. cbn [DeviceStore set_DeviceStore deref]. rewrite bind_ret.
    cbn [WhatsAppClient set_WhatsAppClient].
    destruct (whatsmeow_NewClient d); cbn; [|discriminate].
    intros [= <-]. cbn. repeat split. discriminate.
  - destruct (Container_ wcm) as [container|]; cbn [deref]; [|discriminate].
    rewrite !bind_ret. cbn [DeviceStore set_DeviceStore deref]. rewrite bind_ret.
    cbn [WhatsAppClient set_WhatsAppClient].
    destruct (whatsmeow_NewClient _); cbn; [|discriminate].
    intros [= <-]. cbn. repeat split. discriminate.
Qed.

(** A first [Connect] that returns nil: the supervisor is the one that was
    given, now connected and with a client. *)
Lemma Connect_success wcm devicesInStore w' :
  IsConnected wcm = false ->
  finished (Connect wcm devicesInStore) = Some (w', None) ->
  RecruiterConfig_ w' = RecruiterConfig_ wcm
  /\ MessageCallback w' = MessageCallback wcm
  /\ database w' = database wcm
  /\ OnLogout w' = OnLogout wcm
  /\ IsConnected w' = true
  /\ WhatsAppClient w' <> None.
Proof.
  intros Hoff. unfold Connect. rewrite Hoff. unfold finished.
  rewrite snd_bind, call_finished.
  destruct (finished (getOrCreateDeviceStore wcm devicesInStore)) as [[w1 r]|] eqn:Hstore;
    [|discriminate].
  apply getOrCreateDeviceStore_sets_flag in Hstore. subst w1.
  destruct r as [deviceStore|err]; [|rewrite bind_log; discriminate].
  rewrite snd_bind, call_finished.
  destruct (finished (LoginEventHandler _ deviceStore)) as [[w2 err]|] eqn:Hlogin;
    [|discriminate].
  destruct err as [e|]; cbn; [discriminate|].
  intros [= <-]. exact (LoginEventHandler_success _ _ _ Hlogin).
Qed.

(** [InitializeClient], by the outcome of [Connect] on the new supervisor. *)
Lemma InitializeClient_run mcm container rc devicesInStore db mcm' err :
  finished (InitializeClient mcm container rc devicesInStore db) = Some (mcm', err) ->
  match ClientManagers mcm !! RecruiterNumber rc with
  | Some _ => mcm' = mcm /\ err = None
  | None =>
      match err with
      | Some _ => mcm' = mcm
      | None =>
          exists cm,
            mcm' = set_ClientManagers mcm (<[RecruiterNumber rc := cm]> (ClientManagers mcm))
            /\ RecruiterConfig_ cm = rc
            /\ MessageCallback cm = Some (SendMessageToKafka_callback (MessageHandler_ mcm))
            /\ database cm = db
            /\ OnLogout cm = true
            /\ IsConnected cm = true
            /\ WhatsAppClient cm <> None
      end
  end.
Proof.
  unfold InitializeClient.
  destruct (ClientManagers mcm !! RecruiterNumber rc) as [cm0|].
  { rewrite bind_log. cbn. intros [= <- <-]. split; reflexivity. }
  unfold finished. rewrite snd_bind, call_finished.
  destruct (finished (Connect _ devicesInStore)) as [[cm e]|] eqn:Hconnect; [|discriminate].
  destruct e as [e|].
  - rewrite bind_log. cbn. intros [= <- <-]. reflexivity.
  - rewrite bind_log. cbn [snd]. intros [= <- <-].
    apply Connect_success in Hconnect; [|reflexivity].
    destruct Hconnect as (Hrc & Hcb & Hdb & Hol & Hflag & Hclient).
    exists (set_OnLogout cm true). split.
    + unfold set_ClientManagers. cbn [ClientManagers KafkaReaders MessageHandler_].
      now rewrite insert_insert_eq.
    + cbn. repeat split; assumption.
Qed.

End Registration.

(** X24. [InitializeClient] never replaces a registered supervisor and
    never touches another tenant's entry. For a tenant that is not
    registered it registers a new supervisor exactly when [Connect] on it
    returned nil; that supervisor is connected, has a client, publishes
    through the handler's [SendMessageToKafka] and has the logout callback
    installed. When [Connect] fails the registry is unchanged and the error
    is returned. *)
Theorem InitializeClient_registers `{Externals} (mcm : MainClientManager)
    (container : option Container) (recruiterConfig : RecruiterConfig)
    (devicesInStore : list Device) (database_ : option PostgresRepository)
    (mcm' : MainClientManager) (err : option error)
    (Hrun : finished (InitializeClient mcm container recruiterConfig devicesInStore database_)
            = Some (mcm', err)) :
  (forall k, k <> RecruiterNumber recruiterConfig ->
             GetClientManager mcm' k = GetClientManager mcm k)
  /\ (forall cm, GetClientManager mcm (RecruiterNumber recruiterConfig) = Some cm ->
                 mcm' = mcm /\ err = None)
  /\ (GetClientManager mcm (RecruiterNumber recruiterConfig) = None ->
      match err with
      | Some _ => mcm' = mcm
      | None =>
          exists cm,
            GetClientManager mcm' (RecruiterNumber recruiterConfig) = Some cm
            /\ RecruiterConfig_ cm = recruiterConfig
            /\ MessageCallback cm = Some (SendMessageToKafka_callback (MessageHandler_ mcm))
            /\ OnLogout cm = true
            /\ IsConnected cm = true
            /\ WhatsAppClient cm <> None
      end).
Proof.
  pose proof (InitializeClient_run mcm container recruiterConfig devicesInStore database_
                mcm' err Hrun) as Hcases.
  unfold GetClientManager.
  destruct (ClientManagers mcm !! RecruiterNumber recruiterConfig) as [cm0|] eqn:Hreg.
  - destruct Hcases as [-> ->]. split; [reflexivity|]. split; [auto|discriminate].
  - split; [|split; [discriminate|intros _]].
    + intros k Hk. destruct err as [e|]; [now subst mcm'|].
      destruct Hcases as (cm & -> & _). cbn. now rewrite lookup_insert_ne.
    + destruct err as [e|]; [exact Hcases|].
      destruct Hcases as (cm & -> & Hrc & Hcb & _ & Hol & Hflag & Hclient).
      exists cm. cbn. rewrite lookup_insert_eq. repeat split; assumption.
Qed.

Lemma InitializeClient_registers_witness :
  exists mcm' cm,
    finished (InitializeClient (H := bench) (NewMainClientManager ∅ ∅) (Some bench_container)
                (GetTestRecruiterConfig false) [] None)
    = Some (mcm', None)
    /\ GetClientManager mcm' TestData_RecruiterNumber = Some cm
    /\ IsConnected cm = true
    /\ OnLogout cm = true.
Proof.
  eexists.
  assert (Hrun : finished (InitializeClient (H := bench) (NewMainClientManager ∅ ∅)
                             (Some bench_container) (GetTestRecruiterConfig false) [] None)
                 = Some (_, None)) by (vm_compute; reflexivity).
  destruct (InitializeClient_registers (H := bench) (NewMainClientManager ∅ ∅)
              (Some bench_container) (GetTestRecruiterConfig false) [] None _ _ Hrun)
    as (_ & _ & Hnew).
  destruct (Hnew eq_refl) as (cm & Hreg & _ & _ & Hol & Hflag & _).
  exists cm. split; [exact Hrun|]. split; [exact Hreg|]. split; assumption.
Defined.

Section RegistrationOfAll.
Context `{Externals}.

(** The loop over the configured tenants, when it ends without panic. *)
Lemma InitializeAllClients_range_run container devicesInStore db configs : forall mcm mcm',
  (snd (InitializeAllClients_range mcm container configs devicesInStore db) = Next mcm'
   \/ exists e, snd (InitializeAllClients_range mcm container configs devicesInStore db)
                = Returned (mcm', Some e)) ->
  (forall k cm, ClientManagers mcm !! k = Some cm -> ClientManagers mcm' !! k = Some cm)
  /\ (forall k cm, ClientManagers mcm !! k = None -> ClientManagers mcm' !! k = Some cm ->
        (exists rc, In rc configs /\ Enable rc = true /\ RecruiterNumber rc = k)
        /\ RecruiterNumber (RecruiterConfig_ cm) = k
        /\ OnLogout cm = true /\ IsConnected cm = true /\ WhatsAppClient cm <> None)
  /\ (snd (InitializeAllClients_range mcm container configs devicesInStore db) = Next mcm' ->
      forall rc, In rc configs -> Enable rc = true ->
                 is_Some (ClientManagers mcm' !! RecruiterNumber rc))
  /\ MessageHandler_ mcm' = MessageHandler_ mcm.
Proof.
  induction configs as [|rc configs IH]; intros mcm mcm' Hend;
    cbn [InitializeAllClients_range] in *.
  - destruct Hend as [[= <-]|(e & He)]; [|discriminate].
    split; [auto|]. split; [|split; [intros _ rc []|reflexivity]].
    intros k cm Hn Hs. rewrite Hn in Hs. discriminate.
  - destruct (Enable rc) eqn:Hen.
    2: { destruct (IH mcm mcm' Hend) as (Hgrow & Hnew & Hall & Hmh).
         split; [exact Hgrow|]. split; [|split; [|exact Hmh]].
         - intros k cm Hn Hs. destruct (Hnew k cm Hn Hs) as ((rc' & Hin & He & Hk) & Hrest).
           split; [|exact Hrest]. exists rc'. split; [now right|]. split; assumption.
         - intros Hnext rc' [<-|Hin] He; [congruence|]. exact (Hall Hnext rc' Hin He). }
    rewrite snd_bind, call_finished in *.
    destruct (finished (InitializeClient mcm container rc devicesInStore db))
      as [[mcm1 err]|] eqn:Hinit.
    2: { destruct Hend as [Hn|(e & He)]; discriminate. }
    pose proof (InitializeClient_run mcm container rc devicesInStore db mcm1 err Hinit)
      as Hstep.
    destruct err as [e|].
    + (* the client failed to connect: the loop returns *)
      rewrite bind_log in *. cbn [snd] in *.
      destruct Hend as [Hn|(e' & [= <- _])]; [discriminate|].
      assert (Hsame : mcm1 = mcm).
      { destruct (ClientManagers mcm !! RecruiterNumber rc); [|exact Hstep].
        destruct Hstep as [_ Hno]. discriminate. }
      subst mcm1. split; [auto|]. split; [|split; [discriminate|reflexivity]].
      intros k cm Hn Hs. rewrite Hn in Hs. discriminate.
    + destruct (IH mcm1 mcm' Hend) as (Hgrow & Hnew & Hall & Hmh).
      destruct (ClientManagers mcm !! RecruiterNumber rc) as [cm0|] eqn:Hreg.
      * (* already registered: skipped *)
        destruct Hstep as [-> _].
        split; [exact Hgrow|]. split; [|split; [|exact Hmh]].
        -- intros k cm Hn Hs. destruct (Hnew k cm Hn Hs) as ((rc' & Hin & He & Hk) & Hrest).
           split; [|exact Hrest]. exists rc'. split; [now right|]. split; assumption.
        -- intros Hnext rc' [<-|Hin] He; [|exact (Hall Hnext rc' Hin He)].
           exists cm0. exact (Hgrow _ _ Hreg).
      * destruct Hstep as (cm1 & -> & Hrc & _ & _ & Hol & Hflag & Hclient).
        cbn [set_ClientManagers ClientManagers MessageHandler_] in *.
        split; [|split; [|split; [|exact Hmh]]].
        -- intros k cm Hs. apply Hgrow.
           destruct (String.eqb_spec k (RecruiterNumber rc)) as [->|Hne];
             [congruence|now rewrite lookup_insert_ne].
        -- intros k cm Hn Hs.
           destruct (String.eqb_spec k (RecruiterNumber rc)) as [->|Hne].
           ++ assert (Hcm : cm = cm1).
              { pose proof (Hgrow (RecruiterNumber rc) cm1 (lookup_insert_eq _ _ _)) as Hk.
                congruence. }
              subst cm. split; [exists rc; split; [now left|split; [exact Hen|reflexivity]]|].
              rewrite Hrc. repeat split; assumption.
           ++ assert (Hn1 : <[RecruiterNumber rc := cm1]> (ClientManagers mcm) !! k = None)
                by now rewrite lookup_insert_ne.
              destruct (Hnew k cm Hn1 Hs) as ((rc' & Hin & He & Hk) & Hrest).
              split; [|exact Hrest]. exists rc'. split; [now right|]. split; assumption.
        -- intros Hnext rc' [<-|Hin] He; [|exact (Hall Hnext rc' Hin He)].
           exists cm1. apply Hgrow. apply lookup_insert_eq.
Qed.

End RegistrationOfAll.

(** X25. [InitializeAllClients] only adds to the registry: supervisors
    registered before stay as they are, and a supervisor is added only for
    a configured tenant that is enabled; each one added is connected, has a
    client and the logout callback, and is registered under its own number.
    When it returns nil every enabled configured tenant is registered; when
    it returns an error the supervisors registered until then stay
    registered. When the container cannot list the stored devices nothing
    is registered. *)
Theorem InitializeAllClients_registers_enabled `{Externals} (mcm : MainClientManager)
    (container : option Container) (WhatsApp : list RecruiterConfig)
    (GetAllDevices : result (list Device)) (database_ : option PostgresRepository)
    (mcm' : MainClientManager) (err : option error)
    (Hrun : finished (InitializeAllClients mcm container WhatsApp GetAllDevices database_)
            = Some (mcm', err)) :
  (forall k cm, GetClientManager mcm k = Some cm -> GetClientManager mcm' k = Some cm)
  /\ (forall k cm, GetClientManager mcm k = None -> GetClientManager mcm' k = Some cm ->
        (exists rc, In rc WhatsApp /\ Enable rc = true /\ RecruiterNumber rc = k)
        /\ RecruiterNumber (RecruiterConfig_ cm) = k
        /\ OnLogout cm = true /\ IsConnected cm = true /\ WhatsAppClient cm <> None)
  /\ (err = None ->
      forall rc, In rc WhatsApp -> Enable rc = true ->
                 is_Some (GetClientManager mcm' (RecruiterNumber rc)))
  /\ (is_Err GetAllDevices = true -> mcm' = mcm /\ err <> None).
Proof.
  unfold GetClientManager. revert Hrun. unfold InitializeAllClients, finished.
  rewrite bind_log. cbn [snd].
  destruct container as [c|]; cbn [deref]; [|discriminate]. rewrite bind_ret.
  destruct GetAllDevices as [devicesInStore|e].
  2: { rewrite bind_log. cbn. intros [= <- <-].
       split; [auto|]. split; [|split; [discriminate|]].
       - intros k cm Hn Hs. rewrite Hn in Hs. discriminate.
       - intros _. split; [reflexivity|discriminate]. }
  rewrite snd_bind.
  destruct (snd (InitializeAllClients_range mcm (Some c) WhatsApp devicesInStore database_))
    as [m|[m e]|] eqn:Hrange; [| |discriminate].
  - rewrite bind_log. cbn. intros [= <- <-].
    destruct (InitializeAllClients_range_run (Some c) devicesInStore database_ WhatsApp mcm m
                (or_introl Hrange)) as (Hgrow & Hnew & Hall & _).
    split; [exact Hgrow|]. split; [exact Hnew|]. split; [|discriminate].
    intros _. exact (Hall Hrange).
  - intros [= <- <-].
    destruct e as [e|].
    + destruct (InitializeAllClients_range_run (Some c) devicesInStore database_ WhatsApp mcm m
                  (or_intror (ex_intro _ e Hrange))) as (Hgrow & Hnew & _ & _).
      split; [exact Hgrow|]. split; [exact Hnew|]. split; discriminate.
    + exfalso. revert Hrange. clear. revert mcm.
      induction WhatsApp as [|rc configs IH]; intros mcm; cbn [InitializeAllClients_range];
        [discriminate|].
      destruct (Enable rc); [|apply IH].
      rewrite snd_bind, call_finished.
      destruct (finished (InitializeClient _ _ _ _ _)) as [[m1 [e1|]]|];
        [rewrite bind_log; discriminate|apply IH|discriminate].
Qed.

Lemma InitializeAllClients_registers_enabled_witness :
  let configs :=
    [GetTestRecruiterConfig false;
     {| RecruiterNumber := TestData_ApplicantNumber;
        HostClientType := TestData_HostClientType;
        HostClientName := TestData_HostClientName;
        AllowedMediaTypes := TestData_DefaultAllowedTypes;
        MessageRateLimit := TestData_DefaultRateLimit;
        Enable := false |}] in
  exists mcm',
    finished (InitializeAllClients (H := bench) (NewMainClientManager ∅ ∅)
                (Some bench_container) configs (Ok []) None)
    = Some (mcm', None)
    /\ is_Some (GetClientManager mcm' TestData_RecruiterNumber)
    /\ GetClientManager mcm' TestData_ApplicantNumber = None.
Proof.
  cbv zeta. eexists.
  match goal with
  | |- finished ?run = _ /\ _ =>
      assert (Hrun : finished run = Some (_, None)) by (vm_compute; reflexivity)
  end.
  split; [exact Hrun|].
  destruct (InitializeAllClients_registers_enabled (H := bench) (NewMainClientManager ∅ ∅)
              (Some bench_container) _ (Ok []) None _ _ Hrun) as (_ & _ & Hall & _).
  split.
  - apply (Hall eq_refl (GetTestRecruiterConfig false)); [now left|reflexivity].
  - vm_compute. reflexivity.
Defined.

(** ** Fleet manager: shutting down *)

Section Shutdown.

Lemma Disconnect_run wcm :
  snd (Disconnect wcm) = Next (disconnected wcm).
Proof.
  unfold Disconnect, disconnected.
  destruct (negb (is_nil (WhatsAppClient wcm)) && IsConnected wcm); reflexivity.
Qed.

Lemma disconnected_idempotent wcm : disconnected (disconnected wcm) = disconnected wcm.
Proof.
  unfold disconnected.
  destruct (negb (is_nil (WhatsAppClient wcm)) && IsConnected wcm) eqn:Hlive; cbn.
  - now rewrite andb_false_r.
  - now rewrite Hlive.
Qed.

(** The loop disconnects the supervisors whose keys it visits, in place, and
    leaves the others. *)
Lemma DisconnectAllClients_range_run order : forall cms,
  exists cms',
    snd (DisconnectAllClients_range order cms) = Next cms'
    /\ forall k,
         cms' !! k = if existsb (String.eqb k) order then disconnected <$> cms !! k
                     else cms !! k.
Proof.
  induction order as [|k0 order IH]; intros cms; cbn [DisconnectAllClients_range].
  - exists cms. split; [reflexivity|]. intros k. reflexivity.
  - destruct (cms !! k0) as [cm|] eqn:Hk0.
    + rewrite snd_bind. unfold call.
      pose proof (Disconnect_run cm) as Hd.
      destruct (Disconnect cm) as [t o]. cbn [snd] in Hd. subst o. cbn [snd].
      rewrite bind_log. cbn [snd].
      destruct (IH (<[k0 := disconnected cm]> cms)) as (cms' & Hrun & Hlook).
      exists cms'. split; [exact Hrun|].
      intros k. rewrite Hlook. cbn [existsb].
      destruct (String.eqb_spec k k0) as [->|Hne]; cbn [orb].
      * rewrite lookup_insert_eq, Hk0. cbn.
        destruct (existsb _ order); [now rewrite disconnected_idempotent|reflexivity].
      * now rewrite lookup_insert_ne.
    + destruct (IH cms) as (cms' & Hrun & Hlook).
      exists cms'. split; [exact Hrun|].
      intros k. rewrite Hlook. cbn [existsb].
      destruct (String.eqb_spec k k0) as [->|Hne]; cbn [orb]; [|reflexivity].
      rewrite Hk0. now destruct (existsb _ order).
Qed.

End Shutdown.

(** X26. [DisconnectAllClients] leaves the registry's keys as they are and
    every registered supervisor disconnected as [Disconnect] leaves it: in
    whichever order the registry is visited, the result is the same, and no
    supervisor that has a client is connected afterwards. *)
Theorem DisconnectAllClients_disconnects_all (mcm : MainClientManager) (order : list string)
    (Hcovers : forall k, is_Some (ClientManagers mcm !! k) -> In k order) :
  exists mcm',
    snd (DisconnectAllClients mcm order) = Next mcm'
    /\ ClientManagers mcm' = disconnected <$> ClientManagers mcm
    /\ MessageHandler_ mcm' = MessageHandler_ mcm
    /\ (forall k cm, GetClientManager mcm' k = Some cm ->
          WhatsAppClient cm <> None -> IsConnected cm = false).
Proof.
  unfold DisconnectAllClients. rewrite bind_log. cbn [snd]. rewrite snd_bind.
  destruct (DisconnectAllClients_range_run order (ClientManagers mcm)) as (cms' & -> & Hlook).
  eexists. split; [reflexivity|].
  assert (Hmap : cms' = disconnected <$> ClientManagers mcm).
  { apply map_eq. intros k. rewrite Hlook, lookup_fmap.
    destruct (existsb (String.eqb k) order) eqn:Hin; [reflexivity|].
    destruct (ClientManagers mcm !! k) as [cm|] eqn:Hk; [|reflexivity].
    exfalso. assert (Hk' : In k order) by (apply Hcovers; now exists cm).
    assert (Hex : existsb (String.eqb k) order = true)
      by (apply existsb_exists; exists k; split; [exact Hk'|apply String.eqb_refl]).
    congruence. }
  cbn [set_ClientManagers ClientManagers MessageHandler_].
  split; [exact Hmap|]. split; [reflexivity|].
  intros k cm. unfold GetClientManager, set_ClientManagers. cbn [ClientManagers].
  rewrite Hmap, lookup_fmap.
  destruct (ClientManagers mcm !! k) as [cm0|]; cbn; [|discriminate].
  intros [= <-] Hclient. unfold disconnected in *.
  destruct (WhatsAppClient cm0) as [c|] eqn:Hc0; cbn [is_nil negb andb] in *.
  - destruct (IsConnected cm0) eqn:Hflag; [reflexivity|exact Hflag].
  - now rewrite Hc0 in Hclient.
Qed.

Lemma DisconnectAllClients_disconnects_all_witness :
  exists mcm',
    snd (DisconnectAllClients (bench_fleet [])
           [TestData_ApplicantNumber; TestData_RecruiterNumber]) = Next mcm'
    /\ (forall k cm, GetClientManager mcm' k = Some cm ->
          WhatsAppClient cm <> None -> IsConnected cm = false).
Proof.
  destruct (DisconnectAllClients_disconnects_all (bench_fleet [])
              [TestData_ApplicantNumber; TestData_RecruiterNumber]) as (mcm' & Hrun & _ & _ & Hoff).
  - intros k [cm Hk]. unfold bench_fleet in Hk. cbn [ClientManagers] in Hk.
    destruct (String.eqb_spec k TestData_RecruiterNumber) as [->|Hr]; [right; now left|].
    rewrite lookup_insert_ne in Hk by congruence.
    destruct (String.eqb_spec k TestData_ApplicantNumber) as [->|Ha]; [now left|].
    rewrite lookup_insert_ne in Hk by congruence. rewrite lookup_empty in Hk. discriminate.
  - exists mcm'. split; assumption.
Defined.

(** ** Event bus adapter: closing *)

Section Closing.
Variable Writer_Close : string -> option error.
Variable writers : gmap string Writer.

Lemma Close_range_closed order : forall firstErr,
  fst (Close_range Writer_Close writers order firstErr)
  = map (fun key => (key, Writer_Close key))
      (List.filter (fun key => negb (is_nil (writers !! key))) order).
Proof.
  induction order as [|key order IH]; intros firstErr; cbn [Close_range List.filter map];
    [reflexivity|].
  destruct (writers !! key) as [writer|]; cbn [is_nil negb]; [|apply IH].
  cbn [fst map]. now rewrite IH.
Qed.

Lemma Close_range_keeps order : forall e,
  snd (Close_range Writer_Close writers order (Some e)) = Some e.
Proof.
  induction order as [|key order IH]; intros e; cbn [Close_range]; [reflexivity|].
  destruct (writers !! key) as [writer|]; [|apply IH].
  cbn [snd]. destruct (Writer_Close key); cbn [is_nil]; apply IH.
Qed.

Lemma Close_range_first order :
  snd (Close_range Writer_Close writers order None)
  = match find (fun c => negb (is_nil (snd c)))
            (fst (Close_range Writer_Close writers order None)) with
    | Some (key, Some e) => Some ("error closing writer [" +:+ key +:+ "]: " +:+ e)
    | _ => None
    end.
Proof.
  induction order as [|key order IH]; cbn [Close_range]; [reflexivity|].
  destruct (writers !! key) as [writer|]; [|exact IH].
  cbn [fst snd find].
  destruct (Writer_Close key) as [e|] eqn:Hclose; cbn [is_nil negb].
  - apply Close_range_keeps.
  - exact IH.
Qed.

End Closing.

(** X27. [Close] closes every writer of the handler it visits, whether or
    not an earlier close failed, and returns nil exactly when every close
    succeeded; otherwise the error it returns names the first writer, in the
    order of the visit, whose close failed. *)
Theorem Close_closes_every_writer (mh : MessageHandler)
    (Writer_Close : string -> option error) (order : list string) :
  let closed := fst (Close mh Writer_Close order) in
  closed = map (fun key => (key, Writer_Close key))
             (List.filter (fun key => negb (is_nil (KafkaWriters mh !! key))) order)
  /\ snd (Close mh Writer_Close order)
     = match find (fun c => negb (is_nil (snd c))) closed with
       | Some (key, Some e) => Some ("error closing writer [" +:+ key +:+ "]: " +:+ e)
       | _ => None
       end
  /\ (snd (Close mh Writer_Close order) = None <-> Forall (fun c => snd c = None) closed).
Proof.
  cbv zeta. unfold Close.
  split; [apply Close_range_closed|]. split; [apply Close_range_first|].
  rewrite Close_range_first.
  generalize (fst (Close_range Writer_Close (KafkaWriters mh) order None)). intros closed.
  induction closed as [|[key [e|]] closed IH]; cbn [find snd is_nil negb].
  - split; [constructor|reflexivity].
  - split; [discriminate|]. intros Hall. inversion Hall as [|? ? Hhd _]. discriminate.
  - split.
    + intros Hnone. constructor; [reflexivity|]. now apply IH.
    + intros Hall. inversion Hall as [|? ? _ Htl]. now apply IH.
Qed.
